(** * sync_nodes: a shallow embedding of [bin/sync_nodes.py]

    The script walks nodes, then folders, then services; it probes each
    node over ssh, mirrors the selected folders with rsync and optionally
    restarts services.  This development embeds the script statement by
    statement and proves properties of its control flow.

    What the embedding keeps from Python:
    - the parsed YAML document is an untyped [value]; indexing, [in],
      [len], truthiness and [isinstance] behave as in Python and raise the
      same exceptions;
    - dictionaries keep their insertion order (association lists);
    - [exit] and uncaught exceptions end the run at once;
    - every [logging], [print], [subprocess.run] and [time.sleep] call is
      an event of the run, in program order.

    What lies outside: floats and dates in the document, mapping keys that
    are not strings, YAML anchors that would make two entries one object,
    and failures of [logging.basicConfig] or [getpass.getuser].  A text is
    held as its UTF-8 bytes. *)

From Stdlib Require Import List String Ascii ZArith Bool Lia DecimalString.
Import ListNotations.

Local Open Scope string_scope.
Local Open Scope list_scope.

(** ** Values of the configuration document *)

#[local] Set Warnings "-register-all".

Inductive value : Type :=
| VNone
| VBool (b : bool)
| VInt (n : Z)
| VStr (s : string)
| VList (xs : list value)
| VDict (kvs : list (string * value)).

Definition dict : Type := list (string * value).

(** [d.get(k)]: the value bound to [k], if any. *)
Fixpoint dict_get (k : string) (d : dict) : option value :=
  match d with
  | [] => None
  | (k', v) :: d' => if String.eqb k k' then Some v else dict_get k d'
  end.

(** [d[k] = v]: an existing key keeps its place, a new one goes last. *)
Fixpoint dict_set (k : string) (v : value) (d : dict) : dict :=
  match d with
  | [] => [(k, v)]
  | (k', v') :: d' =>
      if String.eqb k k' then (k', v) :: d' else (k', v') :: dict_set k v d'
  end.

(** [k in d] *)
Definition dict_has (k : string) (d : dict) : bool :=
  match dict_get k d with Some _ => true | None => false end.

(** [list(d.keys())] *)
Definition keys (d : dict) : list string := map fst d.

(** [v is None] *)
Definition is_none (v : value) : bool :=
  match v with VNone => true | _ => false end.

(** [isinstance(v, list)] *)
Definition isinstance_list (v : value) : bool :=
  match v with VList _ => true | _ => false end.

(** [v == s] for a string [s]: only an equal string compares equal. *)
Definition eq_str (v : value) (s : string) : bool :=
  match v with VStr t => String.eqb t s | _ => false end.

(** Truth value of [v] in a condition. *)
Definition truthy (v : value) : bool :=
  match v with
  | VNone => false
  | VBool b => b
  | VInt n => negb (n =? 0)%Z
  | VStr s => negb (String.eqb s "")
  | VList xs => match xs with [] => false | _ => true end
  | VDict d => match d with [] => false | _ => true end
  end.

(** [s in t] for two strings: [s] occurs in [t]. *)
Definition substring_of (s t : string) : bool :=
  match String.index 0 s t with Some _ => true | None => false end.

(** Characters that string literals cannot hold directly. *)
Definition nl : string := String (ascii_of_nat 10) EmptyString.
Definition dq : string := String (ascii_of_nat 34) EmptyString.

(** ** Events, outcomes and the world *)

Inductive level : Type := DEBUG | INFO | ERROR.

(** Numeric value of a level in the [logging] module. *)
Definition levelno (l : level) : Z :=
  match l with DEBUG => 10 | INFO => 20 | ERROR => 40 end%Z.

(** An f-string, kept as its literal parts and interpolated values. *)
Inductive piece : Type :=
| Lit (s : string)
| Val (v : value).

Definition fstring : Type := list piece.

Inductive event : Type :=
| Configured (filename : fstring) (lvl : level)
| Logged (lvl : level) (msg : fstring)
| Printed (msg : fstring)
| Ran (argv : list string)
| Slept (secs : Z).

(** What becomes of a command given to [subprocess.run]: the process ran
    to completion with a return code and an output that decodes in the
    system encoding, or it could not be started, or it ran to completion
    with an output that does not decode. *)
Inductive completed : Type :=
| Completed (returncode : Z) (output : string)
| NotLaunched
| Undecodable (returncode : Z).

Inductive exn : Type :=
| KeyError (k : string)
| TypeError
| AttributeError
| ValueError
| OSError
| OverflowError
| UnicodeDecodeError.

Inductive result (A : Type) : Type :=
| Normal (a : A)
| SysExit (code : Z)
| Uncaught (e : exn).

Arguments Normal {A} a.
Arguments SysExit {A} code.
Arguments Uncaught {A} e.

(** Line 177: [subprocess.run(..., check=True)] returns only on return
    code 0; any other code raises CalledProcessError and a failed start
    raises OSError.  The probe discards the output (no [encoding], stdout
    to DEVNULL), so nothing is decoded. *)
Definition returned_zero (c : completed) : bool :=
  match c with
  | Completed rc _ => (rc =? 0)%Z
  | NotLaunched => false
  | Undecodable rc => (rc =? 0)%Z
  end.

(** Everything the script asks of its surroundings.  [subprocess_run] may
    answer differently as the run goes on: it sees the events so far.
    [os_sleep n] tells whether the sleep call of the platform takes a
    pause of [n] seconds. *)
Record World : Type := {
  mypath : string;
  today : string;
  script_name : string;
  getuser : string;
  which : string -> option string;
  settings : option string -> option value;
  shlex_split : fstring -> option (list string);
  subprocess_run : list event -> list string -> completed;
  os_sleep : Z -> bool
}.

(** A computation reads the events so far and yields the events it adds
    together with how it ended. *)
Definition M (A : Type) : Type := list event -> list event * result A.

Definition ret {A} (a : A) : M A := fun _ => ([], Normal a).

Definition bind {A B} (m : M A) (f : A -> M B) : M B :=
  fun h =>
    match m h with
    | (es, Normal a) =>
        match f a (h ++ es) with (es', r) => (es ++ es', r) end
    | (es, SysExit c) => (es, SysExit c)
    | (es, Uncaught e) => (es, Uncaught e)
    end.

Notation "x <- m ;; k" := (bind m (fun x => k))
  (at level 61, m at next level, right associativity).
Notation "m ;;; k" := (bind m (fun _ => k))
  (at level 61, right associativity).

Definition emit (e : event) : M unit := fun _ => ([e], Normal tt).
Definition raise {A} (e : exn) : M A := fun _ => ([], Uncaught e).
Definition exit {A} (code : Z) : M A := fun _ => ([], SysExit code).

(** [continue]: leave the loop body, keeping what it has built so far. *)
Definition continue {A} (a : A) : M A := ret a.

Definition print (msg : fstring) : M unit := emit (Printed msg).
Definition logging (lvl : level) (msg : fstring) : M unit := emit (Logged lvl msg).

(** [d[k]] on a dictionary. *)
Definition getitem (k : string) (d : dict) : M value :=
  match dict_get k d with
  | Some v => ret v
  | None => raise (KeyError k)
  end.

(** The number of characters of a text: the bytes that do not continue a
    UTF-8 sequence. *)
Fixpoint code_points (s : string) : nat :=
  match s with
  | EmptyString => O
  | String c s' =>
      let n := nat_of_ascii c in
      if (Nat.leb 128 n && Nat.ltb n 192)%bool then code_points s'
      else S (code_points s')
  end.

(** [len(v)] *)
Definition len (v : value) : M Z :=
  match v with
  | VStr s => ret (Z.of_nat (code_points s))
  | VList xs => ret (Z.of_nat (List.length xs))
  | VDict d => ret (Z.of_nat (List.length d))
  | VNone | VBool _ | VInt _ => raise TypeError
  end.

(** [v.items()] *)
Definition items (v : value) : M dict :=
  match v with
  | VDict d => ret d
  | _ => raise AttributeError
  end.

(** [s in v] for a string [s]. *)
Definition contains (s : string) (v : value) : M bool :=
  match v with
  | VList xs => ret (existsb (fun x => eq_str x s) xs)
  | VDict d => ret (dict_has s d)
  | VStr t => ret (substring_of s t)
  | VNone | VBool _ | VInt _ => raise TypeError
  end.

(** The longest pause in seconds that fits the 64-bit count of
    nanoseconds [time.sleep] converts its argument to. *)
Definition sleep_cap : Z := 9223372036.

(** [time.sleep] on a whole number of seconds: OverflowError when the
    conversion to nanoseconds overflows, ValueError when the number is
    negative, OSError when the sleep call of the platform refuses it. *)
Definition sleep_seconds (w : World) (n : Z) : M unit :=
  if (sleep_cap <? Z.abs n)%Z then raise OverflowError
  else if (n <? 0)%Z then raise ValueError
  else if os_sleep w n then emit (Slept n)
  else raise OSError.

(** [time.sleep(v)]; [True] and [False] are the integers 1 and 0. *)
Definition time_sleep (w : World) (v : value) : M unit :=
  match v with
  | VInt n => sleep_seconds w n
  | VBool b => sleep_seconds w (if b then 1 else 0)%Z
  | _ => raise TypeError
  end.

(** ** The script *)

Inductive opt : Type :=
| Opt_h
| Opt_d
| Opt_f
| Opt_q
| Opt_c (arg : string).

(** The settings of lines 67-70; [setting_file] is [None] for the default
    path and [Some arg] for a path given with [-c]. *)
Record flags : Type := {
  log_level : level;
  debug : bool;
  foreground : bool;
  quiet : bool;
  setting_file : option string
}.

Definition default_flags : flags :=
  {| log_level := INFO; debug := false; foreground := false; quiet := false;
     setting_file := None |}.

Section Script.

Variable w : World.

Definition usage : fstring :=
  [ Val (VStr (script_name w)); Lit nl;
    Lit "    -h | --help          print this help"; Lit nl;
    Lit "    [-d | --debug]       log verbose information"; Lit nl;
    Lit "    [-f | --foreground]  log to logfile and stdout"; Lit nl;
    Lit "    [-q | --quiet]       log only errors"; Lit nl;
    Lit "    [-c | --config]      config file path, relative to this script location" ].

(** Lines 72-90: one pass over the parsed options. *)
Fixpoint option_loop (opts : list opt) (o : flags) : M flags :=
  match opts with
  | [] => ret o
  | Opt_d :: rest =>
      option_loop rest
        {| log_level := DEBUG; debug := true; foreground := foreground o;
           quiet := quiet o; setting_file := setting_file o |}
  | Opt_f :: rest =>
      option_loop rest
        {| log_level := log_level o; debug := debug o; foreground := true;
           quiet := quiet o; setting_file := setting_file o |}
  | Opt_q :: rest =>
      option_loop rest
        {| log_level := ERROR; debug := debug o; foreground := foreground o;
           quiet := true; setting_file := setting_file o |}
  | Opt_c arg :: rest =>
      option_loop rest
        {| log_level := log_level o; debug := debug o; foreground := foreground o;
           quiet := quiet o; setting_file := Some arg |}
  | Opt_h :: _ => print usage ;;; exit 0
  end.

(** Lines 93-112. *)
Definition mylog (debug foreground quiet : bool) (lvl : level) (message : fstring)
  : M unit :=
  if negb foreground then
    match lvl with
    | INFO => logging INFO message
    | ERROR => logging ERROR message
    | DEBUG => logging DEBUG message
    end
  else
    match lvl with
    | INFO =>
        logging INFO message ;;;
        if negb quiet then print message else ret tt
    | ERROR =>
        logging ERROR message ;;;
        print message
    | DEBUG =>
        logging DEBUG message ;;;
        if debug then print message else ret tt
    end.

(** Lines 115-123: the document, or exit 1. *)
Definition load_settings (o : flags) : M value :=
  match settings w (setting_file o) with
  | Some config =>
      if is_none config then
        print [Lit "Settings file wrongly formatted. Abort execution"] ;;; exit 1
      else ret config
  | None =>
      print [Lit "Settings file not present. Abort execution"] ;;; exit 1
  end.

(** [if k not in config or config[k] == '': config[k] = dflt] on a value.
    Anything that is not a mapping fails with TypeError, at the membership
    test, at the lookup or at the assignment. *)
Definition default_key (k : string) (dflt : value) (config : value) : M dict :=
  match config with
  | VDict d =>
      match dict_get k d with
      | None => ret (dict_set k dflt d)
      | Some v => if eq_str v "" then ret (dict_set k dflt d) else ret d
      end
  | _ => raise TypeError
  end.

(** Lines 142-149. *)
Definition find_binaries (o : flags) : M (string * string) :=
  match which w "ssh" with
  | None =>
      mylog (debug o) (foreground o) (quiet o) ERROR
        [Val (VStr "ssh"); Lit " binary not found. Abort execution"; Lit nl] ;;;
      exit 1
  | Some ssh =>
      match which w "rsync" with
      | None =>
          mylog (debug o) (foreground o) (quiet o) ERROR
            [Val (VStr "rsync"); Lit " binary not found. Abort execution"; Lit nl] ;;;
          exit 1
      | Some rsync => ret (ssh, rsync)
      end
  end.

Section Loops.

Variable o : flags.
Variable ssh rsync : string.

(** [mylog(debug, foreground, quiet, lvl, message)] with the run's flags. *)
Definition log (lvl : level) (message : fstring) : M unit :=
  mylog (debug o) (foreground o) (quiet o) lvl message.

(** Lines 168-171: optional fields of a node. *)
Definition node_defaults (node : dict) : dict :=
  let node := if negb (dict_has "ssh-port" node)
              then dict_set "ssh-port" (VInt 22) node else node in
  if negb (dict_has "user" node)
  then dict_set "user" (VStr (getuser w)) node else node.

(** Lines 194-197: optional fields of a folder. *)
Definition folder_defaults (folder : dict) : M dict :=
  let folder :=
    if negb (dict_has "rsync-options" folder)
       || match dict_get "rsync-options" folder with
          | Some v => is_none v
          | None => false
          end
    then dict_set "rsync-options" (VStr "") folder
    else folder in
  if negb (dict_has "dest" folder)
  then path <- getitem "path" folder ;; ret (dict_set "dest" path folder)
  else ret folder.

(** Lines 222-223: optional field of a service. *)
Definition service_defaults (service : dict) : dict :=
  if negb (dict_has "sudo" service)
  then dict_set "sudo" (VBool false) service else service.

(** The text of line 175. *)
Definition probe_text (port user address : value) : fstring :=
  [ Val (VStr ssh); Lit " -o BatchMode=yes -p "; Val port; Lit " "; Val user;
    Lit "@"; Val address; Lit " "; Lit dq; Lit "ls /dev/null > /dev/null"; Lit dq ].

(** The text of line 201. *)
Definition rsync_text (user port options path address dest : value) : fstring :=
  [ Val (VStr rsync); Lit " -a -v -e "; Lit dq; Lit "ssh -o BatchMode=yes -l ";
    Val user; Lit " -p "; Val port; Lit dq; Lit " "; Val options; Lit " ";
    Val path; Lit " "; Val address; Lit ":"; Val dest ].

(** The text of line 226. *)
Definition service_text (port user address sudo method name : value) : fstring :=
  let prefix := VStr (if truthy sudo then "sudo" else "") in
  [ Val (VStr ssh); Lit " -q -t -o BatchMode=yes -p "; Val port; Lit " "; Val user;
    Lit "@"; Val address; Lit " "; Lit dq; Val prefix; Lit " systemctl ";
    Val method; Lit " "; Val name; Lit "; sleep 2; "; Val prefix;
    Lit " systemctl is-active "; Val name; Lit dq ].

(** Line 175: the connectivity probe. *)
Definition probe_command (node : dict) : M fstring :=
  port <- getitem "ssh-port" node ;;
  user <- getitem "user" node ;;
  address <- getitem "address" node ;;
  ret (probe_text port user address).

(** Line 201: the transfer. *)
Definition rsync_command (node folder : dict) : M fstring :=
  user <- getitem "user" node ;;
  port <- getitem "ssh-port" node ;;
  options <- getitem "rsync-options" folder ;;
  path <- getitem "path" folder ;;
  address <- getitem "address" node ;;
  dest <- getitem "dest" folder ;;
  ret (rsync_text user port options path address dest).

(** Line 226: restart or reload, then the status check. *)
Definition service_command (node service : dict) : M fstring :=
  port <- getitem "ssh-port" node ;;
  user <- getitem "user" node ;;
  address <- getitem "address" node ;;
  sudo <- getitem "sudo" service ;;
  method <- getitem "method" service ;;
  name <- getitem "name" service ;;
  ret (service_text port user address sudo method name).

(** [shlex.split(cmd)]: ValueError when the text does not tokenize. *)
Definition split (cmd : fstring) : M (list string) :=
  match shlex_split w cmd with
  | Some argv => ret argv
  | None => raise ValueError
  end.

(** [subprocess.run(command, check=True, ...)] *)
Definition run (argv : list string) : M completed :=
  fun h => ([Ran argv], Normal (subprocess_run w h argv)).

(** Lines 192-213: one turn of the folder loop; yields the folder entry
    as the turn leaves it.  A folder that is not a mapping fails with
    TypeError at line 194, whatever it is.  Line 203 decodes the captured
    output and line 204 catches CalledProcessError only: a command that
    cannot be started and an output that does not decode are not caught. *)
Definition folder_body (config node : dict) (id_f : string) (folder : value)
  : M value :=
  selected <- getitem "folders" node ;;
  chosen <- contains id_f selected ;;
  if chosen then
    match folder with
    | VDict fd =>
        fd <- folder_defaults fd ;;
        log INFO [Lit "Syncing "; Val (VStr id_f); Lit " folder ..."] ;;;
        cmd <- rsync_command node fd ;;
        command <- split cmd ;;
        rsync_folder <- run command ;;
        match rsync_folder with
        | NotLaunched => raise OSError
        | Undecodable _ => raise UnicodeDecodeError
        | Completed rc out =>
            if (rc =? 0)%Z then
              log DEBUG [Lit "rsync output:"; Lit nl; Val (VStr out)] ;;;
              log INFO [Val (VStr id_f); Lit " successfully synced"] ;;;
              pause <- getitem "sleep-time-folders" config ;;
              time_sleep w pause ;;;
              ret (VDict fd)
            else
              log ERROR [Lit "rsync output:"; Lit nl; Val (VStr out)] ;;;
              log ERROR [Lit "Skipped folder "; Val (VStr id_f)] ;;;
              continue (VDict fd)
        end
    | _ => raise TypeError
    end
  else ret folder.

(** Line 191: the loop over [config["folders"].items()]. *)
Fixpoint folders_loop (config node : dict) (folders : dict) : M dict :=
  match folders with
  | [] => ret []
  | (id_f, folder) :: rest =>
      folder' <- folder_body config node id_f folder ;;
      rest' <- folders_loop config node rest ;;
      ret ((id_f, folder') :: rest')
  end.

(** Lines 217-238: one turn of the service loop.  A service that is not a
    mapping fails with TypeError at line 219.  As in the folder loop, line
    229 catches CalledProcessError only. *)
Definition service_body (config node : dict) (id_n id_s : string) (service : value)
  : M value :=
  match service with
  | VDict sd =>
      method <- getitem "method" sd ;;
      log INFO [Lit "Trying service "; Val (VStr id_s); Lit " "; Val method; Lit " ..."] ;;;
      let sd := service_defaults sd in
      cmd <- service_command node sd ;;
      command <- split cmd ;;
      re_service <- run command ;;
      match re_service with
      | NotLaunched => raise OSError
      | Undecodable _ => raise UnicodeDecodeError
      | Completed rc out =>
          if (rc =? 0)%Z then
            log DEBUG [Lit "command output:"; Lit nl; Val (VStr out)] ;;;
            log INFO [Val (VStr id_s); Lit " successfully "; Val method; Lit "ed"] ;;;
            pause <- getitem "sleep-time-services" config ;;
            time_sleep w pause ;;;
            ret (VDict sd)
          else
            log DEBUG [Lit "command output:"; Lit nl; Val (VStr out)] ;;;
            log ERROR [Lit "... something went wrong. Please check on ";
                       Val (VStr id_n); Lit " system"] ;;;
            continue (VDict sd)
      end
  | _ => raise TypeError
  end.

(** Line 217: the loop over [config["services"].items()]. *)
Fixpoint services_loop (config node : dict) (id_n : string) (services : dict)
  : M dict :=
  match services with
  | [] => ret []
  | (id_s, service) :: rest =>
      service' <- service_body config node id_n id_s service ;;
      rest' <- services_loop config node id_n rest ;;
      ret ((id_s, service') :: rest')
  end.

(** The three arms of lines 182-188. *)
Inductive selector_arm : Type := TakeAll | KeepList | WrongSelector.

Definition selector_branch (selector : value) : selector_arm :=
  if negb (isinstance_list selector) || eq_str selector "all" then TakeAll
  else if isinstance_list selector then KeepList
  else WrongSelector.

(** Lines 182-188: the node after resolution, or [None] for [continue]. *)
Definition resolve_folders (config node : dict) (id_n : string) : M (option dict) :=
  selector <- getitem "folders" node ;;
  match selector_branch selector with
  | TakeAll =>
      folders <- getitem "folders" config ;;
      fs <- items folders ;;
      ret (Some (dict_set "folders" (VList (map VStr (keys fs))) node))
  | KeepList => ret (Some node)
  | WrongSelector =>
      log ERROR [Lit "Wrong folders configuration. Skipping node "; Val (VStr id_n)] ;;;
      ret None
  end.

(** Lines 215-238: the service loop when enabled; yields the
    configuration with the service entries as the loop leaves them. *)
Definition services_stage (config node : dict) (id_n : string) : M dict :=
  enabled <- getitem "enable-services" config ;;
  if truthy enabled then
    services <- getitem "services" config ;;
    ss <- items services ;;
    ss' <- services_loop config node id_n ss ;;
    ret (dict_set "services" (VDict ss') config)
  else ret config.

(** Lines 190-238: the folder loop, then the services, on the
    configuration with the folder entries as the loop leaves them. *)
Definition node_work (config node : dict) (id_n : string) : M dict :=
  folders <- getitem "folders" config ;;
  fs <- items folders ;;
  fs' <- folders_loop config node fs ;;
  services_stage (dict_set "folders" (VDict fs') config) node id_n.

(** Lines 166-238: one turn of the node loop.  A node that is not a
    mapping fails with TypeError between lines 168 and 173.  The turn
    yields the configuration as the rest of the run reads it.  Lines 169,
    171 and 183 also write the port, the user and the resolved selector
    into the node's own entry under [nodes]; no later statement reads that
    entry again, and what the turn yields holds it as it was. *)
Definition node_body (config : dict) (id_n : string) (node : value) : M dict :=
  match node with
  | VDict nd =>
      let nd := node_defaults nd in
      address <- getitem "address" nd ;;
      port <- getitem "ssh-port" nd ;;
      log INFO [Lit "Connecting to "; Val address; Lit ":"; Val port; Lit " ..."] ;;;
      cmd <- probe_command nd ;;
      command <- split cmd ;;
      conn_check <- run command ;;
      if returned_zero conn_check then
        resolved <- resolve_folders config nd id_n ;;
        match resolved with
        | None => continue config
        | Some nd => node_work config nd id_n
        end
      else
        log ERROR [Lit "... Connection failed. Skipping node "; Val (VStr id_n)] ;;;
        continue config
  | _ => raise TypeError
  end.

(** Line 166: the loop over [config["nodes"].items()]. *)
Fixpoint nodes_loop (config : dict) (nodes : dict) : M dict :=
  match nodes with
  | [] => ret config
  | (id_n, node) :: rest =>
      config' <- node_body config id_n node ;;
      nodes_loop config' rest
  end.

(** Lines 153-242. *)
Definition execution (config : dict) : M unit :=
  log INFO [Lit "Start execution"] ;;;
  nodes <- getitem "nodes" config ;;
  if is_none nodes then
    log INFO [Lit "Config file has not nodes. Exit"; Lit nl] ;;;
    exit 0
  else
    n <- len nodes ;;
    log DEBUG [Lit "Loaded "; Val (VInt n); Lit " nodes"] ;;;
    folders <- getitem "folders" config ;;
    n <- len folders ;;
    log DEBUG [Lit "Loaded "; Val (VInt n); Lit " folders"] ;;;
    enabled <- getitem "enable-services" config ;;
    (if truthy enabled then
       services <- getitem "services" config ;;
       n <- len services ;;
       log DEBUG [Lit "Loaded "; Val (VInt n); Lit " services"]
     else ret tt) ;;;
    entries <- items nodes ;;
    nodes_loop config entries ;;;
    log INFO [Lit "End execution"; Lit nl] ;;;
    exit 0.

End Loops.

(** Lines 125-138: defaults of the top-level keys, and the log file. *)
Definition startup (o : flags) (config : value) : M dict :=
  config <- default_key "log_file" (VStr "sync_nodes.log") config ;;
  log_file <- getitem "log_file" config ;;
  emit (Configured [ Val (VStr (mypath w)); Lit "/../log/"; Val (VStr (today w));
                     Lit "-"; Val log_file ] (log_level o)) ;;;
  mylog (debug o) (foreground o) (quiet o) INFO [Lit "--------"] ;;;
  mylog (debug o) (foreground o) (quiet o) DEBUG [Lit "Settings file loaded"] ;;;
  config <- default_key "sleep-time-folders" (VInt 1) (VDict config) ;;
  config <- default_key "sleep-time-services" (VInt 1) (VDict config) ;;
  mylog (debug o) (foreground o) (quiet o) DEBUG [Lit "Looking for binaries path"] ;;;
  ret config.

(** The whole script; [argv] is [None] when [getopt] rejects the command
    line. *)
Definition sync_nodes (argv : option (list opt)) : M unit :=
  match argv with
  | None =>
      print [Lit "Wrong options. Abort execution."] ;;;
      print usage ;;;
      exit 1
  | Some opts =>
      o <- option_loop opts default_flags ;;
      config <- load_settings o ;;
      config <- startup o config ;;
      bin_path <- find_binaries o ;;
      execution o (fst bin_path) (snd bin_path) config
  end.

End Script.

(** ** What a run shows *)

(** The events of one [mylog] call: the record handed to [logging], then
    the console echo when the flags ask for it. *)
Definition mylog_events (debug foreground quiet : bool) (lvl : level) (msg : fstring)
  : list event :=
  Logged lvl msg ::
  (if foreground
      && match lvl with INFO => negb quiet | ERROR => true | DEBUG => debug end
   then [Printed msg] else []).

Definition said (o : flags) (lvl : level) (msg : fstring) : list event :=
  mylog_events (debug o) (foreground o) (quiet o) lvl msg.

(** The argument vectors given to [subprocess.run], in order. *)
Fixpoint commands (es : list event) : list (list string) :=
  match es with
  | [] => []
  | Ran argv :: es' => argv :: commands es'
  | _ :: es' => commands es'
  end.

(** The pauses taken, in order. *)
Fixpoint sleeps (es : list event) : list Z :=
  match es with
  | [] => []
  | Slept n :: es' => n :: sleeps es'
  | _ :: es' => sleeps es'
  end.

(** The records handed to [logging], in order. *)
Fixpoint records (es : list event) : list (level * fstring) :=
  match es with
  | [] => []
  | Logged lvl msg :: es' => (lvl, msg) :: records es'
  | _ :: es' => records es'
  end.

(** The messages handed to [logging] at error level, in order. *)
Definition errors (es : list event) : list fstring :=
  map snd (filter (fun r => match fst r with ERROR => true | _ => false end) (records es)).

(** The persistent log.  [logging.basicConfig(filename, level)] installs
    the file handler with its threshold; from then on a record is written
    when its level is at least the threshold. *)
Fixpoint log_file (threshold : option level) (es : list event) : list (level * fstring) :=
  match es with
  | [] => []
  | Configured _ lvl :: es' => log_file (Some lvl) es'
  | Logged lvl msg :: es' =>
      match threshold with
      | Some t =>
          if (levelno t <=? levelno lvl)%Z
          then (lvl, msg) :: log_file threshold es'
          else log_file threshold es'
      | None => log_file threshold es'
      end
  | _ :: es' => log_file threshold es'
  end.

(** The threshold the option loop leaves: the later of [-d] and [-q]
    decides, INFO when neither is given. *)
Definition threshold_of (opts : list opt) : level :=
  fold_left
    (fun lvl opt => match opt with Opt_d => DEBUG | Opt_q => ERROR | _ => lvl end)
    opts INFO.

(** The message of line 187, logged or echoed. *)
Definition wrong_folders_text (msg : fstring) : bool :=
  match msg with
  | Lit s :: _ => String.eqb s "Wrong folders configuration. Skipping node "
  | _ => false
  end.

Definition wrong_folders (e : event) : bool :=
  match e with
  | Logged _ msg => wrong_folders_text msg
  | Printed msg => wrong_folders_text msg
  | _ => false
  end.

(** Events of the loops: records and echoes other than the message of
    line 187, commands and pauses. *)
Definition ordinary (e : event) : bool :=
  match e with
  | Configured _ _ => false
  | Logged _ msg => negb (wrong_folders_text msg)
  | Printed msg => negb (wrong_folders_text msg)
  | Ran _ => true
  | Slept _ => true
  end.

(** The folder a transfer is announced for (line 199). *)
Definition syncing_id (e : event) : option string :=
  match e with
  | Logged INFO [Lit a; Val (VStr id_f); Lit b] =>
      if String.eqb a "Syncing " && String.eqb b " folder ..." then Some id_f else None
  | _ => None
  end.

(** The folders a stretch of the run attempted, in order. *)
Fixpoint attempted (es : list event) : list string :=
  match es with
  | [] => []
  | e :: es' =>
      match syncing_id e with
      | Some id_f => id_f :: attempted es'
      | None => attempted es'
      end
  end.

(** The effective folder set as the specification words it: every
    configured folder for [all] or any selector that is not a list, and
    for a list the configured folders that occur in it, in configuration
    order. *)
Definition effective_folders (selector : value) (configured : list string)
  : list string :=
  match selector with
  | VList ids => filter (fun id_f => existsb (fun x => eq_str x id_f) ids) configured
  | _ => configured
  end.

(** [map] on the value a computation ends with. *)
Definition result_map {A B} (f : A -> B) (r : result A) : result B :=
  match r with
  | Normal a => Normal (f a)
  | SysExit c => SysExit c
  | Uncaught e => Uncaught e
  end.

(** ** Derived notions *)

(** [es] put in front of what a computation adds. *)
Definition after {A} (es : list event) (p : list event * result A)
  : list event * result A :=
  (es ++ fst p, snd p).

(** The port and user a node ends up with. *)
Definition port_of (node : dict) : value :=
  match dict_get "ssh-port" node with Some p => p | None => VInt 22 end.

Definition user_of (w : World) (node : dict) : value :=
  match dict_get "user" node with Some u => u | None => VStr (getuser w) end.

(** The options and destination a folder ends up with. *)
Definition options_of (folder : dict) : value :=
  match dict_get "rsync-options" folder with
  | Some v => if is_none v then VStr "" else v
  | None => VStr ""
  end.

Definition dest_of (folder : dict) (path : value) : value :=
  match dict_get "dest" folder with Some d => d | None => path end.

(** The folder entry once lines 194-197 have run. *)
Definition folder_defaulted (folder : dict) (path : value) : dict :=
  let folder :=
    if negb (dict_has "rsync-options" folder)
       || match dict_get "rsync-options" folder with
          | Some v => is_none v
          | None => false
          end
    then dict_set "rsync-options" (VStr "") folder
    else folder in
  if negb (dict_has "dest" folder) then dict_set "dest" path folder else folder.

Definition sudo_of (service : dict) : value :=
  match dict_get "sudo" service with Some s => s | None => VBool false end.

(** What lines 212-213 and 237-238 add to a turn that ends with [a]. *)
Definition pause_then {A} (w : World) (config : dict) (key : string) (a : A)
  : list event * result A :=
  match dict_get key config with
  | Some pause =>
      (fst (time_sleep w pause []), result_map (fun _ => a) (snd (time_sleep w pause [])))
  | None => ([], Uncaught (KeyError key))
  end.

(** [default_key] on a mapping, as a function. *)
Definition with_default (k : string) (dflt : value) (d : dict) : dict :=
  match dict_get k d with
  | None => dict_set k dflt d
  | Some v => if eq_str v "" then dict_set k dflt d else d
  end.

(** The document as lines 125-138 leave it. *)
Definition top_defaults (d : dict) : dict :=
  with_default "sleep-time-services" (VInt 1)
    (with_default "sleep-time-folders" (VInt 1)
       (with_default "log_file" (VStr "sync_nodes.log") d)).

(** The base name of the log file. *)
Definition log_name (d : dict) : value :=
  match dict_get "log_file" d with
  | Some v => if eq_str v "" then VStr "sync_nodes.log" else v
  | None => VStr "sync_nodes.log"
  end.

(** The events of lines 125-141. *)
Definition startup_events (w : World) (o : flags) (d : dict) : list event :=
  Configured [ Val (VStr (mypath w)); Lit "/../log/"; Val (VStr (today w)); Lit "-";
               Val (log_name d) ] (log_level o)
  :: said o INFO [Lit "--------"]
  ++ said o DEBUG [Lit "Settings file loaded"]
  ++ said o DEBUG [Lit "Looking for binaries path"].

(** A computation that adds no event. *)
Definition silent {A} (m : M A) : Prop := forall h, fst (m h) = [].

(** Every event a computation adds satisfies [P]. *)
Definition emits (P : event -> Prop) {A} (m : M A) : Prop :=
  forall h, Forall P (fst (m h)).

(** An event of the loops: a record or an echo other than the message of
    line 187, a command or a pause. *)
Definition usual (e : event) : Prop := ordinary e = true.

(** An event from before the log file is set up: an echo. *)
Definition early (e : event) : Prop :=
  match e with
  | Printed msg => wrong_folders_text msg = false
  | _ => False
  end.

(** The events of a run: echoes, then at most once the set-up of the log
    file with threshold [t], then events of the loops. *)
Definition staged (t : level) (es : list event) : Prop :=
  exists pre,
    Forall early pre
    /\ (es = pre
        \/ exists f post, es = pre ++ Configured f t :: post /\ Forall usual post).

(** A computation that never calls [exit]. *)
Definition no_exit {A} (m : M A) : Prop := forall h c, snd (m h) <> SysExit c.

(** A run that ends in an uncaught exception. *)
Definition crashes {A} (p : list event * result A) : Prop :=
  exists e, snd p = Uncaught e.

(** Whether an option of the same kind as [kind] is among [opts]. *)
Definition flag_given (kind : opt) (opts : list opt) : bool :=
  existsb
    (fun given =>
       match kind, given with
       | Opt_h, Opt_h => true
       | Opt_d, Opt_d => true
       | Opt_f, Opt_f => true
       | Opt_q, Opt_q => true
       | Opt_c _, Opt_c _ => true
       | _, _ => false
       end)
    opts.

(** The argument of the last [-c] among [opts], from [start] when there
    is none. *)
Definition config_given (opts : list opt) (start : option string) : option string :=
  fold_left (fun path given => match given with Opt_c arg => Some arg | _ => path end)
    opts start.


(** The exception [time.sleep] raises on [v], if any. *)
Definition seconds_error (w : World) (n : Z) : option exn :=
  if (sleep_cap <? Z.abs n)%Z then Some OverflowError
  else if (n <? 0)%Z then Some ValueError
  else if os_sleep w n then None
  else Some OSError.

Definition pause_error (w : World) (v : value) : option exn :=
  match v with
  | VInt n => seconds_error w n
  | VBool b => seconds_error w (if b then 1 else 0)%Z
  | _ => Some TypeError
  end.

(** A document that is neither null nor a mapping. *)
Definition not_a_mapping (v : value) : bool :=
  match v with
  | VNone => false
  | VDict _ => false
  | _ => true
  end.

(** What a computation adds always satisfies [Q]. *)
Definition adds (Q : list event -> Prop) {A} (m : M A) : Prop :=
  forall h, Q (fst (m h)).

(** The messages echoed on the console, in order. *)
Fixpoint prints (es : list event) : list fstring :=
  match es with
  | [] => []
  | Printed msg :: es' => msg :: prints es'
  | _ :: es' => prints es'
  end.

(** Whether the flags ask for the echo of a record of level [lvl]. *)
Definition echo_wanted (o : flags) (lvl : level) : bool :=
  foreground o
  && match lvl with INFO => negb (quiet o) | ERROR => true | DEBUG => debug o end.

(** The messages among [recs] that the flags ask to echo. *)
Definition echoed (o : flags) (recs : list (level * fstring)) : list fstring :=
  map snd (filter (fun r => echo_wanted o (fst r)) recs).

(** The console follows the records. *)
Definition console_follows (o : flags) (es : list event) : Prop :=
  prints es = echoed o (records es).

(** How a whole run may end: never by falling off the end, and with
    status 0 if by [exit]. *)
Definition ends_well {A} (r : result A) : Prop :=
  match r with
  | Normal _ => False
  | SysExit c => c = 0%Z
  | Uncaught _ => True
  end.

(** The exit status of the process: the argument of [exit], and 1 when
    the interpreter ends on an uncaught exception. *)
Definition exit_status {A} (r : result A) : option Z :=
  match r with
  | Normal _ => None
  | SysExit c => Some c
  | Uncaught _ => Some 1%Z
  end.

(** [config'] is [config] but for what the folder and service entries
    hold: the same keys in the same order, the same value under every key
    other than [folders] and [services], and under these two the same
    identifiers in the same order. *)
Definition only_entries_change (config config' : dict) : Prop :=
  keys config' = keys config
  /\ (forall k, k <> "folders" -> k <> "services" ->
                dict_get k config' = dict_get k config)
  /\ (forall fs, dict_get "folders" config = Some (VDict fs) ->
                 exists fs', dict_get "folders" config' = Some (VDict fs')
                             /\ keys fs' = keys fs)
  /\ (forall ss, dict_get "services" config = Some (VDict ss) ->
                 exists ss', dict_get "services" config' = Some (VDict ss')
                             /\ keys ss' = keys ss).

(** The service a remote command is announced for (line 219). *)
Definition trying_id (e : event) : option string :=
  match e with
  | Logged INFO [Lit a; Val (VStr id_s); Lit b; Val _; Lit c] =>
      if String.eqb a "Trying service " && String.eqb b " " && String.eqb c " ..."
      then Some id_s else None
  | _ => None
  end.

(** The services a stretch of the run tried, in order. *)
Fixpoint tried (es : list event) : list string :=
  match es with
  | [] => []
  | e :: es' =>
      match trying_id e with
      | Some id_s => id_s :: tried es'
      | None => tried es'
      end
  end.

(** Entries that hold what the loops read without a default: a folder
    with a path, a service with a method and a name, a node with an
    address and a folder selector. *)
Definition folder_ok (entry : string * value) : Prop :=
  exists fd path, snd entry = VDict fd /\ dict_get "path" fd = Some path.

Definition service_ok (entry : string * value) : Prop :=
  exists sd method name,
    snd entry = VDict sd
    /\ dict_get "method" sd = Some method
    /\ dict_get "name" sd = Some name.

Definition node_ok (entry : string * value) : Prop :=
  exists nd address selector,
    snd entry = VDict nd
    /\ dict_get "address" nd = Some address
    /\ dict_get "folders" nd = Some selector.

(** A document whose folders, services (when enabled) and pause settings
    are as the loops need them. *)
Definition ready (w : World) (config : dict) : Prop :=
  (exists fs, dict_get "folders" config = Some (VDict fs) /\ Forall folder_ok fs)
  /\ (exists enabled,
         dict_get "enable-services" config = Some enabled
         /\ (truthy enabled = true ->
             exists ss, dict_get "services" config = Some (VDict ss)
                        /\ Forall service_ok ss))
  /\ (exists pause, dict_get "sleep-time-folders" config = Some pause
                    /\ pause_error w pause = None)
  /\ (exists pause, dict_get "sleep-time-services" config = Some pause
                    /\ pause_error w pause = None).

(** A world in which every command text tokenizes and every command can
    be started and gives an output that decodes, whatever it returns. *)
Definition obliging (w : World) : Prop :=
  (forall cmd, shlex_split w cmd <> None)
  /\ (forall h argv, exists rc out, subprocess_run w h argv = Completed rc out).

(** The address and port a node is announced with (line 173). *)
Definition connecting (e : event) : option (value * value) :=
  match e with
  | Logged INFO [Lit a; Val address; Lit b; Val port; Lit c] =>
      if String.eqb a "Connecting to " && String.eqb b ":" && String.eqb c " ..."
      then Some (address, port) else None
  | _ => None
  end.

(** The nodes a stretch of the run got to, in order. *)
Fixpoint visited (es : list event) : list (value * value) :=
  match es with
  | [] => []
  | e :: es' =>
      match connecting e with
      | Some seen => seen :: visited es'
      | None => visited es'
      end
  end.

(** An event that announces no node. *)
Definition unannounced (e : event) : Prop := connecting e = None.

(** The announcement [seen] is that of the node [entry]: its address, and
    its port or 22. *)
Definition announces (seen : value * value) (entry : string * value) : Prop :=
  exists nd,
    snd entry = VDict nd
    /\ dict_get "address" nd = Some (fst seen)
    /\ snd seen = port_of nd.

(** [isinstance(v, dict)] *)
Definition is_mapping (v : value) : bool :=
  match v with VDict _ => true | _ => false end.

(** ** A sample installation *)

Module Sample.

(** [str(v)] for the scalars that occur in the sample documents. *)
Definition text (v : value) : string :=
  match v with
  | VNone => "None"
  | VBool true => "True"
  | VBool false => "False"
  | VInt n => NilZero.string_of_int (Z.to_int n)
  | VStr s => s
  | VList _ => "[...]"
  | VDict _ => "{...}"
  end.

Fixpoint render (f : fstring) : string :=
  match f with
  | [] => EmptyString
  | Lit s :: f' => (s ++ render f')%string
  | Val v :: f' => (text v ++ render f')%string
  end.

Definition grow (tok : option string) (c : ascii) : option string :=
  Some (match tok with Some t => t | None => EmptyString end ++ String c EmptyString)%string.

(** Words separated by blanks, double quotes grouping; an open quote at
    the end is an error. *)
Fixpoint words (s : string) (tok : option string) (quoted : bool)
  : option (list string) :=
  match s with
  | EmptyString =>
      if quoted then None
      else Some (match tok with Some t => [t] | None => [] end)
  | String c s' =>
      if Ascii.eqb c (ascii_of_nat 34) then
        words s' (Some (match tok with Some t => t | None => EmptyString end)) (negb quoted)
      else if quoted then words s' (grow tok c) true
      else if Ascii.eqb c " " then
        match tok with
        | Some t => option_map (cons t) (words s' None false)
        | None => words s' None false
        end
      else words s' (grow tok c) false
  end.

Definition tokenize (f : fstring) : option (list string) :=
  words (render f) None false.

(** Two nodes, two folders, one service. *)
Definition web1 : dict :=
  [ ("address", VStr "10.0.0.1"); ("folders", VStr "all") ].

Definition web2 : dict :=
  [ ("address", VStr "10.0.0.2"); ("ssh-port", VInt 2222); ("user", VStr "deploy");
    ("folders", VList [VStr "site"; VStr "missing"]) ].

Definition site : dict := [ ("path", VStr "/srv/site") ].

Definition etc : dict :=
  [ ("path", VStr "/etc/app"); ("dest", VStr "/etc/app-mirror");
    ("rsync-options", VStr "--delete") ].

Definition nginx : dict :=
  [ ("name", VStr "nginx"); ("method", VStr "reload"); ("sudo", VBool true) ].

Definition document (nodes : dict) (services_on : bool) : dict :=
  [ ("log_file", VStr "");
    ("sleep-time-folders", VInt 3);
    ("enable-services", VBool services_on);
    ("nodes", VDict nodes);
    ("folders", VDict [ ("site", VDict site); ("etc", VDict etc) ]);
    ("services", VDict [ ("nginx", VDict nginx) ]) ].

Definition world (doc : value)
  (answer : list event -> list string -> completed) : World :=
  {| mypath := "/opt/sync_nodes/bin";
     today := "202211";
     script_name := "sync_nodes.py";
     getuser := "root";
     which := fun name => Some ("/usr/bin/" ++ name)%string;
     settings := fun _ => Some doc;
     shlex_split := tokenize;
     subprocess_run := answer;
     os_sleep := fun n => (n <=? 1000000000)%Z |}.

(** Every command succeeds. *)
Definition all_well : list event -> list string -> completed :=
  fun _ _ => Completed 0 "ok".

(** [rsync] exits with 23, everything else succeeds. *)
Definition rsync_fails : list event -> list string -> completed :=
  fun _ argv =>
    match argv with
    | prog :: _ => if String.eqb prog "/usr/bin/rsync" then Completed 23 "rsync error"
                   else Completed 0 "ok"
    | [] => NotLaunched
    end.

(** [rsync] exits with 23 and writes bytes that do not decode, everything
    else succeeds. *)
Definition rsync_garbles : list event -> list string -> completed :=
  fun _ argv =>
    match argv with
    | prog :: _ => if String.eqb prog "/usr/bin/rsync" then Undecodable 23
                   else Completed 0 "ok"
    | [] => NotLaunched
    end.

(** The host 10.0.0.1 cannot be reached. *)
Definition web1_down : list event -> list string -> completed :=
  fun _ argv =>
    if existsb (String.eqb "root@10.0.0.1") argv then Completed 255 "" else Completed 0 "ok".

(** The service command exits with 3, everything else succeeds. *)
Definition service_fails : list event -> list string -> completed :=
  fun _ argv =>
    if existsb (String.eqb "-t") argv then Completed 3 "inactive" else Completed 0 "ok".

(** The probe succeeds; every transfer and service command exits with 1. *)
Definition only_probe_succeeds : list event -> list string -> completed :=
  fun _ argv =>
    if existsb (String.eqb "ls /dev/null > /dev/null") argv then Completed 0 "ok"
    else Completed 1 "failed".

Definition one_node : dict := document [ ("web1", VDict web1) ] true.

(** A document whose [nodes] entry is null, and one with no such entry. *)
Definition null_nodes : dict := [ ("nodes", VNone) ].

Definition without_nodes : dict :=
  [ ("folders", VDict [ ("site", VDict site) ]); ("enable-services", VBool false) ].

(** A document with a node but neither [folders] nor [enable-services]. *)
Definition without_folders : dict := [ ("nodes", VDict [ ("web1", VDict web1) ]) ].

(** A node whose selector names one folder without the brackets of a list. *)
Definition web3 : dict :=
  [ ("address", VStr "10.0.0.3"); ("folders", VStr "site") ].

Definition scalar_selector : dict := document [ ("web3", VDict web3) ] true.

Definition probe_web3 : list string :=
  [ "/usr/bin/ssh"; "-o"; "BatchMode=yes"; "-p"; "22"; "root@10.0.0.3";
    "ls /dev/null > /dev/null" ].

Definition rsync_site_web3 : list string :=
  [ "/usr/bin/rsync"; "-a"; "-v"; "-e"; "ssh -o BatchMode=yes -l root -p 22";
    "/srv/site"; "10.0.0.3:/srv/site" ].

Definition rsync_etc_web3 : list string :=
  [ "/usr/bin/rsync"; "-a"; "-v"; "-e"; "ssh -o BatchMode=yes -l root -p 22";
    "--delete"; "/etc/app"; "10.0.0.3:/etc/app-mirror" ].

Definition reload_nginx_web3 : list string :=
  [ "/usr/bin/ssh"; "-q"; "-t"; "-o"; "BatchMode=yes"; "-p"; "22"; "root@10.0.0.3";
    "sudo systemctl reload nginx; sleep 2; sudo systemctl is-active nginx" ].

Definition probe_web1 : list string :=
  [ "/usr/bin/ssh"; "-o"; "BatchMode=yes"; "-p"; "22"; "root@10.0.0.1";
    "ls /dev/null > /dev/null" ].

Definition rsync_site_web1 : list string :=
  [ "/usr/bin/rsync"; "-a"; "-v"; "-e"; "ssh -o BatchMode=yes -l root -p 22";
    "/srv/site"; "10.0.0.1:/srv/site" ].

Definition rsync_etc_web1 : list string :=
  [ "/usr/bin/rsync"; "-a"; "-v"; "-e"; "ssh -o BatchMode=yes -l root -p 22";
    "--delete"; "/etc/app"; "10.0.0.1:/etc/app-mirror" ].

Definition reload_nginx_web1 : list string :=
  [ "/usr/bin/ssh"; "-q"; "-t"; "-o"; "BatchMode=yes"; "-p"; "22"; "root@10.0.0.1";
    "sudo systemctl reload nginx; sleep 2; sudo systemctl is-active nginx" ].

(** The node [web1] once its defaults and folder selector are resolved,
    and the document once the top-level defaults are in. *)
Definition web1_resolved : dict :=
  [ ("address", VStr "10.0.0.1"); ("folders", VList [VStr "site"; VStr "etc"]);
    ("ssh-port", VInt 22); ("user", VStr "root") ].

Definition one_node_defaulted : dict :=
  dict_set "sleep-time-services" (VInt 1)
    (dict_set "log_file" (VStr "sync_nodes.log") one_node).

(** A document that is a list, and one with a negative pause. *)
Definition a_list : value := VList [ VStr "nodes"; VStr "folders" ].

Definition negative_pause : dict :=
  dict_set "sleep-time-folders" (VInt (-1)) one_node_defaulted.

(** No [rsync] on the path; and a world where [rsync] cannot be started. *)
Definition no_rsync (doc : value) : World :=
  {| mypath := "/opt/sync_nodes/bin";
     today := "202211";
     script_name := "sync_nodes.py";
     getuser := "root";
     which := fun name => if String.eqb name "rsync" then None
                          else Some ("/usr/bin/" ++ name)%string;
     settings := fun _ => Some doc;
     shlex_split := tokenize;
     subprocess_run := all_well;
     os_sleep := fun n => (n <=? 1000000000)%Z |}.

Definition rsync_not_started : list event -> list string -> completed :=
  fun _ argv =>
    match argv with
    | prog :: _ => if String.eqb prog "/usr/bin/rsync" then NotLaunched
                   else Completed 0 "ok"
    | [] => NotLaunched
    end.

(** A tokenizer that rejects every command. *)
Definition no_tokens (doc : value) : World :=
  {| mypath := "/opt/sync_nodes/bin";
     today := "202211";
     script_name := "sync_nodes.py";
     getuser := "root";
     which := fun name => Some ("/usr/bin/" ++ name)%string;
     settings := fun _ => Some doc;
     shlex_split := fun _ => None;
     subprocess_run := all_well;
     os_sleep := fun n => (n <=? 1000000000)%Z |}.

(** A world whose tokenizer never fails and whose commands, the probes
    apart, all return 1. *)
Definition hard_times (doc : value) : World :=
  {| mypath := "/opt/sync_nodes/bin";
     today := "202211";
     script_name := "sync_nodes.py";
     getuser := "root";
     which := fun name => Some ("/usr/bin/" ++ name)%string;
     settings := fun _ => Some doc;
     shlex_split := fun cmd => Some (match tokenize cmd with Some argv => argv | None => [] end);
     subprocess_run := only_probe_succeeds;
     os_sleep := fun n => (n <=? 1000000000)%Z |}.

Definition two_nodes : dict :=
  document [ ("web1", VDict web1); ("web2", VDict web2) ] true.

(** Entries with something missing. *)
Definition no_path : dict := [ ("dest", VStr "/srv/mirror") ].

Definition no_name : dict := [ ("method", VStr "restart") ].

Definition no_selector : dict := [ ("address", VStr "10.0.0.4") ].

Definition probe_web4 : list string :=
  [ "/usr/bin/ssh"; "-o"; "BatchMode=yes"; "-p"; "22"; "root@10.0.0.4";
    "ls /dev/null > /dev/null" ].

End Sample.

(** ** Running a computation step by step *)

Lemma bind_normal {A B} (m : M A) (f : A -> M B) h es a :
  m h = (es, Normal a) -> bind m f h = after es (f a (h ++ es)).
Proof.
  intros Hm. unfold bind, after. rewrite Hm.
  destruct (f a (h ++ es)); reflexivity.
Qed.

Lemma bind_pure {A B} (m : M A) (f : A -> M B) h a :
  m h = ([], Normal a) -> bind m f h = f a h.
Proof.
  intros Hm. rewrite (bind_normal _ _ _ _ _ Hm), app_nil_r.
  unfold after. destruct (f a h); reflexivity.
Qed.

Lemma bind_exit_first {A B} (m : M A) (f : A -> M B) h es c :
  m h = (es, SysExit c) -> bind m f h = (es, SysExit c).
Proof. intros Hm. unfold bind. rewrite Hm. reflexivity. Qed.

Lemma bind_uncaught {A B} (m : M A) (f : A -> M B) h es e :
  m h = (es, Uncaught e) -> bind m f h = (es, Uncaught e).
Proof. intros Hm. unfold bind. rewrite Hm. reflexivity. Qed.

Lemma after_after {A} es es' (p : list event * result A) :
  after es (after es' p) = after (es ++ es') p.
Proof. unfold after. cbn. rewrite app_assoc. reflexivity. Qed.

Lemma mylog_run d f q lvl msg h :
  mylog d f q lvl msg h = (mylog_events d f q lvl msg, Normal tt).
Proof. destruct f, q, d, lvl; reflexivity. Qed.

Lemma bind_mylog_run {B} d f q lvl msg (k : unit -> M B) h :
  bind (mylog d f q lvl msg) k h =
  after (mylog_events d f q lvl msg) (k tt (h ++ mylog_events d f q lvl msg)).
Proof. apply bind_normal, mylog_run. Qed.

Lemma log_run o lvl msg h : log o lvl msg h = (said o lvl msg, Normal tt).
Proof. apply mylog_run. Qed.

Lemma bind_log {B} o lvl msg (f : unit -> M B) h :
  bind (log o lvl msg) f h = after (said o lvl msg) (f tt (h ++ said o lvl msg)).
Proof. apply bind_normal, log_run. Qed.

Lemma getitem_some k d v h :
  dict_get k d = Some v -> getitem k d h = ([], Normal v).
Proof. intros H. unfold getitem. rewrite H. reflexivity. Qed.

Lemma getitem_none k d h :
  dict_get k d = None -> getitem k d h = ([], Uncaught (KeyError k)).
Proof. intros H. unfold getitem. rewrite H. reflexivity. Qed.

Lemma bind_getitem {B} k d v (f : value -> M B) h :
  dict_get k d = Some v -> bind (getitem k d) f h = f v h.
Proof. intros H. apply bind_pure, getitem_some, H. Qed.

Lemma bind_split {B} w cmd argv (f : list string -> M B) h :
  shlex_split w cmd = Some argv -> bind (split w cmd) f h = f argv h.
Proof. intros H. apply bind_pure. unfold split. rewrite H. reflexivity. Qed.

Lemma bind_run {B} w argv (f : completed -> M B) h :
  bind (run w argv) f h =
  after [Ran argv] (f (subprocess_run w h argv) (h ++ [Ran argv])).
Proof. apply bind_normal. reflexivity. Qed.

Lemma bind_ret {A B} (a : A) (f : A -> M B) h : bind (ret a) f h = f a h.
Proof. apply bind_pure. reflexivity. Qed.

(** ** Dictionaries *)

Lemma dict_get_set_same k v d : dict_get k (dict_set k v d) = Some v.
Proof.
  induction d as [|[k' v'] d IH]; cbn.
  - rewrite String.eqb_refl. reflexivity.
  - destruct (String.eqb k k') eqn:E; cbn; rewrite E; auto.
Qed.

Lemma dict_get_set_other k k' v d :
  k' <> k -> dict_get k' (dict_set k v d) = dict_get k' d.
Proof.
  intros Hne. induction d as [|[k0 v0] d IH]; cbn.
  - destruct (String.eqb k' k) eqn:E; [apply String.eqb_eq in E; contradiction|reflexivity].
  - destruct (String.eqb k k0) eqn:E; cbn.
    + apply String.eqb_eq in E. subst k0.
      destruct (String.eqb k' k) eqn:E'; [apply String.eqb_eq in E'; contradiction|reflexivity].
    + rewrite IH. reflexivity.
Qed.

(** ** Defaults *)

Section Defaults.

Variable w : World.

Lemma node_defaults_port node :
  dict_get "ssh-port" (node_defaults w node) = Some (port_of node).
Proof.
  unfold node_defaults, port_of, dict_has.
  destruct (dict_get "ssh-port" node) as [p|] eqn:Hp; cbn [negb].
  - destruct (dict_get "user" node); cbn [negb];
      [|rewrite dict_get_set_other by discriminate]; exact Hp.
  - destruct (dict_get "user" (dict_set "ssh-port" (VInt 22) node)); cbn [negb];
      [|rewrite dict_get_set_other by discriminate]; apply dict_get_set_same.
Qed.

Lemma node_defaults_user node :
  dict_get "user" (node_defaults w node) = Some (user_of w node).
Proof.
  unfold node_defaults, user_of, dict_has.
  destruct (dict_get "ssh-port" node) as [p|] eqn:Hp; cbn [negb].
  - destruct (dict_get "user" node) as [u|] eqn:Hu; cbn [negb];
      [exact Hu|apply dict_get_set_same].
  - rewrite dict_get_set_other by discriminate.
    destruct (dict_get "user" node) as [u|] eqn:Hu; cbn [negb].
    + rewrite dict_get_set_other by discriminate. exact Hu.
    + apply dict_get_set_same.
Qed.

Lemma node_defaults_other k node :
  k <> "ssh-port" -> k <> "user" ->
  dict_get k (node_defaults w node) = dict_get k node.
Proof.
  intros H1 H2. unfold node_defaults.
  destruct (negb (dict_has "ssh-port" node));
    destruct (negb (dict_has "user" _));
    repeat rewrite dict_get_set_other by assumption; reflexivity.
Qed.

End Defaults.

(** ** Reading the events of a stretch *)

Lemma commands_app es es' : commands (es ++ es') = commands es ++ commands es'.
Proof.
  induction es as [|e es IH]; [reflexivity|].
  destruct e; cbn; rewrite IH; reflexivity.
Qed.

Lemma sleeps_app es es' : sleeps (es ++ es') = sleeps es ++ sleeps es'.
Proof.
  induction es as [|e es IH]; [reflexivity|].
  destruct e; cbn; rewrite IH; reflexivity.
Qed.

Lemma commands_said o lvl msg : commands (said o lvl msg) = [].
Proof.
  unfold said, mylog_events.
  destruct (foreground o && _); reflexivity.
Qed.

Lemma sleeps_said o lvl msg : sleeps (said o lvl msg) = [].
Proof.
  unfold said, mylog_events.
  destruct (foreground o && _); reflexivity.
Qed.

Section Probe.

Variable w : World.
Variable o : flags.
Variable ssh rsync : string.

Lemma probe_command_run nd address h :
  dict_get "address" nd = Some address ->
  probe_command ssh (node_defaults w nd) h =
  ([], Normal (probe_text ssh (port_of nd) (user_of w nd) address)).
Proof.
  intros Ha. unfold probe_command.
  rewrite (bind_getitem _ _ _ _ _ (node_defaults_port w nd)).
  rewrite (bind_getitem _ _ _ _ _ (node_defaults_user w nd)).
  rewrite (bind_getitem _ _ address).
  - reflexivity.
  - rewrite node_defaults_other by discriminate. exact Ha.
Qed.

(** The turn of a node up to the answer of the probe. *)
Lemma node_body_probe config id_n nd address argv h :
  dict_get "address" nd = Some address ->
  shlex_split w (probe_text ssh (port_of nd) (user_of w nd) address) = Some argv ->
  let hello := said o INFO [Lit "Connecting to "; Val address; Lit ":";
                            Val (port_of nd); Lit " ..."] in
  node_body w o ssh rsync config id_n (VDict nd) h =
  after (hello ++ [Ran argv])
    (if returned_zero (subprocess_run w (h ++ hello) argv) then
       (resolved <- resolve_folders o config (node_defaults w nd) id_n ;;
        match resolved with
        | None => continue config
        | Some nd' => node_work w o ssh rsync config nd' id_n
        end) (h ++ hello ++ [Ran argv])
     else
       after (said o ERROR [Lit "... Connection failed. Skipping node "; Val (VStr id_n)])
             ([], Normal config)).
Proof.
  intros Ha Hs hello. unfold node_body.
  rewrite (bind_getitem _ _ address)
    by (rewrite node_defaults_other by discriminate; exact Ha).
  rewrite (bind_getitem _ _ _ _ _ (node_defaults_port w nd)).
  rewrite bind_log. fold hello.
  rewrite (bind_pure _ _ _ _ (probe_command_run nd address _ Ha)).
  rewrite (bind_split _ _ _ _ _ Hs).
  rewrite bind_run, after_after, <- app_assoc.
  destruct (returned_zero (subprocess_run w (h ++ hello) argv)); [reflexivity|].
  rewrite bind_log. reflexivity.
Qed.

End Probe.

(** C5.  A node whose connectivity probe fails, by a return code other
    than 0 or by a command that could not be started, gets an error
    record and nothing else: the turn runs the probe and no other command,
    takes no pause, leaves the configuration as it was, and the loop goes
    on with the next node. *)
Theorem failed_probe_skips_node :
  forall (w : World) (o : flags) (ssh rsync : string) (config : dict)
         (id_n : string) (nd : dict) (address : value) (argv : list string)
         (h : list event),
    dict_get "address" nd = Some address ->
    shlex_split w (probe_text ssh (port_of nd) (user_of w nd) address) = Some argv ->
    returned_zero
      (subprocess_run w
         (h ++ said o INFO [Lit "Connecting to "; Val address; Lit ":";
                            Val (port_of nd); Lit " ..."]) argv) = false ->
    let es :=
      said o INFO [Lit "Connecting to "; Val address; Lit ":"; Val (port_of nd); Lit " ..."]
      ++ [Ran argv]
      ++ said o ERROR [Lit "... Connection failed. Skipping node "; Val (VStr id_n)] in
    node_body w o ssh rsync config id_n (VDict nd) h = (es, Normal config)
    /\ commands es = [argv]
    /\ sleeps es = []
    /\ forall rest,
         nodes_loop w o ssh rsync config ((id_n, VDict nd) :: rest) h =
         after es (nodes_loop w o ssh rsync config rest (h ++ es)).
Proof.
  intros w o ssh rsync config id_n nd address argv h Ha Hs Hfail es.
  assert (Hbody : node_body w o ssh rsync config id_n (VDict nd) h = (es, Normal config)).
  { rewrite (node_body_probe w o ssh rsync config id_n nd address argv h Ha Hs).
    cbv zeta. rewrite Hfail. unfold after, es. cbn [fst snd].
    rewrite app_nil_r, <- app_assoc. reflexivity. }
  repeat split.
  - exact Hbody.
  - unfold es. rewrite !commands_app, !commands_said. reflexivity.
  - unfold es. rewrite !sleeps_app, !sleeps_said. reflexivity.
  - intros rest. cbn [nodes_loop].
    rewrite (bind_normal _ _ _ _ _ Hbody). reflexivity.
Qed.

(** C5 on the sample node [web1] when its host is down: three events,
    the probe being the only command. *)
Lemma failed_probe_skips_node_witness :
  node_body (Sample.world (VDict Sample.one_node) Sample.web1_down) default_flags
    "/usr/bin/ssh" "/usr/bin/rsync" Sample.one_node_defaulted "web1" (VDict Sample.web1) [] =
  ([ Logged INFO [Lit "Connecting to "; Val (VStr "10.0.0.1"); Lit ":"; Val (VInt 22);
                  Lit " ..."];
     Ran Sample.probe_web1;
     Logged ERROR [Lit "... Connection failed. Skipping node "; Val (VStr "web1")] ],
   Normal Sample.one_node_defaulted).
Proof.
  exact (proj1 (failed_probe_skips_node
                  (Sample.world (VDict Sample.one_node) Sample.web1_down) default_flags
                  "/usr/bin/ssh" "/usr/bin/rsync" Sample.one_node_defaulted "web1"
                  Sample.web1 (VStr "10.0.0.1") Sample.probe_web1 []
                  eq_refl eq_refl eq_refl)).
Defined.

(** ** One folder, one service *)

(** Names the folder entry after the first default of lines 194-195. *)
Ltac name_options fd1 :=
  match goal with
  | |- context [if ?c then dict_set "rsync-options" (VStr "") ?fd else ?fd] =>
      set (fd1 := if c then dict_set "rsync-options" (VStr "") fd else fd)
  end.

Section Turns.

Variable w : World.
Variable o : flags.
Variable ssh rsync : string.

Lemma folder_defaults_run fd path h :
  dict_get "path" fd = Some path ->
  folder_defaults fd h = ([], Normal (folder_defaulted fd path)).
Proof.
  intros Hp. unfold folder_defaults, folder_defaulted.
  name_options fd1.
  assert (Hp1 : dict_get "path" fd1 = Some path).
  { unfold fd1. destruct (_ || _); [rewrite dict_get_set_other by discriminate|]; exact Hp. }
  destruct (negb (dict_has "dest" fd1)); [|reflexivity].
  rewrite (bind_getitem _ _ _ _ _ Hp1). reflexivity.
Qed.

Lemma folder_defaulted_options fd path :
  dict_get "rsync-options" (folder_defaulted fd path) = Some (options_of fd).
Proof.
  unfold folder_defaulted, options_of, dict_has.
  destruct (dict_get "rsync-options" fd) as [v|] eqn:Hv; cbn [negb orb].
  - destruct (is_none v) eqn:Hn.
    + destruct (negb _); [rewrite dict_get_set_other by discriminate|];
        apply dict_get_set_same.
    + destruct (negb _); [rewrite dict_get_set_other by discriminate|]; exact Hv.
  - destruct (negb _); [rewrite dict_get_set_other by discriminate|];
      apply dict_get_set_same.
Qed.

Lemma folder_defaulted_dest fd path :
  dict_get "dest" (folder_defaulted fd path) = Some (dest_of fd path).
Proof.
  unfold folder_defaulted, dest_of.
  name_options fd1.
  assert (Hd : dict_get "dest" fd1 = dict_get "dest" fd).
  { unfold fd1. destruct (_ || _); [apply dict_get_set_other; discriminate|reflexivity]. }
  unfold dict_has. rewrite Hd.
  destruct (dict_get "dest" fd) as [d|] eqn:E; cbn [negb].
  - exact Hd.
  - apply dict_get_set_same.
Qed.

Lemma folder_defaulted_path fd path :
  dict_get "path" fd = Some path ->
  dict_get "path" (folder_defaulted fd path) = Some path.
Proof.
  intros Hp. unfold folder_defaulted.
  name_options fd1.
  assert (Hp1 : dict_get "path" fd1 = Some path).
  { unfold fd1. destruct (_ || _); [rewrite dict_get_set_other by discriminate|]; exact Hp. }
  destruct (negb (dict_has "dest" fd1));
    [rewrite dict_get_set_other by discriminate|]; exact Hp1.
Qed.

Lemma rsync_command_run node fd user port address path h :
  dict_get "user" node = Some user ->
  dict_get "ssh-port" node = Some port ->
  dict_get "address" node = Some address ->
  dict_get "path" fd = Some path ->
  rsync_command rsync node (folder_defaulted fd path) h =
  ([], Normal (rsync_text rsync user port (options_of fd) path address (dest_of fd path))).
Proof.
  intros Hu Hpo Ha Hp. unfold rsync_command.
  rewrite (bind_getitem _ _ _ _ _ Hu), (bind_getitem _ _ _ _ _ Hpo).
  rewrite (bind_getitem _ _ _ _ _ (folder_defaulted_options fd path)).
  rewrite (bind_getitem _ _ _ _ _ (folder_defaulted_path fd path Hp)).
  rewrite (bind_getitem _ _ _ _ _ Ha).
  rewrite (bind_getitem _ _ _ _ _ (folder_defaulted_dest fd path)).
  reflexivity.
Qed.

Lemma service_defaults_sudo sd :
  dict_get "sudo" (service_defaults sd) = Some (sudo_of sd).
Proof.
  unfold service_defaults, sudo_of, dict_has.
  destruct (dict_get "sudo" sd) as [s|] eqn:E; cbn [negb];
    [exact E|apply dict_get_set_same].
Qed.

Lemma service_defaults_other k sd :
  k <> "sudo" -> dict_get k (service_defaults sd) = dict_get k sd.
Proof.
  intros Hk. unfold service_defaults.
  destruct (negb _); [apply dict_get_set_other; exact Hk|reflexivity].
Qed.

Lemma service_command_run node sd user port address method name h :
  dict_get "user" node = Some user ->
  dict_get "ssh-port" node = Some port ->
  dict_get "address" node = Some address ->
  dict_get "method" sd = Some method ->
  dict_get "name" sd = Some name ->
  service_command ssh node (service_defaults sd) h =
  ([], Normal (service_text ssh port user address (sudo_of sd) method name)).
Proof.
  intros Hu Hpo Ha Hm Hn. unfold service_command.
  rewrite (bind_getitem _ _ _ _ _ Hpo), (bind_getitem _ _ _ _ _ Hu).
  rewrite (bind_getitem _ _ _ _ _ Ha).
  rewrite (bind_getitem _ _ _ _ _ (service_defaults_sudo sd)).
  rewrite (bind_getitem _ _ method)
    by (rewrite service_defaults_other by discriminate; exact Hm).
  rewrite (bind_getitem _ _ name)
    by (rewrite service_defaults_other by discriminate; exact Hn).
  reflexivity.
Qed.

(** How a pause ends: the events and the outcome of [time.sleep]. *)
Lemma sleep_seconds_pure n h : sleep_seconds w n h = sleep_seconds w n [].
Proof.
  unfold sleep_seconds.
  destruct (sleep_cap <? Z.abs n)%Z, (n <? 0)%Z, (os_sleep w n); reflexivity.
Qed.

Lemma time_sleep_pure v h : time_sleep w v h = time_sleep w v [].
Proof. destruct v; try reflexivity; apply sleep_seconds_pure. Qed.

(** A pause adds one event or none. *)
Lemma time_sleep_adds v h :
  fst (time_sleep w v h) = [] \/ exists n, fst (time_sleep w v h) = [Slept n].
Proof.
  assert (Hs : forall n, fst (sleep_seconds w n h) = []
                         \/ exists n', fst (sleep_seconds w n h) = [Slept n']).
  { intros n. unfold sleep_seconds.
    destruct (sleep_cap <? Z.abs n)%Z, (n <? 0)%Z, (os_sleep w n); cbn; eauto. }
  destruct v; cbn [time_sleep]; try (left; reflexivity); apply Hs.
Qed.

(** The turn of a selected folder, up to the answer of the transfer. *)
Lemma pause_then_run {A} config key (a : A) h :
  (pause <- getitem key config ;; time_sleep w pause ;;; ret a) h =
  pause_then w config key a.
Proof.
  unfold pause_then. destruct (dict_get key config) as [pause|] eqn:E.
  - rewrite (bind_getitem _ _ _ _ _ E). unfold bind. rewrite time_sleep_pure.
    destruct (time_sleep w pause []) as [es [[]|c|e]]; cbn; try reflexivity.
    rewrite app_nil_r. reflexivity.
  - apply bind_uncaught, getitem_none, E.
Qed.

Lemma pause_then_int {A} config key (a : A) n :
  dict_get key config = Some (VInt n) -> (0 <= n <= sleep_cap)%Z ->
  os_sleep w n = true ->
  pause_then w config key a = ([Slept n], Normal a).
Proof.
  intros E Hn Hos. unfold pause_then. rewrite E. cbn [time_sleep].
  unfold sleep_seconds.
  destruct (sleep_cap <? Z.abs n)%Z eqn:Hcap; [apply Z.ltb_lt in Hcap; lia|].
  destruct (n <? 0)%Z eqn:Hlt; [apply Z.ltb_lt in Hlt; lia|].
  rewrite Hos. reflexivity.
Qed.

Lemma folder_body_attempt config node id_f fd ids user port address path argv h :
  dict_get "folders" node = Some (VList ids) ->
  existsb (fun x => eq_str x id_f) ids = true ->
  dict_get "user" node = Some user ->
  dict_get "ssh-port" node = Some port ->
  dict_get "address" node = Some address ->
  dict_get "path" fd = Some path ->
  shlex_split w (rsync_text rsync user port (options_of fd) path address
                   (dest_of fd path)) = Some argv ->
  let hello := said o INFO [Lit "Syncing "; Val (VStr id_f); Lit " folder ..."] in
  folder_body w o rsync config node id_f (VDict fd) h =
  after (hello ++ [Ran argv])
    match subprocess_run w (h ++ hello) argv with
    | NotLaunched => ([], Uncaught OSError)
    | Undecodable _ => ([], Uncaught UnicodeDecodeError)
    | Completed rc out =>
        if (rc =? 0)%Z then
          after (said o DEBUG [Lit "rsync output:"; Lit nl; Val (VStr out)]
                 ++ said o INFO [Val (VStr id_f); Lit " successfully synced"])
            (pause_then w config "sleep-time-folders" (VDict (folder_defaulted fd path)))
        else
          (said o ERROR [Lit "rsync output:"; Lit nl; Val (VStr out)]
           ++ said o ERROR [Lit "Skipped folder "; Val (VStr id_f)],
           Normal (VDict (folder_defaulted fd path)))
    end.
Proof.
  intros Hsel Hin Hu Hpo Ha Hp Hs hello. unfold folder_body.
  rewrite (bind_getitem _ _ _ _ _ Hsel).
  rewrite bind_pure with (a := true) by (cbn; rewrite Hin; reflexivity).
  rewrite (bind_pure _ _ _ _ (folder_defaults_run fd path _ Hp)).
  rewrite bind_log. fold hello.
  rewrite (bind_pure _ _ _ _ (rsync_command_run node fd user port address path _ Hu Hpo Ha Hp)).
  rewrite (bind_split _ _ _ _ _ Hs).
  rewrite bind_run, after_after, <- app_assoc.
  f_equal.
  destruct (subprocess_run w (h ++ hello) argv) as [rc out| |rc]; [|reflexivity..].
  destruct (rc =? 0)%Z.
  - rewrite bind_log, bind_log, after_after, pause_then_run. reflexivity.
  - rewrite bind_log, bind_log, after_after.
    unfold after, continue, ret. cbn [fst snd]. rewrite app_nil_r. reflexivity.
Qed.

(** The turn of a service, up to the answer of the remote command. *)
Lemma service_body_attempt config node id_n id_s sd user port address method name
      argv h :
  dict_get "user" node = Some user ->
  dict_get "ssh-port" node = Some port ->
  dict_get "address" node = Some address ->
  dict_get "method" sd = Some method ->
  dict_get "name" sd = Some name ->
  shlex_split w (service_text ssh port user address (sudo_of sd) method name)
    = Some argv ->
  let hello := said o INFO [Lit "Trying service "; Val (VStr id_s); Lit " ";
                            Val method; Lit " ..."] in
  service_body w o ssh config node id_n id_s (VDict sd) h =
  after (hello ++ [Ran argv])
    match subprocess_run w (h ++ hello) argv with
    | NotLaunched => ([], Uncaught OSError)
    | Undecodable _ => ([], Uncaught UnicodeDecodeError)
    | Completed rc out =>
        if (rc =? 0)%Z then
          after (said o DEBUG [Lit "command output:"; Lit nl; Val (VStr out)]
                 ++ said o INFO [Val (VStr id_s); Lit " successfully "; Val method;
                                 Lit "ed"])
            (pause_then w config "sleep-time-services" (VDict (service_defaults sd)))
        else
          (said o DEBUG [Lit "command output:"; Lit nl; Val (VStr out)]
           ++ said o ERROR [Lit "... something went wrong. Please check on ";
                            Val (VStr id_n); Lit " system"],
           Normal (VDict (service_defaults sd)))
    end.
Proof.
  intros Hu Hpo Ha Hm Hn Hs hello. unfold service_body.
  rewrite (bind_getitem _ _ _ _ _ Hm).
  rewrite bind_log. fold hello.
  rewrite (bind_pure _ _ _ _
             (service_command_run node sd user port address method name _ Hu Hpo Ha Hm Hn)).
  rewrite (bind_split _ _ _ _ _ Hs).
  rewrite bind_run, after_after, <- app_assoc.
  f_equal.
  destruct (subprocess_run w (h ++ hello) argv) as [rc out| |rc]; [|reflexivity..].
  destruct (rc =? 0)%Z.
  - rewrite bind_log, bind_log, after_after, pause_then_run. reflexivity.
  - rewrite bind_log, bind_log, after_after.
    unfold after, continue, ret. cbn [fst snd]. rewrite app_nil_r. reflexivity.
Qed.

End Turns.

(** C1, as the code has it.  On a reachable node the pause of
    [sleep-time-folders] follows a transfer that returned 0, after its two
    records, and the pause of [sleep-time-services] follows a service
    command that returned 0; after an attempt that returned another code
    the turn ends with its two records and takes no pause.  The pauses
    are whole numbers of seconds that [time.sleep] takes: not negative,
    within [sleep_cap], and accepted by the sleep call of the platform.
    An attempt whose output does not decode is followed by no record and
    no pause, whatever it returned: the turn ends in UnicodeDecodeError. *)
Theorem pause_follows_success_only :
  forall (w : World) (o : flags) (ssh rsync : string) (config node : dict)
         (user port address : value) (n m : Z),
    dict_get "user" node = Some user ->
    dict_get "ssh-port" node = Some port ->
    dict_get "address" node = Some address ->
    dict_get "sleep-time-folders" config = Some (VInt n) ->
    (0 <= n <= sleep_cap)%Z -> os_sleep w n = true ->
    dict_get "sleep-time-services" config = Some (VInt m) ->
    (0 <= m <= sleep_cap)%Z -> os_sleep w m = true ->
    (forall id_f fd ids path argv h,
        dict_get "folders" node = Some (VList ids) ->
        existsb (fun x => eq_str x id_f) ids = true ->
        dict_get "path" fd = Some path ->
        shlex_split w (rsync_text rsync user port (options_of fd) path address
                         (dest_of fd path)) = Some argv ->
        (forall rc out,
            subprocess_run w
              (h ++ said o INFO [Lit "Syncing "; Val (VStr id_f); Lit " folder ..."]) argv
              = Completed rc out ->
            folder_body w o rsync config node id_f (VDict fd) h =
            (said o INFO [Lit "Syncing "; Val (VStr id_f); Lit " folder ..."]
             ++ [Ran argv]
             ++ (if (rc =? 0)%Z then
                   said o DEBUG [Lit "rsync output:"; Lit nl; Val (VStr out)]
                   ++ said o INFO [Val (VStr id_f); Lit " successfully synced"]
                   ++ [Slept n]
                 else
                   said o ERROR [Lit "rsync output:"; Lit nl; Val (VStr out)]
                   ++ said o ERROR [Lit "Skipped folder "; Val (VStr id_f)]),
             Normal (VDict (folder_defaulted fd path))))
        /\ (forall rc,
               subprocess_run w
                 (h ++ said o INFO [Lit "Syncing "; Val (VStr id_f); Lit " folder ..."])
                 argv
                 = Undecodable rc ->
               folder_body w o rsync config node id_f (VDict fd) h =
               (said o INFO [Lit "Syncing "; Val (VStr id_f); Lit " folder ..."]
                ++ [Ran argv],
                Uncaught UnicodeDecodeError)))
    /\ (forall id_n id_s sd method name argv h,
        dict_get "method" sd = Some method ->
        dict_get "name" sd = Some name ->
        shlex_split w (service_text ssh port user address (sudo_of sd) method name)
          = Some argv ->
        (forall rc out,
            subprocess_run w
              (h ++ said o INFO [Lit "Trying service "; Val (VStr id_s); Lit " ";
                                 Val method; Lit " ..."]) argv
              = Completed rc out ->
            service_body w o ssh config node id_n id_s (VDict sd) h =
            (said o INFO [Lit "Trying service "; Val (VStr id_s); Lit " "; Val method;
                          Lit " ..."]
             ++ [Ran argv]
             ++ (if (rc =? 0)%Z then
                   said o DEBUG [Lit "command output:"; Lit nl; Val (VStr out)]
                   ++ said o INFO [Val (VStr id_s); Lit " successfully "; Val method;
                                   Lit "ed"]
                   ++ [Slept m]
                 else
                   said o DEBUG [Lit "command output:"; Lit nl; Val (VStr out)]
                   ++ said o ERROR [Lit "... something went wrong. Please check on ";
                                    Val (VStr id_n); Lit " system"]),
             Normal (VDict (service_defaults sd))))
        /\ (forall rc,
               subprocess_run w
                 (h ++ said o INFO [Lit "Trying service "; Val (VStr id_s); Lit " ";
                                    Val method; Lit " ..."]) argv
                 = Undecodable rc ->
               service_body w o ssh config node id_n id_s (VDict sd) h =
               (said o INFO [Lit "Trying service "; Val (VStr id_s); Lit " "; Val method;
                             Lit " ..."]
                ++ [Ran argv],
                Uncaught UnicodeDecodeError))).
Proof.
  intros w o ssh rsync config node user port address n m
         Hu Hpo Ha Hn Hn0 Hn1 Hm Hm0 Hm1.
  split.
  - intros id_f fd ids path argv h Hsel Hin Hp Hs.
    pose proof (folder_body_attempt w o rsync config node id_f fd ids user port address
                  path argv h Hsel Hin Hu Hpo Ha Hp Hs) as Hturn.
    cbv zeta in Hturn. split.
    + intros rc out Hrun. rewrite Hturn, Hrun.
      destruct (rc =? 0)%Z.
      * rewrite (pause_then_int w _ _ _ _ Hn Hn0 Hn1). unfold after. cbn [fst snd].
        rewrite <- !app_assoc. reflexivity.
      * unfold after. cbn [fst snd]. rewrite <- !app_assoc. reflexivity.
    + intros rc Hrun. rewrite Hturn, Hrun. unfold after. cbn [fst snd].
      rewrite app_nil_r. reflexivity.
  - intros id_n id_s sd method name argv h Hme Hna Hs.
    pose proof (service_body_attempt w o ssh config node id_n id_s sd user port address
                  method name argv h Hu Hpo Ha Hme Hna Hs) as Hturn.
    cbv zeta in Hturn. split.
    + intros rc out Hrun. rewrite Hturn, Hrun.
      destruct (rc =? 0)%Z.
      * rewrite (pause_then_int w _ _ _ _ Hm Hm0 Hm1). unfold after. cbn [fst snd].
        rewrite <- !app_assoc. reflexivity.
      * unfold after. cbn [fst snd]. rewrite <- !app_assoc. reflexivity.
    + intros rc Hrun. rewrite Hturn, Hrun. unfold after. cbn [fst snd].
      rewrite app_nil_r. reflexivity.
Qed.

(** C1 as stated fails: on the sample node the probe succeeds, both
    transfers and the service command return 1, and the run takes no
    pause at all. *)
Lemma failed_attempts_take_no_pause :
  let es := fst (sync_nodes (Sample.world (VDict Sample.one_node) Sample.only_probe_succeeds)
                   (Some []) []) in
  commands es = [ Sample.probe_web1; Sample.rsync_site_web1; Sample.rsync_etc_web1;
                  Sample.reload_nginx_web1 ]
  /\ sleeps es = [].
Proof. vm_compute. split; reflexivity. Qed.

(** The two halves of C1 on the sample node: the transfer of [site]
    returns 0 and is followed by the pause of 3 seconds; the service
    command returns 3 and is followed by none. *)
Lemma pause_follows_success_only_witness :
  folder_body (Sample.world (VDict Sample.one_node) Sample.service_fails) default_flags
    "/usr/bin/rsync" Sample.one_node_defaulted Sample.web1_resolved "site"
    (VDict Sample.site) [] =
  ([ Logged INFO [Lit "Syncing "; Val (VStr "site"); Lit " folder ..."];
     Ran Sample.rsync_site_web1;
     Logged DEBUG [Lit "rsync output:"; Lit nl; Val (VStr "ok")];
     Logged INFO [Val (VStr "site"); Lit " successfully synced"];
     Slept 3 ],
   Normal (VDict (folder_defaulted Sample.site (VStr "/srv/site"))))
  /\ service_body (Sample.world (VDict Sample.one_node) Sample.service_fails) default_flags
       "/usr/bin/ssh" Sample.one_node_defaulted Sample.web1_resolved "web1" "nginx"
       (VDict Sample.nginx) [] =
     ([ Logged INFO [Lit "Trying service "; Val (VStr "nginx"); Lit " ";
                     Val (VStr "reload"); Lit " ..."];
        Ran Sample.reload_nginx_web1;
        Logged DEBUG [Lit "command output:"; Lit nl; Val (VStr "inactive")];
        Logged ERROR [Lit "... something went wrong. Please check on ";
                      Val (VStr "web1"); Lit " system"] ],
      Normal (VDict (service_defaults Sample.nginx))).
Proof.
  pose proof (pause_follows_success_only
                (Sample.world (VDict Sample.one_node) Sample.service_fails) default_flags
                "/usr/bin/ssh" "/usr/bin/rsync" Sample.one_node_defaulted
                Sample.web1_resolved (VStr "root") (VInt 22) (VStr "10.0.0.1") 3%Z 1%Z
                eq_refl eq_refl eq_refl
                eq_refl ltac:(unfold sleep_cap; lia) eq_refl
                eq_refl ltac:(unfold sleep_cap; lia) eq_refl)
    as [Hfolder Hservice].
  split.
  - exact (proj1 (Hfolder "site" Sample.site [VStr "site"; VStr "etc"] (VStr "/srv/site")
                    Sample.rsync_site_web1 [] eq_refl eq_refl eq_refl eq_refl)
             0%Z "ok" eq_refl).
  - exact (proj1 (Hservice "web1" "nginx" Sample.nginx (VStr "reload") (VStr "nginx")
                    Sample.reload_nginx_web1 [] eq_refl eq_refl eq_refl)
             3%Z "inactive" eq_refl).
Defined.

Lemma folders_loop_app w o rsync config node pre post h :
  folders_loop w o rsync config node (pre ++ post) h =
  match folders_loop w o rsync config node pre h with
  | (es1, Normal pre') =>
      (es1 ++ fst (folders_loop w o rsync config node post (h ++ es1)),
       result_map (app pre') (snd (folders_loop w o rsync config node post (h ++ es1))))
  | (es1, SysExit c) => (es1, SysExit c)
  | (es1, Uncaught e) => (es1, Uncaught e)
  end.
Proof.
  revert h. induction pre as [|[id_f folder] pre IH]; intros h.
  - cbn. rewrite app_nil_r.
    destruct (folders_loop w o rsync config node post h) as [es [fs|c|e]]; reflexivity.
  - cbn [app folders_loop]. unfold bind at 1 3.
    destruct (folder_body w o rsync config node id_f folder h) as [es0 [folder'|c|e]];
      try reflexivity.
    unfold bind at 1 2. rewrite IH.
    destruct (folders_loop w o rsync config node pre (h ++ es0)) as [es1 [pre'|c|e]];
      try reflexivity.
    cbn [ret fst snd]. rewrite !app_nil_r, (app_assoc h es0 es1).
    destruct (folders_loop w o rsync config node post ((h ++ es0) ++ es1))
      as [es2 [post'|c|e]]; cbn; rewrite ?app_nil_r, <- ?app_assoc; reflexivity.
Qed.

(** C7, as the code has it.  When the transfer of a selected folder
    returns a code other than 0 and its output decodes, the turn logs the
    captured output at error level, logs the skip notice, and ends
    normally.  The folder loop goes on with the remaining folders from
    there; and wherever the folder stands among the configured ones, if
    the loop got to it and the folders after it are gone through, the
    node's turn goes on to the services. *)
Theorem failed_transfer_skips_folder_only :
  forall (w : World) (o : flags) (rsync : string) (config node : dict)
         (id_f : string) (fd : dict) (ids : list value)
         (user port address path : value) (argv : list string)
         (rc : Z) (out : string) (h : list event),
    dict_get "folders" node = Some (VList ids) ->
    existsb (fun x => eq_str x id_f) ids = true ->
    dict_get "user" node = Some user ->
    dict_get "ssh-port" node = Some port ->
    dict_get "address" node = Some address ->
    dict_get "path" fd = Some path ->
    shlex_split w (rsync_text rsync user port (options_of fd) path address
                     (dest_of fd path)) = Some argv ->
    subprocess_run w
      (h ++ said o INFO [Lit "Syncing "; Val (VStr id_f); Lit " folder ..."]) argv
      = Completed rc out ->
    rc <> 0%Z ->
    let es :=
      said o INFO [Lit "Syncing "; Val (VStr id_f); Lit " folder ..."]
      ++ [Ran argv]
      ++ said o ERROR [Lit "rsync output:"; Lit nl; Val (VStr out)]
      ++ said o ERROR [Lit "Skipped folder "; Val (VStr id_f)] in
    folder_body w o rsync config node id_f (VDict fd) h =
      (es, Normal (VDict (folder_defaulted fd path)))
    /\ (forall rest,
           folders_loop w o rsync config node ((id_f, VDict fd) :: rest) h =
           (es ++ fst (folders_loop w o rsync config node rest (h ++ es)),
            result_map (cons (id_f, VDict (folder_defaulted fd path)))
              (snd (folders_loop w o rsync config node rest (h ++ es)))))
    /\ (forall ssh id_n pre rest h0 es0 pre' es' rest',
           dict_get "folders" config = Some (VDict (pre ++ (id_f, VDict fd) :: rest)) ->
           folders_loop w o rsync config node pre h0 = (es0, Normal pre') ->
           h = h0 ++ es0 ->
           folders_loop w o rsync config node rest (h ++ es) = (es', Normal rest') ->
           node_work w o ssh rsync config node id_n h0 =
           after (es0 ++ es ++ es')
             (services_stage w o ssh
                (dict_set "folders"
                   (VDict (pre' ++ (id_f, VDict (folder_defaulted fd path)) :: rest'))
                   config)
                node id_n (h0 ++ es0 ++ es ++ es'))).
Proof.
  intros w o rsync config node id_f fd ids user port address path argv rc out h
         Hsel Hin Hu Hpo Ha Hp Hs Hrun Hrc es.
  assert (Hbody : folder_body w o rsync config node id_f (VDict fd) h =
                  (es, Normal (VDict (folder_defaulted fd path)))).
  { rewrite (folder_body_attempt w o rsync config node id_f fd ids user port address
               path argv h Hsel Hin Hu Hpo Ha Hp Hs).
    cbv zeta. rewrite Hrun.
    destruct (rc =? 0)%Z eqn:E; [apply Z.eqb_eq in E; contradiction|].
    unfold after, es. cbn [fst snd]. rewrite <- !app_assoc. reflexivity. }
  assert (Hloop : forall rest,
             folders_loop w o rsync config node ((id_f, VDict fd) :: rest) h =
             (es ++ fst (folders_loop w o rsync config node rest (h ++ es)),
              result_map (cons (id_f, VDict (folder_defaulted fd path)))
                (snd (folders_loop w o rsync config node rest (h ++ es))))).
  { intros rest. cbn [folders_loop].
    rewrite (bind_normal _ _ _ _ _ Hbody). unfold after, bind.
    destruct (folders_loop w o rsync config node rest (h ++ es)) as [es' [fs'|c|e]];
      cbn; rewrite ?app_nil_r; reflexivity. }
  split; [exact Hbody|]. split; [exact Hloop|].
  intros ssh id_n pre rest h0 es0 pre' es' rest' Hfs Hpre -> Hrest.
  assert (Hall : folders_loop w o rsync config node (pre ++ (id_f, VDict fd) :: rest) h0 =
                 (es0 ++ es ++ es',
                  Normal (pre' ++ (id_f, VDict (folder_defaulted fd path)) :: rest'))).
  { rewrite folders_loop_app, Hpre, Hloop, Hrest. reflexivity. }
  unfold node_work. rewrite (bind_getitem _ _ _ _ _ Hfs). cbn [items]. rewrite bind_ret.
  rewrite (bind_normal _ _ _ _ _ Hall). reflexivity.
Qed.

(** C7 on the sample node: the transfer of [site] returns 23, the turn
    ends normally and the loop goes on to [etc], whose transfer also runs. *)
Lemma failed_transfer_skips_folder_only_witness :
  commands
    (fst (folders_loop (Sample.world (VDict Sample.one_node) Sample.rsync_fails)
            default_flags "/usr/bin/rsync" Sample.one_node_defaulted
            Sample.web1_resolved
            [ ("site", VDict Sample.site); ("etc", VDict Sample.etc) ] []))
  = [ Sample.rsync_site_web1; Sample.rsync_etc_web1 ].
Proof.
  rewrite (proj1 (proj2 (failed_transfer_skips_folder_only
                    (Sample.world (VDict Sample.one_node) Sample.rsync_fails)
                    default_flags "/usr/bin/rsync" Sample.one_node_defaulted
                    Sample.web1_resolved "site" Sample.site [VStr "site"; VStr "etc"]
                    (VStr "root") (VInt 22) (VStr "10.0.0.1") (VStr "/srv/site")
                    Sample.rsync_site_web1 23%Z "rsync error" []
                    eq_refl eq_refl eq_refl eq_refl eq_refl eq_refl eq_refl eq_refl
                    ltac:(discriminate)))).
  reflexivity.
Defined.

(** C7 as stated fails: on the sample node the transfer of [site] exits
    with 23 and its output does not decode; the run ends there in an
    uncaught UnicodeDecodeError, with neither the transfer of [etc] nor
    the service command tried, and no error record of the failure. *)
Lemma undecodable_output_ends_the_run :
  let run := sync_nodes (Sample.world (VDict Sample.one_node) Sample.rsync_garbles)
               (Some []) [] in
  snd run = Uncaught UnicodeDecodeError
  /\ commands (fst run) = [ Sample.probe_web1; Sample.rsync_site_web1 ]
  /\ errors (fst run) = [].
Proof. vm_compute. repeat split; reflexivity. Qed.

(** ** Reading a turn back from its outcome *)

Lemma bind_inv_normal {A B} (m : M A) (f : A -> M B) h es b :
  bind m f h = (es, Normal b) ->
  exists es1 a es2,
    m h = (es1, Normal a) /\ f a (h ++ es1) = (es2, Normal b) /\ es = es1 ++ es2.
Proof.
  unfold bind. destruct (m h) as [es1 [a|c|e]]; try discriminate.
  destruct (f a (h ++ es1)) as [es2 r] eqn:Hf. intros H. inversion H. subst.
  exists es1, a, es2. auto.
Qed.

Lemma bind_silent_inv {A B} (m : M A) (f : A -> M B) h es b :
  silent m -> bind m f h = (es, Normal b) ->
  exists a, m h = ([], Normal a) /\ f a h = (es, Normal b).
Proof.
  intros Hs H. apply bind_inv_normal in H. destruct H as (es1 & a & es2 & Hm & Hf & ->).
  pose proof (Hs h) as Hes. rewrite Hm in Hes. cbn in Hes. subst es1.
  rewrite app_nil_r in Hf. exists a. auto.
Qed.

Lemma after_inv {A} es0 (p : list event * result A) es r :
  after es0 p = (es, r) -> exists es2, p = (es2, r) /\ es = es0 ++ es2.
Proof.
  destruct p as [es2 r']. unfold after. cbn. intros H. inversion H. subst.
  exists es2. auto.
Qed.

Lemma silent_ret {A} (a : A) : silent (ret a).
Proof. intros h. reflexivity. Qed.

Lemma silent_raise {A} e : silent (@raise A e).
Proof. intros h. reflexivity. Qed.

Lemma silent_bind {A B} (m : M A) (f : A -> M B) :
  silent m -> (forall a, silent (f a)) -> silent (bind m f).
Proof.
  intros Hm Hf h. unfold bind. pose proof (Hm h) as H1.
  destruct (m h) as [es1 [a|c|e]]; cbn in H1; subst; cbn; try reflexivity.
  pose proof (Hf a (h ++ [])) as H2. destruct (f a (h ++ [])). cbn in *. exact H2.
Qed.

Lemma silent_getitem k d : silent (getitem k d).
Proof. intros h. unfold getitem. destruct (dict_get k d); reflexivity. Qed.

Lemma silent_contains s v : silent (contains s v).
Proof. intros h. destruct v; reflexivity. Qed.

Lemma silent_items v : silent (items v).
Proof. intros h. destruct v; reflexivity. Qed.

Lemma silent_len v : silent (len v).
Proof. intros h. destruct v; reflexivity. Qed.

Lemma silent_split w cmd : silent (split w cmd).
Proof. intros h. unfold split. destruct (shlex_split w cmd); reflexivity. Qed.

Lemma silent_folder_defaults fd : silent (folder_defaults fd).
Proof.
  unfold folder_defaults. destruct (negb (dict_has "dest" _)).
  - apply silent_bind; [apply silent_getitem|intros; apply silent_ret].
  - apply silent_ret.
Qed.

Lemma silent_rsync_command rsync node fd : silent (rsync_command rsync node fd).
Proof.
  unfold rsync_command.
  repeat (apply silent_bind; [apply silent_getitem|intros]). apply silent_ret.
Qed.

Lemma silent_service_command ssh node sd : silent (service_command ssh node sd).
Proof.
  unfold service_command.
  repeat (apply silent_bind; [apply silent_getitem|intros]). apply silent_ret.
Qed.

Lemma silent_probe_command ssh node : silent (probe_command ssh node).
Proof.
  unfold probe_command.
  repeat (apply silent_bind; [apply silent_getitem|intros]). apply silent_ret.
Qed.

Lemma attempted_app es es' : attempted (es ++ es') = attempted es ++ attempted es'.
Proof.
  induction es as [|e es IH]; [reflexivity|].
  cbn. destruct (syncing_id e); cbn; rewrite IH; reflexivity.
Qed.

Lemma attempted_said_syncing o id_f :
  attempted (said o INFO [Lit "Syncing "; Val (VStr id_f); Lit " folder ..."]) = [id_f].
Proof. unfold said, mylog_events. destruct (foreground o && _); reflexivity. Qed.

Lemma attempted_said_other o lvl msg :
  syncing_id (Logged lvl msg) = None -> attempted (said o lvl msg) = [].
Proof.
  intros H. unfold said, mylog_events.
  destruct (foreground o && _); cbn [attempted]; rewrite H; reflexivity.
Qed.

Lemma attempted_pause_then {A} w config key (a : A) :
  attempted (fst (pause_then w config key a)) = [].
Proof.
  unfold pause_then. destruct (dict_get key config) as [v|]; [|reflexivity].
  cbn [fst]. destruct (time_sleep_adds w v []) as [E|[n E]]; rewrite E; reflexivity.
Qed.

(** A turn of the folder loop that ends normally announced its folder
    exactly when the node's list holds it. *)
Lemma folder_body_attempted w o rsync config node id_f folder ids h es r :
  dict_get "folders" node = Some (VList ids) ->
  folder_body w o rsync config node id_f folder h = (es, Normal r) ->
  attempted es = if existsb (fun x => eq_str x id_f) ids then [id_f] else [].
Proof.
  intros Hsel H. unfold folder_body in H.
  rewrite (bind_getitem _ _ _ _ _ Hsel) in H.
  rewrite bind_pure with (a := existsb (fun x => eq_str x id_f) ids) in H
    by reflexivity.
  destruct (existsb (fun x => eq_str x id_f) ids).
  - destruct folder as [| | | | |fd]; try discriminate.
    apply bind_silent_inv in H; [|apply silent_folder_defaults].
    destruct H as (fd' & _ & H).
    rewrite bind_log in H. apply after_inv in H. destruct H as (es2 & H & ->).
    rewrite attempted_app, attempted_said_syncing.
    apply bind_silent_inv in H; [|apply silent_rsync_command].
    destruct H as (cmd & _ & H).
    apply bind_silent_inv in H; [|apply silent_split].
    destruct H as (argv & _ & H).
    rewrite bind_run in H. apply after_inv in H. destruct H as (es3 & H & ->).
    destruct (subprocess_run w _ argv) as [rc out| |rc]; [|discriminate..].
    destruct (rc =? 0)%Z.
    + rewrite bind_log, bind_log, after_after, pause_then_run in H.
      apply after_inv in H. destruct H as (es4 & H & ->).
      rewrite !attempted_app, !attempted_said_other by reflexivity.
      pose proof (attempted_pause_then w config "sleep-time-folders" (VDict fd')) as Hp.
      rewrite H in Hp. cbn in Hp. cbn. rewrite Hp. reflexivity.
    + rewrite bind_log, bind_log, after_after in H.
      apply after_inv in H. destruct H as (es4 & H & ->).
      inversion H. subst.
      rewrite !attempted_app, !attempted_said_other by reflexivity. reflexivity.
  - inversion H. reflexivity.
Qed.

Lemma folders_loop_attempted w o rsync config node ids fs :
  dict_get "folders" node = Some (VList ids) ->
  forall h es fs',
    folders_loop w o rsync config node fs h = (es, Normal fs') ->
    attempted es = filter (fun id_f => existsb (fun x => eq_str x id_f) ids) (keys fs).
Proof.
  intros Hsel. induction fs as [|[id_f folder] rest IH]; intros h es fs' H.
  - inversion H. reflexivity.
  - cbn [folders_loop] in H.
    apply bind_inv_normal in H. destruct H as (es1 & folder' & es2 & Hb & H & ->).
    apply bind_inv_normal in H. destruct H as (es3 & rest' & es4 & Hl & H & ->).
    inversion H. subst. rewrite app_nil_r, attempted_app.
    rewrite (folder_body_attempted _ _ _ _ _ _ _ _ _ _ _ Hsel Hb).
    rewrite (IH _ _ _ Hl). cbn.
    destruct (existsb (fun x => eq_str x id_f) ids); reflexivity.
Qed.

Lemma existsb_eq_str_keys id_f (ks : list string) :
  In id_f ks -> existsb (fun x => eq_str x id_f) (map VStr ks) = true.
Proof.
  intros Hin. apply existsb_exists. exists (VStr id_f). split.
  - apply in_map, Hin.
  - cbn. apply String.eqb_refl.
Qed.

Lemma filter_all_keys (ks : list string) :
  filter (fun id_f => existsb (fun x => eq_str x id_f) (map VStr ks)) ks = ks.
Proof.
  apply forallb_filter_id, forallb_forall.
  intros id_f Hin. apply existsb_eq_str_keys, Hin.
Qed.

Lemma resolve_folders_run o config node id_n selector fs h :
  dict_get "folders" node = Some selector ->
  dict_get "folders" config = Some (VDict fs) ->
  resolve_folders o config node id_n h =
  ([], Normal (Some (if isinstance_list selector then node
                     else dict_set "folders" (VList (map VStr (keys fs))) node))).
Proof.
  intros Hsel Hfs. unfold resolve_folders. rewrite (bind_getitem _ _ _ _ _ Hsel).
  unfold selector_branch.
  destruct (isinstance_list selector) eqn:Hl; cbn [negb orb].
  - destruct selector; try discriminate. reflexivity.
  - rewrite (bind_getitem _ _ _ _ _ Hfs). reflexivity.
Qed.

(** C6.  Resolution of the selector never skips the node: a selector that
    is not a list (the text [all] among them) is replaced by the list of
    all configured folder identifiers, a list is kept.  The folder loop,
    whenever it runs to its end, then attempts exactly the effective
    folder set in configuration order: every configured folder in the
    first case, the configured folders that occur in the list in the
    second. *)
Theorem effective_folder_set :
  forall (w : World) (o : flags) (rsync : string) (config node : dict)
         (id_n : string) (selector : value) (fs : dict) (h : list event),
    dict_get "folders" node = Some selector ->
    dict_get "folders" config = Some (VDict fs) ->
    let resolved :=
      if isinstance_list selector then node
      else dict_set "folders" (VList (map VStr (keys fs))) node in
    resolve_folders o config node id_n h = ([], Normal (Some resolved))
    /\ (forall h' es fs',
           folders_loop w o rsync config resolved fs h' = (es, Normal fs') ->
           attempted es = effective_folders selector (keys fs))
    /\ (isinstance_list selector = false -> effective_folders selector (keys fs) = keys fs)
    /\ (forall ids id_f,
           selector = VList ids ->
           In id_f (effective_folders selector (keys fs)) <->
           In id_f (keys fs) /\ In (VStr id_f) ids).
Proof.
  intros w o rsync config node id_n selector fs h Hsel Hfs resolved.
  split; [|split; [|split]].
  - apply resolve_folders_run; assumption.
  - intros h' es fs' Hloop. unfold resolved in Hloop.
    destruct selector as [| | | |ids|]; cbn [isinstance_list effective_folders] in *;
      try (rewrite (folders_loop_attempted w o rsync config _ _ fs
                      (dict_get_set_same _ _ _) _ _ _ Hloop);
           apply filter_all_keys).
    apply (folders_loop_attempted w o rsync config _ _ fs Hsel _ _ _ Hloop).
  - destruct selector; try discriminate; reflexivity.
  - intros ids id_f ->. cbn [effective_folders]. rewrite filter_In.
    split; intros [Hk Hi]; (split; [exact Hk|]).
    + apply existsb_exists in Hi. destruct Hi as (x & Hx & Heq).
      destruct x; try discriminate. cbn in Heq. apply String.eqb_eq in Heq.
      subst. exact Hx.
    + apply existsb_exists. exists (VStr id_f). split; [exact Hi|].
      cbn. apply String.eqb_refl.
Qed.

(** C6 on a sample node whose list names [site] and a folder that is not
    configured: the loop attempts [site] and nothing else. *)
Lemma effective_folder_set_witness :
  attempted
    (fst (folders_loop (Sample.world (VDict Sample.one_node) Sample.all_well)
            default_flags "/usr/bin/rsync" Sample.one_node_defaulted Sample.web2
            [ ("site", VDict Sample.site); ("etc", VDict Sample.etc) ] []))
  = [ "site" ].
Proof.
  eapply (proj1 (proj2 (effective_folder_set
                          (Sample.world (VDict Sample.one_node) Sample.all_well)
                          default_flags "/usr/bin/rsync" Sample.one_node_defaulted
                          Sample.web2 "web2" (VList [VStr "site"; VStr "missing"])
                          [ ("site", VDict Sample.site); ("etc", VDict Sample.etc) ] []
                          eq_refl eq_refl))
            [] _
            [ ("site", VDict (folder_defaulted Sample.site (VStr "/srv/site")));
              ("etc", VDict Sample.etc) ]).
  vm_compute. reflexivity.
Defined.

(** C2, as the code has it.  A node whose folder selector is not a list,
    be it the text [all], another scalar, a mapping or null, gets no
    selector error: once the probe has succeeded the selector is replaced
    by the list of all configured folder identifiers and the turn goes
    straight on to the folder loop over it and then to the services. *)
Theorem selector_not_a_list_means_all :
  forall (w : World) (o : flags) (ssh rsync : string) (config : dict)
         (id_n : string) (nd : dict) (selector address : value) (fs : dict)
         (argv : list string) (h : list event),
    dict_get "folders" nd = Some selector ->
    isinstance_list selector = false ->
    dict_get "folders" config = Some (VDict fs) ->
    dict_get "address" nd = Some address ->
    shlex_split w (probe_text ssh (port_of nd) (user_of w nd) address) = Some argv ->
    returned_zero
      (subprocess_run w
         (h ++ said o INFO [Lit "Connecting to "; Val address; Lit ":";
                            Val (port_of nd); Lit " ..."]) argv) = true ->
    let es :=
      said o INFO [Lit "Connecting to "; Val address; Lit ":"; Val (port_of nd); Lit " ..."]
      ++ [Ran argv] in
    node_body w o ssh rsync config id_n (VDict nd) h =
    after es
      (node_work w o ssh rsync config
         (dict_set "folders" (VList (map VStr (keys fs))) (node_defaults w nd))
         id_n (h ++ es)).
Proof.
  intros w o ssh rsync config id_n nd selector address fs argv h
         Hsel Hl Hfs Ha Hs Hok es.
  rewrite (node_body_probe w o ssh rsync config id_n nd address argv h Ha Hs).
  cbv zeta. rewrite Hok. fold es. f_equal.
  assert (Hsel' : dict_get "folders" (node_defaults w nd) = Some selector)
    by (rewrite node_defaults_other by discriminate; exact Hsel).
  pose proof (resolve_folders_run o config (node_defaults w nd) id_n selector fs
                (h ++ es) Hsel' Hfs) as Hres.
  rewrite Hl in Hres. rewrite (bind_pure _ _ _ _ Hres). reflexivity.
Qed.

(** C2 as stated fails: the sample node [web3] has the scalar selector
    [site]; the run logs nothing at error level, transfers both configured
    folders and then reloads the service. *)
Lemma scalar_selector_is_no_error :
  let es := fst (sync_nodes (Sample.world (VDict Sample.scalar_selector) Sample.all_well)
                   (Some []) []) in
  errors es = []
  /\ commands es = [ Sample.probe_web3; Sample.rsync_site_web3; Sample.rsync_etc_web3;
                     Sample.reload_nginx_web3 ].
Proof. vm_compute. split; reflexivity. Qed.

(** C2 on the sample node [web3]: after the probe the turn is the folder
    and service work of a node that selects both configured folders. *)
Lemma selector_not_a_list_means_all_witness :
  node_body (Sample.world (VDict Sample.scalar_selector) Sample.all_well) default_flags
    "/usr/bin/ssh" "/usr/bin/rsync" Sample.one_node_defaulted "web3" (VDict Sample.web3) [] =
  after [ Logged INFO [Lit "Connecting to "; Val (VStr "10.0.0.3"); Lit ":";
                       Val (VInt 22); Lit " ..."];
          Ran Sample.probe_web3 ]
    (node_work (Sample.world (VDict Sample.scalar_selector) Sample.all_well) default_flags
       "/usr/bin/ssh" "/usr/bin/rsync" Sample.one_node_defaulted
       [ ("address", VStr "10.0.0.3"); ("folders", VList [VStr "site"; VStr "etc"]);
         ("ssh-port", VInt 22); ("user", VStr "root") ]
       "web3"
       [ Logged INFO [Lit "Connecting to "; Val (VStr "10.0.0.3"); Lit ":";
                      Val (VInt 22); Lit " ..."];
         Ran Sample.probe_web3 ]).
Proof.
  exact (selector_not_a_list_means_all
           (Sample.world (VDict Sample.scalar_selector) Sample.all_well) default_flags
           "/usr/bin/ssh" "/usr/bin/rsync" Sample.one_node_defaulted "web3" Sample.web3
           (VStr "site") (VStr "10.0.0.3")
           [ ("site", VDict Sample.site); ("etc", VDict Sample.etc) ]
           Sample.probe_web3 [] eq_refl eq_refl eq_refl eq_refl eq_refl eq_refl).
Defined.

(** ** What a run can emit *)

Lemma emits_silent P {A} (m : M A) : silent m -> emits P m.
Proof. intros Hs h. rewrite Hs. constructor. Qed.

Lemma emits_bind P {A B} (m : M A) (f : A -> M B) :
  emits P m -> (forall a, emits P (f a)) -> emits P (bind m f).
Proof.
  intros Hm Hf h. unfold bind. pose proof (Hm h) as H1.
  destruct (m h) as [es1 [a|c|e]]; cbn in H1; cbn; try exact H1.
  pose proof (Hf a (h ++ es1)) as H2. destruct (f a (h ++ es1)) as [es2 r].
  cbn in *. apply Forall_app. auto.
Qed.

Lemma emits_emit (P : event -> Prop) e : P e -> emits P (emit e).
Proof. intros He h. cbn. constructor; [exact He|constructor]. Qed.

Lemma emits_exit P {A} c : emits P (@exit A c).
Proof. intros h. constructor. Qed.

Lemma emits_mylog (P : event -> Prop) d f q lvl msg :
  P (Logged lvl msg) -> P (Printed msg) -> emits P (mylog d f q lvl msg).
Proof.
  intros Hl Hp h. rewrite mylog_run. cbn [fst]. unfold mylog_events.
  constructor; [exact Hl|]. destruct (f && _); repeat constructor. exact Hp.
Qed.

Lemma emits_log (P : event -> Prop) o lvl msg :
  P (Logged lvl msg) -> P (Printed msg) -> emits P (log o lvl msg).
Proof. apply emits_mylog. Qed.

Lemma emits_run (P : event -> Prop) w argv : P (Ran argv) -> emits P (run w argv).
Proof. intros Hr h. cbn. constructor; [exact Hr|constructor]. Qed.

Lemma emits_time_sleep (P : event -> Prop) w v :
  (forall n, P (Slept n)) -> emits P (time_sleep w v).
Proof.
  intros Hs h. destruct (time_sleep_adds w v h) as [E|[n E]]; rewrite E;
    repeat constructor. apply Hs.
Qed.

(** Breaks a computation into its statements; what remains are the
    branches and loops that need an argument of their own. *)
Ltac emits_step :=
  first
    [ apply emits_bind; [|intros]
    | apply emits_log; reflexivity
    | apply emits_mylog; reflexivity
    | apply emits_run; reflexivity
    | apply emits_time_sleep; reflexivity
    | apply emits_emit; reflexivity
    | apply emits_exit
    | apply emits_silent;
      first [ apply silent_ret | apply silent_raise | apply silent_getitem
            | apply silent_contains | apply silent_items | apply silent_len
            | apply silent_split | apply silent_folder_defaults
            | apply silent_rsync_command | apply silent_service_command
            | apply silent_probe_command ] ].

Ltac emits_case :=
  match goal with
  | |- emits _ (if ?c then _ else _) => destruct c
  | |- emits _ (match ?x with _ => _ end) => destruct x
  end.

Ltac emits_auto := repeat first [ emits_step | emits_case ].

Section NeverLine187.

Variable w : World.
Variable o : flags.
Variable ssh rsync : string.

Lemma selector_branch_total selector : selector_branch selector <> WrongSelector.
Proof.
  unfold selector_branch.
  destruct (isinstance_list selector), (eq_str selector "all"); cbn; discriminate.
Qed.

Lemma folder_body_clean config node id_f folder :
  emits usual (folder_body w o rsync config node id_f folder).
Proof. unfold folder_body, continue. emits_auto. Qed.

Lemma folders_loop_clean config node fs :
  emits usual (folders_loop w o rsync config node fs).
Proof.
  induction fs as [|[id_f folder] rest IH]; cbn [folders_loop].
  - emits_auto.
  - apply emits_bind; [apply folder_body_clean|intros].
    apply emits_bind; [apply IH|intros]. emits_auto.
Qed.

Lemma service_body_clean config node id_n id_s service :
  emits usual (service_body w o ssh config node id_n id_s service).
Proof. unfold service_body, continue. emits_auto. Qed.

Lemma services_loop_clean config node id_n ss :
  emits usual (services_loop w o ssh config node id_n ss).
Proof.
  induction ss as [|[id_s service] rest IH]; cbn [services_loop].
  - emits_auto.
  - apply emits_bind; [apply service_body_clean|intros].
    apply emits_bind; [apply IH|intros]. emits_auto.
Qed.

Lemma resolve_folders_clean config node id_n :
  emits usual (resolve_folders o config node id_n).
Proof.
  unfold resolve_folders. apply emits_bind; [emits_auto|intros selector].
  pose proof (selector_branch_total selector) as Hb.
  destruct (selector_branch selector); [emits_auto|emits_auto|contradiction].
Qed.

Lemma services_stage_clean config node id_n :
  emits usual (services_stage w o ssh config node id_n).
Proof.
  unfold services_stage.
  apply emits_bind; [emits_auto|intros enabled].
  destruct (truthy enabled); [|emits_auto].
  apply emits_bind; [emits_auto|intros].
  apply emits_bind; [emits_auto|intros].
  apply emits_bind; [apply services_loop_clean|intros]. emits_auto.
Qed.

Lemma node_work_clean config node id_n :
  emits usual (node_work w o ssh rsync config node id_n).
Proof.
  unfold node_work.
  apply emits_bind; [emits_auto|intros].
  apply emits_bind; [emits_auto|intros].
  apply emits_bind; [apply folders_loop_clean|intros].
  apply services_stage_clean.
Qed.

Lemma node_body_clean config id_n node :
  emits usual (node_body w o ssh rsync config id_n node).
Proof.
  unfold node_body, continue. destruct node; try solve [emits_auto].
  do 6 (apply emits_bind; [emits_auto|intros]).
  destruct (returned_zero a4); [|emits_auto].
  apply emits_bind; [apply resolve_folders_clean|intros [nd'|]].
  - apply node_work_clean.
  - emits_auto.
Qed.

Lemma nodes_loop_clean nodes : forall config,
  emits usual (nodes_loop w o ssh rsync config nodes).
Proof.
  induction nodes as [|[id_n node] rest IH]; intros config; cbn [nodes_loop].
  - emits_auto.
  - apply emits_bind; [apply node_body_clean|intros]. apply IH.
Qed.

Lemma execution_clean config :
  emits usual (execution w o ssh rsync config).
Proof.
  unfold execution.
  apply emits_bind; [emits_auto|intros].
  apply emits_bind; [emits_auto|intros nodes].
  destruct (is_none nodes); [emits_auto|].
  do 6 (apply emits_bind; [emits_auto|intros]).
  apply emits_bind; [emits_auto|intros].
  apply emits_bind; [emits_auto|intros].
  apply emits_bind; [apply nodes_loop_clean|intros]. emits_auto.
Qed.

End NeverLine187.

Lemma find_binaries_clean w o : emits usual (find_binaries w o).
Proof. unfold find_binaries. emits_auto. Qed.

Lemma option_loop_early w opts : forall o, emits early (option_loop w opts o).
Proof.
  induction opts as [|[| | | |arg] rest IH]; intros o; cbn [option_loop];
    try apply IH.
  - emits_auto.
  - unfold print. emits_auto.
Qed.

Lemma load_settings_early w o : emits early (load_settings w o).
Proof. unfold load_settings, print. emits_auto. Qed.

Lemma option_loop_level w opts : forall o h es o',
  option_loop w opts o h = (es, Normal o') ->
  log_level o' =
  fold_left (fun lvl opt => match opt with Opt_d => DEBUG | Opt_q => ERROR | _ => lvl end)
    opts (log_level o).
Proof.
  induction opts as [|[| | | |arg] rest IH]; intros o h es o' H; cbn [option_loop] in H.
  - inversion H. reflexivity.
  - unfold bind, print, emit, exit in H. discriminate.
  - apply IH in H. exact H.
  - apply IH in H. exact H.
  - apply IH in H. exact H.
  - apply IH in H. exact H.
Qed.

(** ** The run as a whole *)

Lemma bind_assoc {A B C} (m : M A) (f : A -> M B) (g : B -> M C) h :
  bind (bind m f) g h = bind m (fun a => bind (f a) g) h.
Proof.
  unfold bind. destruct (m h) as [es1 [a|c|e]]; try reflexivity.
  destruct (f a (h ++ es1)) as [es2 [b|c|e]]; try reflexivity.
  rewrite <- app_assoc. destruct (g b (h ++ es1 ++ es2)) as [es3 r].
  rewrite app_assoc. reflexivity.
Qed.

Lemma emits_bind_assoc P {A B C} (m : M A) (f : A -> M B) (g : B -> M C) :
  emits P (bind m (fun a => bind (f a) g)) -> emits P (bind (bind m f) g).
Proof. intros H h. rewrite bind_assoc. apply H. Qed.

Lemma staged_bind_early t {A B} (m : M A) (f : A -> M B) h :
  emits early m ->
  (forall es a, m h = (es, Normal a) -> staged t (fst (f a (h ++ es)))) ->
  staged t (fst (bind m f h)).
Proof.
  intros Hm Hf. unfold bind. pose proof (Hm h) as H1.
  destruct (m h) as [es1 [a|c|e]] eqn:E; cbn [fst] in *;
    try (exists es1; split; [exact H1|left; reflexivity]).
  specialize (Hf es1 a eq_refl).
  destruct (f a (h ++ es1)) as [es2 r]. cbn [fst] in *.
  destruct Hf as (pre & Hpre & [->|(fn & post & -> & Hpost)]).
  - exists (es1 ++ pre). split; [apply Forall_app; auto|left; reflexivity].
  - exists (es1 ++ pre). split; [apply Forall_app; auto|right].
    exists fn, post. rewrite <- app_assoc. auto.
Qed.

Lemma staged_configured t fn {B} (k : M B) h :
  emits usual k -> staged t (fst (bind (emit (Configured fn t)) (fun _ => k) h)).
Proof.
  intros Hk. exists []. split; [constructor|right].
  exists fn. unfold bind, emit. pose proof (Hk (h ++ [Configured fn t])) as H.
  destruct (k (h ++ [Configured fn t])) as [post r]. cbn in *.
  exists post. auto.
Qed.

Lemma default_key_silent k dflt config : silent (default_key k dflt config).
Proof.
  intros h. unfold default_key. destruct config; try reflexivity.
  destruct (dict_get k kvs) as [v|]; [destruct (eq_str v "")|]; reflexivity.
Qed.

Lemma sync_nodes_staged w opts h :
  staged (threshold_of opts) (fst (sync_nodes w (Some opts) h)).
Proof.
  unfold sync_nodes.
  apply staged_bind_early; [apply option_loop_early|intros es1 o Hopt].
  apply option_loop_level in Hopt. cbn [log_level default_flags] in Hopt.
  fold (threshold_of opts) in Hopt.
  apply staged_bind_early; [apply load_settings_early|intros es2 config _].
  unfold startup. rewrite !bind_assoc.
  apply staged_bind_early;
    [apply emits_silent, default_key_silent|intros es3 config1 _].
  rewrite !bind_assoc.
  apply staged_bind_early; [apply emits_silent, silent_getitem|intros es4 log_file _].
  rewrite !bind_assoc. rewrite <- Hopt.
  apply staged_configured.
  repeat first
    [ apply execution_clean
    | apply emits_bind_assoc
    | apply emits_bind;
      [first [ apply find_binaries_clean | apply emits_silent, default_key_silent
             | emits_step ]|intros] ].
Qed.

Lemma early_no_records pre : Forall early pre -> log_file None pre = [] /\ records pre = [].
Proof.
  induction 1 as [|e pre He _ [IH1 IH2]]; [auto|].
  destruct e; cbn in He; try contradiction. cbn. auto.
Qed.

Lemma log_file_early_app pre t es :
  Forall early pre -> log_file t (pre ++ es) = log_file t es.
Proof.
  induction 1 as [|e pre He _ IH]; [reflexivity|].
  destruct e; cbn in He; try contradiction. cbn. exact IH.
Qed.

Lemma records_app es es' : records (es ++ es') = records es ++ records es'.
Proof.
  induction es as [|e es IH]; [reflexivity|].
  destruct e; cbn; rewrite IH; reflexivity.
Qed.

Lemma log_file_usual t post :
  Forall usual post ->
  log_file (Some t) post =
  filter (fun r => (levelno t <=? levelno (fst r))%Z) (records post).
Proof.
  induction 1 as [|e post He _ IH]; [reflexivity|].
  destruct e; cbn in He; try discriminate; cbn; try exact IH.
  destruct (levelno t <=? levelno lvl)%Z; rewrite IH; reflexivity.
Qed.

(** C3, as the code has it.  [mylog] hands every message to [logging]
    once, at its level, whatever the three flags are; the flags decide the
    echo only.  The persistent log of a run then holds exactly the
    records whose level is at least the threshold that the option loop has
    chosen: DEBUG after [-d], ERROR after [-q], the later of the two when
    both are given, INFO otherwise.  Error records are therefore always
    written. *)
Theorem persistent_log_holds_records_from_threshold :
  (forall (d f q : bool) (lvl : level) (msg : fstring) (h : list event),
      records (fst (mylog d f q lvl msg h)) = [(lvl, msg)])
  /\ (forall (w : World) (opts : list opt) (h : list event),
         let es := fst (sync_nodes w (Some opts) h) in
         log_file None es =
         filter (fun r => (levelno (threshold_of opts) <=? levelno (fst r))%Z)
           (records es))
  /\ (forall opts : list opt, (levelno (threshold_of opts) <=? levelno ERROR)%Z = true).
Proof.
  split; [|split].
  - intros d f q lvl msg h. rewrite mylog_run. cbn [fst]. unfold mylog_events.
    destruct (f && _); reflexivity.
  - intros w opts h es. unfold es.
    destruct (sync_nodes_staged w opts h) as (pre & Hpre & [->|(fn & post & -> & Hpost)]).
    + destruct (early_no_records pre Hpre) as [-> ->]. reflexivity.
    + rewrite (log_file_early_app pre None _ Hpre), records_app.
      destruct (early_no_records pre Hpre) as [_ ->]. cbn.
      apply log_file_usual, Hpost.
  - intros opts. destruct (threshold_of opts); reflexivity.
Qed.

(** C3 as stated fails: with no option given and a document whose
    [nodes] entry is null, five records are handed to [logging] and the
    two at debug level do not reach the persistent log. *)
Lemma debug_records_are_not_written :
  let es := fst (sync_nodes (Sample.world (VDict Sample.null_nodes) Sample.all_well)
                   (Some []) []) in
  records es =
    [ (INFO, [Lit "--------"]);
      (DEBUG, [Lit "Settings file loaded"]);
      (DEBUG, [Lit "Looking for binaries path"]);
      (INFO, [Lit "Start execution"]);
      (INFO, [Lit "Config file has not nodes. Exit"; Lit nl]) ]
  /\ log_file None es =
    [ (INFO, [Lit "--------"]);
      (INFO, [Lit "Start execution"]);
      (INFO, [Lit "Config file has not nodes. Exit"; Lit nl]) ].
Proof. vm_compute. split; reflexivity. Qed.

Lemma early_not_wrong e : early e -> wrong_folders e = false.
Proof. destruct e; cbn; intros H; try contradiction; exact H. Qed.

Lemma usual_not_wrong e : usual e -> wrong_folders e = false.
Proof.
  unfold usual. destruct e; cbn; intros H; try reflexivity;
    apply negb_true_iff in H; exact H.
Qed.

(** C9.  Whatever the folder selector is, lines 182-188 never take their
    third arm: a value that is not a list takes the first and a list the
    second.  So no run, in any world and with any options, history or
    document, logs or echoes the message of line 187. *)
Theorem wrong_folders_branch_unreachable :
  (forall selector : value, selector_branch selector <> WrongSelector)
  /\ (forall (w : World) (argv : option (list opt)) (h : list event),
         Forall (fun e => wrong_folders e = false) (fst (sync_nodes w argv h))).
Proof.
  split; [apply selector_branch_total|].
  intros w [opts|] h.
  - destruct (sync_nodes_staged w opts h) as (pre & Hpre & [->|(fn & post & -> & Hpost)]).
    + eapply Forall_impl; [apply early_not_wrong|exact Hpre].
    + apply Forall_app. split.
      * eapply Forall_impl; [apply early_not_wrong|exact Hpre].
      * constructor; [reflexivity|].
        eapply Forall_impl; [apply usual_not_wrong|exact Hpost].
  - cbn. repeat constructor.
Qed.

(** ** Start-up *)

Lemma default_key_run k dflt d h :
  default_key k dflt (VDict d) h = ([], Normal (with_default k dflt d)).
Proof.
  unfold default_key, with_default.
  destruct (dict_get k d) as [v|]; [destruct (eq_str v "")|]; reflexivity.
Qed.

Lemma with_default_other k k' dflt d :
  k' <> k -> dict_get k' (with_default k dflt d) = dict_get k' d.
Proof.
  intros Hk. unfold with_default.
  destruct (dict_get k d) as [v|]; [destruct (eq_str v "")|];
    try reflexivity; apply dict_get_set_other, Hk.
Qed.

Lemma top_defaults_other k d :
  k <> "log_file" -> k <> "sleep-time-folders" -> k <> "sleep-time-services" ->
  dict_get k (top_defaults d) = dict_get k d.
Proof.
  intros H1 H2 H3. unfold top_defaults.
  rewrite !with_default_other by assumption. reflexivity.
Qed.

Lemma with_default_log_name d :
  dict_get "log_file" (with_default "log_file" (VStr "sync_nodes.log") d)
  = Some (log_name d).
Proof.
  unfold with_default, log_name.
  destruct (dict_get "log_file" d) as [v|] eqn:E.
  - destruct (eq_str v ""); [apply dict_get_set_same|exact E].
  - apply dict_get_set_same.
Qed.

Lemma startup_run w o d h :
  startup w o (VDict d) h = (startup_events w o d, Normal (top_defaults d)).
Proof.
  unfold startup.
  rewrite (bind_pure _ _ _ _ (default_key_run _ _ _ _)).
  rewrite (bind_getitem _ _ _ _ _ (with_default_log_name d)).
  rewrite (bind_normal _ _ _ _ _ (eq_refl : emit _ h = ([_], Normal tt))).
  rewrite !bind_mylog_run.
  rewrite (bind_pure _ _ _ _ (default_key_run _ _ _ _)).
  rewrite (bind_pure _ _ _ _ (default_key_run _ _ _ _)).
  rewrite !bind_mylog_run.
  unfold after, ret, startup_events, top_defaults, said. cbn [fst snd].
  rewrite app_nil_r. reflexivity.
Qed.

Lemma find_binaries_run w o ssh rsync h :
  which w "ssh" = Some ssh -> which w "rsync" = Some rsync ->
  find_binaries w o h = ([], Normal (ssh, rsync)).
Proof. intros Hs Hr. unfold find_binaries. rewrite Hs, Hr. reflexivity. Qed.

(** A run whose start-up succeeds: the options hold no [-h], the settings
    file holds a mapping and both programs are found. *)
Lemma sync_nodes_started w opts o d ssh rsync h :
  option_loop w opts default_flags h = ([], Normal o) ->
  settings w (setting_file o) = Some (VDict d) ->
  which w "ssh" = Some ssh ->
  which w "rsync" = Some rsync ->
  sync_nodes w (Some opts) h =
  after (startup_events w o d)
    (execution w o ssh rsync (top_defaults d) (h ++ startup_events w o d)).
Proof.
  intros Hopt Hset Hs Hr. unfold sync_nodes.
  rewrite (bind_pure _ _ _ _ Hopt).
  rewrite bind_pure with (a := VDict d)
    by (unfold load_settings; rewrite Hset; reflexivity).
  rewrite (bind_normal _ _ _ _ _ (startup_run w o d h)).
  rewrite (bind_pure _ _ _ _ (find_binaries_run w o ssh rsync _ Hs Hr)).
  reflexivity.
Qed.

Lemma commands_startup w o d : commands (startup_events w o d) = [].
Proof.
  unfold startup_events. cbn [commands].
  rewrite !commands_app, !commands_said. reflexivity.
Qed.

Lemma sleeps_startup w o d : sleeps (startup_events w o d) = [].
Proof.
  unfold startup_events. cbn [sleeps].
  rewrite !sleeps_app, !sleeps_said. reflexivity.
Qed.

(** C4, as the code has it.  Once start-up has succeeded, a document
    whose [nodes] entry is present and null makes the run log the no-nodes
    message at info level and exit with status 0, having run no command and
    taken no pause.  A settings file that is missing, or that holds an
    empty document, ends the run with status 1 after a single echo, before
    the log file is set up.  (A document with no [nodes] entry at all is
    the matter of C10.) *)
Theorem null_nodes_is_a_clean_no_op :
  forall (w : World) (opts : list opt) (o : flags) (h : list event),
    option_loop w opts default_flags h = ([], Normal o) ->
    (forall (d : dict) (ssh rsync : string),
        settings w (setting_file o) = Some (VDict d) ->
        which w "ssh" = Some ssh ->
        which w "rsync" = Some rsync ->
        dict_get "nodes" d = Some VNone ->
        let es :=
          startup_events w o d
          ++ said o INFO [Lit "Start execution"]
          ++ said o INFO [Lit "Config file has not nodes. Exit"; Lit nl] in
        sync_nodes w (Some opts) h = (es, SysExit 0)
        /\ commands es = []
        /\ sleeps es = [])
    /\ (settings w (setting_file o) = Some VNone ->
        sync_nodes w (Some opts) h =
        ([Printed [Lit "Settings file wrongly formatted. Abort execution"]], SysExit 1))
    /\ (settings w (setting_file o) = None ->
        sync_nodes w (Some opts) h =
        ([Printed [Lit "Settings file not present. Abort execution"]], SysExit 1)).
Proof.
  intros w opts o h Hopt. split; [|split].
  - intros d ssh rsync Hset Hs Hr Hnodes es. split; [|split].
    + rewrite (sync_nodes_started w opts o d ssh rsync h Hopt Hset Hs Hr).
      unfold execution. rewrite bind_log.
      rewrite (bind_getitem _ _ VNone)
        by (rewrite top_defaults_other by discriminate; exact Hnodes).
      cbn [is_none]. rewrite bind_log.
      unfold after, exit, es. cbn [fst snd]. rewrite app_nil_r. reflexivity.
    + unfold es. rewrite !commands_app, commands_startup, !commands_said. reflexivity.
    + unfold es. rewrite !sleeps_app, sleeps_startup, !sleeps_said. reflexivity.
  - intros Hset. unfold sync_nodes. rewrite (bind_pure _ _ _ _ Hopt).
    unfold load_settings. rewrite Hset. reflexivity.
  - intros Hset. unfold sync_nodes. rewrite (bind_pure _ _ _ _ Hopt).
    unfold load_settings. rewrite Hset. reflexivity.
Qed.

(** C4 as stated fails: a document with no [nodes] entry does not end
    the run cleanly; the lookup of line 156 raises KeyError. *)
Lemma absent_nodes_is_a_key_error :
  dict_get "nodes" Sample.without_nodes = None
  /\ sync_nodes (Sample.world (VDict Sample.without_nodes) Sample.all_well) (Some []) [] =
     ([ Configured [ Val (VStr "/opt/sync_nodes/bin"); Lit "/../log/"; Val (VStr "202211");
                     Lit "-"; Val (VStr "sync_nodes.log") ] INFO;
        Logged INFO [Lit "--------"];
        Logged DEBUG [Lit "Settings file loaded"];
        Logged DEBUG [Lit "Looking for binaries path"];
        Logged INFO [Lit "Start execution"] ],
      Uncaught (KeyError "nodes")).
Proof. split; reflexivity. Qed.

(** C4 on the sample document whose [nodes] entry is null. *)
Lemma null_nodes_is_a_clean_no_op_witness :
  sync_nodes (Sample.world (VDict Sample.null_nodes) Sample.all_well) (Some []) [] =
  ([ Configured [ Val (VStr "/opt/sync_nodes/bin"); Lit "/../log/"; Val (VStr "202211");
                  Lit "-"; Val (VStr "sync_nodes.log") ] INFO;
     Logged INFO [Lit "--------"];
     Logged DEBUG [Lit "Settings file loaded"];
     Logged DEBUG [Lit "Looking for binaries path"];
     Logged INFO [Lit "Start execution"];
     Logged INFO [Lit "Config file has not nodes. Exit"; Lit nl] ],
   SysExit 0).
Proof.
  exact (proj1 (proj1 (null_nodes_is_a_clean_no_op
                         (Sample.world (VDict Sample.null_nodes) Sample.all_well)
                         [] default_flags [] eq_refl)
                  Sample.null_nodes "/usr/bin/ssh" "/usr/bin/rsync"
                  eq_refl eq_refl eq_refl eq_refl)).
Defined.

(** ** Defaults in the commands *)

(** C8.  The commands a node's turn runs carry the defaults.  The probe
    is run on the text of line 175 with the node's port, or 22 when it has
    none, and its user, or the invoking user when it has none; a
    successful probe hands the loops a node that differs from the
    defaulted one in its folder selector at most; on such a node the
    transfer of a selected folder is run on the text of line 201 with the
    same user and port and with the folder's [dest], or its [path] when it
    has none, as target, and the command of a service is run on the text
    of line 226 with the same port and user. *)
Theorem defaults_reach_the_commands :
  forall (w : World) (o : flags) (ssh rsync : string) (config nd : dict)
         (address port user : value),
    dict_get "address" nd = Some address ->
    dict_get "ssh-port" nd = Some port
    \/ (dict_get "ssh-port" nd = None /\ port = VInt 22) ->
    dict_get "user" nd = Some user
    \/ (dict_get "user" nd = None /\ user = VStr (getuser w)) ->
    (forall id_n argv h,
        shlex_split w
          [ Val (VStr ssh); Lit " -o BatchMode=yes -p "; Val port; Lit " "; Val user;
            Lit "@"; Val address; Lit " "; Lit dq; Lit "ls /dev/null > /dev/null";
            Lit dq ] = Some argv ->
        let hello := said o INFO [Lit "Connecting to "; Val address; Lit ":"; Val port;
                                  Lit " ..."] in
        (exists es r,
            node_body w o ssh rsync config id_n (VDict nd) h =
            (hello ++ Ran argv :: es, r))
        /\ (forall selector fs,
               dict_get "folders" nd = Some selector ->
               dict_get "folders" config = Some (VDict fs) ->
               returned_zero (subprocess_run w (h ++ hello) argv) = true ->
               exists node ids,
                 (forall k, k <> "folders" ->
                            dict_get k node = dict_get k (node_defaults w nd))
                 /\ dict_get "folders" node = Some (VList ids)
                 /\ node_body w o ssh rsync config id_n (VDict nd) h =
                    after (hello ++ [Ran argv])
                      (node_work w o ssh rsync config node id_n
                         (h ++ hello ++ [Ran argv]))))
    /\ (forall node ids id_f fd path dest argv h,
           (forall k, k <> "folders" ->
                      dict_get k node = dict_get k (node_defaults w nd)) ->
           dict_get "folders" node = Some (VList ids) ->
           existsb (fun x => eq_str x id_f) ids = true ->
           dict_get "path" fd = Some path ->
           dict_get "dest" fd = Some dest
           \/ (dict_get "dest" fd = None /\ dest = path) ->
           shlex_split w
             [ Val (VStr rsync); Lit " -a -v -e "; Lit dq;
               Lit "ssh -o BatchMode=yes -l "; Val user; Lit " -p "; Val port; Lit dq;
               Lit " "; Val (options_of fd); Lit " "; Val path; Lit " "; Val address;
               Lit ":"; Val dest ] = Some argv ->
           exists es r,
             folder_body w o rsync config node id_f (VDict fd) h =
             (said o INFO [Lit "Syncing "; Val (VStr id_f); Lit " folder ..."]
              ++ Ran argv :: es, r))
    /\ (forall node id_n id_s sd method name argv h,
           (forall k, k <> "folders" ->
                      dict_get k node = dict_get k (node_defaults w nd)) ->
           dict_get "method" sd = Some method ->
           dict_get "name" sd = Some name ->
           shlex_split w
             [ Val (VStr ssh); Lit " -q -t -o BatchMode=yes -p "; Val port; Lit " ";
               Val user; Lit "@"; Val address; Lit " "; Lit dq;
               Val (VStr (if truthy (sudo_of sd) then "sudo" else ""));
               Lit " systemctl "; Val method; Lit " "; Val name; Lit "; sleep 2; ";
               Val (VStr (if truthy (sudo_of sd) then "sudo" else ""));
               Lit " systemctl is-active "; Val name; Lit dq ] = Some argv ->
           exists es r,
             service_body w o ssh config node id_n id_s (VDict sd) h =
             (said o INFO [Lit "Trying service "; Val (VStr id_s); Lit " "; Val method;
                           Lit " ..."]
              ++ Ran argv :: es, r)).
Proof.
  intros w o ssh rsync config nd address port user Ha Hport Huser.
  assert (Ep : port = port_of nd)
    by (unfold port_of; destruct Hport as [H|[H ->]]; rewrite H; reflexivity).
  assert (Eu : user = user_of w nd)
    by (unfold user_of; destruct Huser as [H|[H ->]]; rewrite H; reflexivity).
  subst port user. clear Hport Huser.
  assert (Hnode : forall node,
             (forall k, k <> "folders" ->
                        dict_get k node = dict_get k (node_defaults w nd)) ->
             dict_get "user" node = Some (user_of w nd)
             /\ dict_get "ssh-port" node = Some (port_of nd)
             /\ dict_get "address" node = Some address).
  { intros node H. rewrite !H by discriminate.
    rewrite node_defaults_user, node_defaults_port.
    rewrite node_defaults_other by discriminate. auto. }
  split; [|split].
  - intros id_n argv h Hs hello.
    pose proof (node_body_probe w o ssh rsync config id_n nd address argv h Ha Hs)
      as Hturn.
    cbv zeta in Hturn. fold hello in Hturn. split.
    + rewrite Hturn. unfold after. cbn [fst snd]. rewrite <- app_assoc.
      eexists. eexists. reflexivity.
    + intros selector fs Hsel Hfs Hok. rewrite Hturn, Hok.
      assert (Hsel' : dict_get "folders" (node_defaults w nd) = Some selector)
        by (rewrite node_defaults_other by discriminate; exact Hsel).
      rewrite (bind_pure _ _ _ _
                 (resolve_folders_run o config (node_defaults w nd) id_n selector fs _
                    Hsel' Hfs)).
      destruct (isinstance_list selector) eqn:Hl.
      * destruct selector as [| | | |ids|]; try discriminate.
        exists (node_defaults w nd), ids. auto.
      * exists (dict_set "folders" (VList (map VStr (keys fs))) (node_defaults w nd)),
          (map VStr (keys fs)).
        split; [intros k Hk; apply dict_get_set_other; exact Hk|].
        split; [apply dict_get_set_same|reflexivity].
  - intros node ids id_f fd path dest argv h Hsame Hsel Hin Hp Hdest Hs.
    assert (Ed : dest = dest_of fd path)
      by (unfold dest_of; destruct Hdest as [H|[H ->]]; rewrite H; reflexivity).
    subst dest. destruct (Hnode node Hsame) as (Hu & Hpo & Ha').
    rewrite (folder_body_attempt w o rsync config node id_f fd ids _ _ _ path argv h
               Hsel Hin Hu Hpo Ha' Hp Hs).
    cbv zeta. unfold after. cbn [fst snd]. rewrite <- app_assoc.
    eexists. eexists. reflexivity.
  - intros node id_n id_s sd method name argv h Hsame Hm Hn Hs.
    destruct (Hnode node Hsame) as (Hu & Hpo & Ha').
    rewrite (service_body_attempt w o ssh config node id_n id_s sd _ _ _ method name
               argv h Hu Hpo Ha' Hm Hn Hs).
    cbv zeta. unfold after. cbn [fst snd]. rewrite <- app_assoc.
    eexists. eexists. reflexivity.
Qed.

(** C8 on the sample node [web1], which names neither port nor user, and
    the sample folder [site], which names no [dest]: the transfer that is
    run uses port 22, the invoking user and the folder's own path as
    target. *)
Lemma defaults_reach_the_commands_witness :
  exists es r,
    folder_body (Sample.world (VDict Sample.one_node) Sample.all_well) default_flags
      "/usr/bin/rsync" Sample.one_node_defaulted Sample.web1_resolved "site"
      (VDict Sample.site) [] =
    ([ Logged INFO [Lit "Syncing "; Val (VStr "site"); Lit " folder ..."] ]
     ++ Ran [ "/usr/bin/rsync"; "-a"; "-v"; "-e"; "ssh -o BatchMode=yes -l root -p 22";
              "/srv/site"; "10.0.0.1:/srv/site" ] :: es, r).
Proof.
  refine (proj1 (proj2 (defaults_reach_the_commands
                          (Sample.world (VDict Sample.one_node) Sample.all_well)
                          default_flags "/usr/bin/ssh" "/usr/bin/rsync"
                          Sample.one_node_defaulted Sample.web1
                          (VStr "10.0.0.1") (VInt 22) (VStr "root")
                          eq_refl (or_intror (conj eq_refl eq_refl))
                          (or_intror (conj eq_refl eq_refl))))
            Sample.web1_resolved [VStr "site"; VStr "etc"] "site" Sample.site
            (VStr "/srv/site") (VStr "/srv/site") _ [] _ eq_refl eq_refl eq_refl
            (or_intror (conj eq_refl eq_refl)) eq_refl).
  intros k Hk.
  exact (dict_get_set_other "folders" k (VList [VStr "site"; VStr "etc"])
           (node_defaults (Sample.world (VDict Sample.one_node) Sample.all_well)
              Sample.web1) Hk).
Defined.

(** ** Uncaught exceptions *)

Lemma no_exit_bind {A B} (m : M A) (f : A -> M B) :
  no_exit m -> (forall a, no_exit (f a)) -> no_exit (bind m f).
Proof.
  intros Hm Hf h c. unfold bind. pose proof (Hm h) as H1.
  destruct (m h) as [es1 [a|c'|e]]; cbn in *.
  - pose proof (Hf a (h ++ es1) c) as H2. destruct (f a (h ++ es1)). exact H2.
  - exfalso. apply (H1 c'). reflexivity.
  - discriminate.
Qed.

Lemma no_exit_ret {A} (a : A) : no_exit (ret a).
Proof. intros h c. discriminate. Qed.

Lemma no_exit_raise {A} e : no_exit (@raise A e).
Proof. intros h c. discriminate. Qed.

Lemma no_exit_emit e : no_exit (emit e).
Proof. intros h c. discriminate. Qed.

Lemma no_exit_log o lvl msg : no_exit (log o lvl msg).
Proof. intros h c. rewrite log_run. discriminate. Qed.

Lemma no_exit_getitem k d : no_exit (getitem k d).
Proof. intros h c. unfold getitem. destruct (dict_get k d); discriminate. Qed.

Lemma no_exit_len v : no_exit (len v).
Proof. intros h c. destruct v; discriminate. Qed.

Lemma no_exit_items v : no_exit (items v).
Proof. intros h c. destruct v; discriminate. Qed.

Lemma no_exit_contains s v : no_exit (contains s v).
Proof. intros h c. destruct v; discriminate. Qed.

Lemma no_exit_split w cmd : no_exit (split w cmd).
Proof. intros h c. unfold split. destruct (shlex_split w cmd); discriminate. Qed.

Lemma no_exit_run w argv : no_exit (run w argv).
Proof. intros h c. discriminate. Qed.

Lemma no_exit_time_sleep w v : no_exit (time_sleep w v).
Proof.
  assert (Hs : forall n, no_exit (sleep_seconds w n)).
  { intros n h c. unfold sleep_seconds.
    destruct (sleep_cap <? Z.abs n)%Z, (n <? 0)%Z, (os_sleep w n); discriminate. }
  intros h c. destruct v; try discriminate; apply Hs.
Qed.

Ltac no_exit_step :=
  first
    [ apply no_exit_bind; [|intros]
    | apply no_exit_ret | apply no_exit_raise | apply no_exit_emit
    | apply no_exit_log | apply no_exit_getitem | apply no_exit_len
    | apply no_exit_items | apply no_exit_contains | apply no_exit_split
    | apply no_exit_run | apply no_exit_time_sleep ].

Ltac no_exit_case :=
  match goal with
  | |- no_exit (if ?c then _ else _) => destruct c
  | |- no_exit (match ?x with _ => _ end) => destruct x
  end.

Ltac no_exit_auto := repeat first [ no_exit_step | no_exit_case ].

Section Crashes.

Variable w : World.
Variable o : flags.
Variable ssh rsync : string.

Lemma no_exit_folder_body config node id_f folder :
  no_exit (folder_body w o rsync config node id_f folder).
Proof.
  unfold folder_body, folder_defaults, rsync_command, continue. no_exit_auto.
Qed.

Lemma no_exit_folders_loop config node fs :
  no_exit (folders_loop w o rsync config node fs).
Proof.
  induction fs as [|[id_f folder] rest IH]; cbn [folders_loop].
  - no_exit_auto.
  - apply no_exit_bind; [apply no_exit_folder_body|intros].
    apply no_exit_bind; [apply IH|intros]. no_exit_auto.
Qed.

Lemma no_exit_service_body config node id_n id_s service :
  no_exit (service_body w o ssh config node id_n id_s service).
Proof. unfold service_body, service_command, continue. no_exit_auto. Qed.

Lemma no_exit_services_loop config node id_n ss :
  no_exit (services_loop w o ssh config node id_n ss).
Proof.
  induction ss as [|[id_s service] rest IH]; cbn [services_loop].
  - no_exit_auto.
  - apply no_exit_bind; [apply no_exit_service_body|intros].
    apply no_exit_bind; [apply IH|intros]. no_exit_auto.
Qed.

Lemma no_exit_node_work config node id_n :
  no_exit (node_work w o ssh rsync config node id_n).
Proof.
  unfold node_work, services_stage.
  apply no_exit_bind; [no_exit_auto|intros].
  apply no_exit_bind; [no_exit_auto|intros].
  apply no_exit_bind; [apply no_exit_folders_loop|intros].
  apply no_exit_bind; [no_exit_auto|intros enabled].
  destruct (truthy enabled); [|no_exit_auto].
  apply no_exit_bind; [no_exit_auto|intros].
  apply no_exit_bind; [no_exit_auto|intros].
  apply no_exit_bind; [apply no_exit_services_loop|intros]. no_exit_auto.
Qed.

Lemma no_exit_node_body config id_n node :
  no_exit (node_body w o ssh rsync config id_n node).
Proof.
  unfold node_body, probe_command, continue. destruct node; try solve [no_exit_auto].
  do 6 (apply no_exit_bind; [no_exit_auto|intros]).
  destruct (returned_zero a4); [|no_exit_auto].
  apply no_exit_bind; [unfold resolve_folders; no_exit_auto|intros [nd'|]].
  - apply no_exit_node_work.
  - no_exit_auto.
Qed.

Lemma crashes_bind {A B} (m : M A) (f : A -> M B) h :
  no_exit m -> (forall a h', crashes (f a h')) -> crashes (bind m f h).
Proof.
  intros Hm Hf. unfold bind, crashes. pose proof (Hm h) as H1.
  destruct (m h) as [es1 [a|c|e]]; cbn in *.
  - destruct (Hf a (h ++ es1)) as [e He]. destruct (f a (h ++ es1)). cbn in *. eauto.
  - exfalso. apply (H1 c). reflexivity.
  - eauto.
Qed.

Lemma crashes_getitem {B} k d (f : value -> M B) h :
  dict_get k d = None -> crashes (bind (getitem k d) f h).
Proof.
  intros H. rewrite (bind_uncaught _ _ _ _ _ (getitem_none k d h H)).
  exists (KeyError k). reflexivity.
Qed.

Lemma crashes_first {A B} (m : M A) (f : A -> M B) h :
  crashes (m h) -> crashes (bind m f h).
Proof.
  intros [e He]. unfold bind, crashes. destruct (m h) as [es [a|c|e']]; cbn in *;
    try discriminate. eauto.
Qed.

Lemma crashes_after {A} es (p : list event * result A) : crashes p -> crashes (after es p).
Proof. intros [e He]. exists e. exact He. Qed.

(** A node entry with no address stops the node loop with an exception,
    at that node or before. *)
Lemma nodes_loop_crashes id_n nd nodes :
  In (id_n, VDict nd) nodes -> dict_get "address" nd = None ->
  forall config h, crashes (nodes_loop w o ssh rsync config nodes h).
Proof.
  intros Hin Ha. induction nodes as [|[id' node'] rest IH]; [contradiction|].
  intros config h. cbn [nodes_loop]. destruct Hin as [Heq|Hin].
  - inversion Heq. subst. unfold node_body.
    rewrite bind_assoc. apply crashes_getitem.
    rewrite node_defaults_other by discriminate. exact Ha.
  - apply crashes_bind; [apply no_exit_node_body|intros]. apply IH, Hin.
Qed.

(** Lines 160-166 and the node loop, for a [nodes] entry that is not null. *)
Lemma execution_crashes config nodes h :
  dict_get "nodes" config = Some nodes ->
  is_none nodes = false ->
  dict_get "folders" config = None
  \/ dict_get "enable-services" config = None
  \/ (exists ns id_n nd,
        nodes = VDict ns /\ In (id_n, VDict nd) ns /\ dict_get "address" nd = None) ->
  crashes (execution w o ssh rsync config h).
Proof.
  intros Hnodes Hnn Hcase. unfold execution.
  rewrite bind_log. apply crashes_after.
  rewrite (bind_getitem _ _ _ _ _ Hnodes), Hnn.
  apply crashes_bind; [no_exit_auto|intros].
  apply crashes_bind; [no_exit_auto|intros].
  destruct (dict_get "folders" config) as [folders|] eqn:Hf;
    [|apply crashes_getitem, Hf].
  rewrite (bind_getitem _ _ _ _ _ Hf).
  apply crashes_bind; [no_exit_auto|intros].
  apply crashes_bind; [no_exit_auto|intros].
  destruct (dict_get "enable-services" config) as [enabled|] eqn:He;
    [|apply crashes_getitem, He].
  rewrite (bind_getitem _ _ _ _ _ He).
  destruct Hcase as [Hc|[Hc|(ns & id_n & nd & -> & Hin & Ha)]]; try discriminate.
  apply crashes_bind; [no_exit_auto|intros].
  cbn [items]. rewrite bind_ret.
  apply crashes_first, nodes_loop_crashes with (id_n := id_n) (nd := nd); assumption.
Qed.

End Crashes.

(** C10, as the code has it.  Once start-up has succeeded:
    - a document with no [nodes] entry ends the run with an uncaught
      KeyError at line 156, after the start record;
    - a document whose [nodes] entry is not null and which has no
      [folders] entry, or no [enable-services] entry, or a node that is a
      mapping without [address], ends the run with an uncaught exception;
    - the top-level defaults touch [log_file] and the two sleep times and
      no other key, and the node defaults touch no key but [ssh-port] and
      [user], so none of the entries above is ever supplied.
    When the [nodes] entry is null the run exits with status 0 before any
    of the other entries is read. *)
Theorem missing_entries_raise :
  forall (w : World) (opts : list opt) (o : flags) (d : dict) (ssh rsync : string)
         (h : list event),
    option_loop w opts default_flags h = ([], Normal o) ->
    settings w (setting_file o) = Some (VDict d) ->
    which w "ssh" = Some ssh ->
    which w "rsync" = Some rsync ->
    (dict_get "nodes" d = None ->
     sync_nodes w (Some opts) h =
     (startup_events w o d ++ said o INFO [Lit "Start execution"],
      Uncaught (KeyError "nodes")))
    /\ (forall nodes,
           dict_get "nodes" d = Some nodes ->
           is_none nodes = false ->
           dict_get "folders" d = None
           \/ dict_get "enable-services" d = None
           \/ (exists ns id_n nd,
                  nodes = VDict ns /\ In (id_n, VDict nd) ns
                  /\ dict_get "address" nd = None) ->
           exists e, snd (sync_nodes w (Some opts) h) = Uncaught e)
    /\ (forall k,
           k <> "log_file" -> k <> "sleep-time-folders" -> k <> "sleep-time-services" ->
           dict_get k (top_defaults d) = dict_get k d)
    /\ (forall nd k,
           k <> "ssh-port" -> k <> "user" ->
           dict_get k (node_defaults w nd) = dict_get k nd).
Proof.
  intros w opts o d ssh rsync h Hopt Hset Hs Hr.
  rewrite (sync_nodes_started w opts o d ssh rsync h Hopt Hset Hs Hr).
  split; [|split; [|split]].
  - intros Hn. unfold execution. rewrite bind_log.
    rewrite (bind_uncaught _ _ _ []  (KeyError "nodes"))
      by (apply getitem_none; rewrite top_defaults_other by discriminate; exact Hn).
    unfold after. cbn [fst snd]. rewrite app_nil_r. reflexivity.
  - intros nodes Hn Hnn Hcase.
    apply (crashes_after (startup_events w o d)).
    apply execution_crashes with (nodes := nodes).
    + rewrite top_defaults_other by discriminate. exact Hn.
    + exact Hnn.
    + rewrite !top_defaults_other by discriminate. exact Hcase.
  - intros k H1 H2 H3. apply top_defaults_other; assumption.
  - intros nd k H1 H2. apply node_defaults_other; assumption.
Qed.

(** C10 as stated fails: the sample document whose [nodes] entry is
    null has neither a [folders] nor an [enable-services] entry, and the
    run exits with status 0. *)
Lemma null_nodes_hides_missing_entries :
  dict_get "folders" Sample.null_nodes = None
  /\ dict_get "enable-services" Sample.null_nodes = None
  /\ snd (sync_nodes (Sample.world (VDict Sample.null_nodes) Sample.all_well)
            (Some []) []) = SysExit 0.
Proof. repeat split. Qed.

(** C10 on the sample document with a node and no [folders] entry. *)
Lemma missing_entries_raise_witness :
  exists e,
    snd (sync_nodes (Sample.world (VDict Sample.without_folders) Sample.all_well)
           (Some []) []) = Uncaught e.
Proof.
  refine (proj1 (proj2 (missing_entries_raise
                          (Sample.world (VDict Sample.without_folders) Sample.all_well)
                          [] default_flags Sample.without_folders
                          "/usr/bin/ssh" "/usr/bin/rsync" []
                          eq_refl eq_refl eq_refl eq_refl))
            (VDict [ ("web1", VDict Sample.web1) ]) eq_refl eq_refl _).
  left. reflexivity.
Defined.

(** ** The option loop *)

Lemma option_loop_help w opts :
  flag_given Opt_h opts = true ->
  forall o h, option_loop w opts o h = ([Printed (usage w)], SysExit 0).
Proof.
  induction opts as [|[| | | |arg] rest IH]; cbn; intros H o h;
    try discriminate; try (apply IH; exact H).
  reflexivity.
Qed.

Lemma option_loop_flags w opts :
  flag_given Opt_h opts = false ->
  forall o h,
  exists o',
    option_loop w opts o h = ([], Normal o')
    /\ debug o' = debug o || flag_given Opt_d opts
    /\ foreground o' = foreground o || flag_given Opt_f opts
    /\ quiet o' = quiet o || flag_given Opt_q opts
    /\ setting_file o' = config_given opts (setting_file o)
    /\ log_level o' =
       fold_left
         (fun lvl opt => match opt with Opt_d => DEBUG | Opt_q => ERROR | _ => lvl end)
         opts (log_level o).
Proof.
  induction opts as [|[| | | |arg] rest IH]; cbn; intros H o h; try discriminate.
  - exists o. rewrite !orb_false_r. repeat split.
  - destruct (IH H {| log_level := DEBUG; debug := true; foreground := foreground o;
                      quiet := quiet o; setting_file := setting_file o |} h)
      as (o' & Hrun & Hd & Hf & Hq & Hc & Hl).
    exists o'. cbn in *. rewrite orb_true_r. repeat split; assumption.
  - destruct (IH H {| log_level := log_level o; debug := debug o; foreground := true;
                      quiet := quiet o; setting_file := setting_file o |} h)
      as (o' & Hrun & Hd & Hf & Hq & Hc & Hl).
    exists o'. cbn in *. rewrite orb_true_r. repeat split; assumption.
  - destruct (IH H {| log_level := ERROR; debug := debug o; foreground := foreground o;
                      quiet := true; setting_file := setting_file o |} h)
      as (o' & Hrun & Hd & Hf & Hq & Hc & Hl).
    exists o'. cbn in *. rewrite orb_true_r. repeat split; assumption.
  - destruct (IH H {| log_level := log_level o; debug := debug o;
                      foreground := foreground o; quiet := quiet o;
                      setting_file := Some arg |} h)
      as (o' & Hrun & Hd & Hf & Hq & Hc & Hl).
    exists o'. cbn in *. repeat split; assumption.
Qed.

(** X1.  As soon as [-h] is among the options the run prints the usage
    text and exits with status 0: whatever the other options are and
    wherever [-h] stands, no settings file is read, no log file is set up
    and no command is run. *)
Theorem help_ends_the_run :
  forall (w : World) (opts : list opt) (h : list event),
    flag_given Opt_h opts = true ->
    sync_nodes w (Some opts) h = ([Printed (usage w)], SysExit 0).
Proof.
  intros w opts h H. unfold sync_nodes.
  apply bind_exit_first, option_loop_help, H.
Qed.

(** X1 on the command line [-d -h -c missing.yaml]. *)
Lemma help_ends_the_run_witness :
  sync_nodes (Sample.world (VDict Sample.one_node) Sample.all_well)
    (Some [Opt_d; Opt_h; Opt_c "missing.yaml"]) [] =
  ([Printed (usage (Sample.world (VDict Sample.one_node) Sample.all_well))], SysExit 0).
Proof.
  exact (help_ends_the_run (Sample.world (VDict Sample.one_node) Sample.all_well)
           [Opt_d; Opt_h; Opt_c "missing.yaml"] [] eq_refl).
Defined.

(** X2.  Without [-h] the option loop adds no event and ends with the
    flags the options ask for: [debug], [foreground] and [quiet] are set
    when [-d], [-f] and [-q] occur, in any order and any number of times;
    the settings path is the argument of the last [-c], the default when
    there is none; the threshold of the log file is decided by the later
    of [-d] and [-q].  So [-d -q] leaves both [debug] and [quiet] set with
    the threshold ERROR. *)
Theorem option_loop_collects_flags :
  forall (w : World) (opts : list opt) (h : list event),
    flag_given Opt_h opts = false ->
    exists o,
      option_loop w opts default_flags h = ([], Normal o)
      /\ debug o = flag_given Opt_d opts
      /\ foreground o = flag_given Opt_f opts
      /\ quiet o = flag_given Opt_q opts
      /\ setting_file o = config_given opts None
      /\ log_level o = threshold_of opts.
Proof.
  intros w opts h H.
  destruct (option_loop_flags w opts H default_flags h)
    as (o & Hrun & Hd & Hf & Hq & Hc & Hl).
  exists o. cbn in *. repeat split; assumption.
Qed.

(** X2 on the command line [-d -c a.yaml -q -c b.yaml]. *)
Lemma option_loop_collects_flags_witness :
  exists o,
    option_loop (Sample.world (VDict Sample.one_node) Sample.all_well)
      [Opt_d; Opt_c "a.yaml"; Opt_q; Opt_c "b.yaml"] default_flags [] = ([], Normal o)
    /\ debug o = true
    /\ foreground o = false
    /\ quiet o = true
    /\ setting_file o = Some "b.yaml"
    /\ log_level o = ERROR.
Proof.
  exact (option_loop_collects_flags
           (Sample.world (VDict Sample.one_node) Sample.all_well)
           [Opt_d; Opt_c "a.yaml"; Opt_q; Opt_c "b.yaml"] [] eq_refl).
Defined.

(** ** Fatal endings of start-up *)

Lemma missing_program_run w opts o d h :
  option_loop w opts default_flags h = ([], Normal o) ->
  settings w (setting_file o) = Some (VDict d) ->
  which w "ssh" = None \/ which w "rsync" = None ->
  sync_nodes w (Some opts) h =
  (startup_events w o d
   ++ said o ERROR [Val (VStr match which w "ssh" with None => "ssh" | Some _ => "rsync" end);
                    Lit " binary not found. Abort execution"; Lit nl],
   SysExit 1).
Proof.
  intros Hopt Hset Hwhich.
  unfold sync_nodes. rewrite (bind_pure _ _ _ _ Hopt).
  rewrite bind_pure with (a := VDict d)
    by (unfold load_settings; rewrite Hset; reflexivity).
  rewrite (bind_normal _ _ _ _ _ (startup_run w o d h)).
  unfold find_binaries.
  destruct (which w "ssh") as [ssh|].
  - destruct Hwhich as [Hw|Hw]; [discriminate|]. rewrite Hw.
    rewrite bind_assoc, bind_mylog_run.
    unfold after, bind, exit, said. cbn [fst snd]. rewrite app_nil_r. reflexivity.
  - rewrite bind_assoc, bind_mylog_run.
    unfold after, bind, exit, said. cbn [fst snd]. rewrite app_nil_r. reflexivity.
Qed.

(** X3.  When [ssh] or [rsync] is not found on the path, the run logs at
    error level which one is missing ([ssh] is looked for first) and exits
    with status 1 right after the start-up records: the start record is
    not logged and no command is run. *)
Theorem missing_program_is_fatal :
  forall (w : World) (opts : list opt) (o : flags) (d : dict) (h : list event),
    option_loop w opts default_flags h = ([], Normal o) ->
    settings w (setting_file o) = Some (VDict d) ->
    which w "ssh" = None \/ which w "rsync" = None ->
    let missing := match which w "ssh" with None => "ssh" | Some _ => "rsync" end in
    let es :=
      startup_events w o d
      ++ said o ERROR [Val (VStr missing); Lit " binary not found. Abort execution";
                       Lit nl] in
    sync_nodes w (Some opts) h = (es, SysExit 1) /\ commands es = [].
Proof.
  intros w opts o d h Hopt Hset Hwhich missing es. split.
  - apply missing_program_run; assumption.
  - unfold es. rewrite commands_app, commands_startup, commands_said. reflexivity.
Qed.

(** X3 in a sample installation without [rsync]. *)
Lemma missing_program_is_fatal_witness :
  sync_nodes (Sample.no_rsync (VDict Sample.one_node)) (Some []) [] =
  ([ Configured [ Val (VStr "/opt/sync_nodes/bin"); Lit "/../log/"; Val (VStr "202211");
                  Lit "-"; Val (VStr "sync_nodes.log") ] INFO;
     Logged INFO [Lit "--------"];
     Logged DEBUG [Lit "Settings file loaded"];
     Logged DEBUG [Lit "Looking for binaries path"];
     Logged ERROR [Val (VStr "rsync"); Lit " binary not found. Abort execution"; Lit nl] ],
   SysExit 1).
Proof.
  exact (proj1 (missing_program_is_fatal (Sample.no_rsync (VDict Sample.one_node)) []
                  default_flags Sample.one_node [] eq_refl eq_refl (or_intror eq_refl))).
Defined.

Lemma document_not_a_mapping_run w opts o config h :
  option_loop w opts default_flags h = ([], Normal o) ->
  settings w (setting_file o) = Some config ->
  not_a_mapping config = true ->
  sync_nodes w (Some opts) h = ([], Uncaught TypeError).
Proof.
  intros Hopt Hset Hnot. unfold sync_nodes.
  rewrite (bind_pure _ _ _ _ Hopt).
  rewrite bind_pure with (a := config)
    by (unfold load_settings; rewrite Hset; destruct config; try discriminate; reflexivity).
  destruct config; try discriminate; reflexivity.
Qed.

(** X4.  A settings file whose document is neither null nor a mapping (a
    scalar or a list) is not reported as wrongly formatted: the run ends
    with an uncaught TypeError at lines 126-127, before the log file is
    set up and without any message. *)
Theorem document_not_a_mapping_raises :
  forall (w : World) (opts : list opt) (o : flags) (config : value) (h : list event),
    option_loop w opts default_flags h = ([], Normal o) ->
    settings w (setting_file o) = Some config ->
    not_a_mapping config = true ->
    sync_nodes w (Some opts) h = ([], Uncaught TypeError).
Proof.
  intros w opts o config h. apply document_not_a_mapping_run.
Qed.

(** X4 on a document that is a list. *)
Lemma document_not_a_mapping_raises_witness :
  sync_nodes (Sample.world Sample.a_list Sample.all_well) (Some []) [] =
  ([], Uncaught TypeError).
Proof.
  exact (document_not_a_mapping_raises (Sample.world Sample.a_list Sample.all_well) []
           default_flags Sample.a_list [] eq_refl eq_refl eq_refl).
Defined.



(** ** Failures that no handler catches *)

(** X6.  A transfer or a service command that cannot be started is not
    one of the failures the loops recover from: only a return code other
    than 0 is caught (lines 204 and 229).  The turn ends in an uncaught
    OSError right after the command, with no record of it, and the loop
    stops there, leaving the remaining folders or services untried. *)
Theorem command_not_started_is_uncaught :
  forall (w : World) (o : flags) (ssh rsync : string) (config node : dict)
         (user port address : value),
    dict_get "user" node = Some user ->
    dict_get "ssh-port" node = Some port ->
    dict_get "address" node = Some address ->
    (forall id_f fd ids path argv rest h,
        dict_get "folders" node = Some (VList ids) ->
        existsb (fun x => eq_str x id_f) ids = true ->
        dict_get "path" fd = Some path ->
        shlex_split w (rsync_text rsync user port (options_of fd) path address
                         (dest_of fd path)) = Some argv ->
        subprocess_run w
          (h ++ said o INFO [Lit "Syncing "; Val (VStr id_f); Lit " folder ..."]) argv
          = NotLaunched ->
        folders_loop w o rsync config node ((id_f, VDict fd) :: rest) h =
        (said o INFO [Lit "Syncing "; Val (VStr id_f); Lit " folder ..."] ++ [Ran argv],
         Uncaught OSError))
    /\ (forall id_n id_s sd method name argv rest h,
           dict_get "method" sd = Some method ->
           dict_get "name" sd = Some name ->
           shlex_split w (service_text ssh port user address (sudo_of sd) method name)
             = Some argv ->
           subprocess_run w
             (h ++ said o INFO [Lit "Trying service "; Val (VStr id_s); Lit " ";
                                Val method; Lit " ..."]) argv
             = NotLaunched ->
           services_loop w o ssh config node id_n ((id_s, VDict sd) :: rest) h =
           (said o INFO [Lit "Trying service "; Val (VStr id_s); Lit " "; Val method;
                         Lit " ..."] ++ [Ran argv],
            Uncaught OSError)).
Proof.
  intros w o ssh rsync config node user port address Hu Hpo Ha. split.
  - intros id_f fd ids path argv rest h Hsel Hin Hp Hs Hrun.
    cbn [folders_loop]. apply bind_uncaught.
    rewrite (folder_body_attempt w o rsync config node id_f fd ids user port address
               path argv h Hsel Hin Hu Hpo Ha Hp Hs).
    cbv zeta. rewrite Hrun. unfold after. cbn [fst snd]. rewrite app_nil_r. reflexivity.
  - intros id_n id_s sd method name argv rest h Hme Hna Hs Hrun.
    cbn [services_loop]. apply bind_uncaught.
    rewrite (service_body_attempt w o ssh config node id_n id_s sd user port address
               method name argv h Hu Hpo Ha Hme Hna Hs).
    cbv zeta. rewrite Hrun. unfold after. cbn [fst snd]. rewrite app_nil_r. reflexivity.
Qed.

(** X6 on the sample node when [rsync] cannot be started: the loop stops
    at [site] and [etc] is not tried. *)
Lemma command_not_started_is_uncaught_witness :
  folders_loop (Sample.world (VDict Sample.one_node) Sample.rsync_not_started)
    default_flags "/usr/bin/rsync" Sample.one_node_defaulted Sample.web1_resolved
    [ ("site", VDict Sample.site); ("etc", VDict Sample.etc) ] [] =
  ([ Logged INFO [Lit "Syncing "; Val (VStr "site"); Lit " folder ..."];
     Ran Sample.rsync_site_web1 ],
   Uncaught OSError).
Proof.
  exact (proj1 (command_not_started_is_uncaught
                  (Sample.world (VDict Sample.one_node) Sample.rsync_not_started)
                  default_flags "/usr/bin/ssh" "/usr/bin/rsync" Sample.one_node_defaulted
                  Sample.web1_resolved (VStr "root") (VInt 22) (VStr "10.0.0.1")
                  eq_refl eq_refl eq_refl)
           "site" Sample.site [VStr "site"; VStr "etc"] (VStr "/srv/site")
           Sample.rsync_site_web1 [ ("etc", VDict Sample.etc) ] []
           eq_refl eq_refl eq_refl eq_refl eq_refl).
Defined.

(** X7.  The probe's handler catches every failure of [subprocess.run],
    but the command line is tokenized before the [try] (line 175): when
    [shlex.split] rejects the probe text, the node is not skipped; the
    turn ends in an uncaught ValueError after the connecting record, no
    command is run and the node loop stops. *)
Theorem probe_that_does_not_tokenize_is_uncaught :
  forall (w : World) (o : flags) (ssh rsync : string) (config : dict)
         (id_n : string) (nd : dict) (address : value) (rest : dict) (h : list event),
    dict_get "address" nd = Some address ->
    shlex_split w (probe_text ssh (port_of nd) (user_of w nd) address) = None ->
    nodes_loop w o ssh rsync config ((id_n, VDict nd) :: rest) h =
    (said o INFO [Lit "Connecting to "; Val address; Lit ":"; Val (port_of nd); Lit " ..."],
     Uncaught ValueError).
Proof.
  intros w o ssh rsync config id_n nd address rest h Ha Hs.
  cbn [nodes_loop]. apply bind_uncaught. unfold node_body.
  rewrite (bind_getitem _ _ address)
    by (rewrite node_defaults_other by discriminate; exact Ha).
  rewrite (bind_getitem _ _ _ _ _ (node_defaults_port w nd)).
  rewrite bind_log.
  rewrite (bind_pure _ _ _ _ (probe_command_run w ssh nd address _ Ha)).
  rewrite bind_uncaught with (es := []) (e := ValueError)
    by (unfold split; rewrite Hs; reflexivity).
  unfold after. cbn [fst snd]. rewrite app_nil_r. reflexivity.
Qed.

(** X7 on the sample node with a tokenizer that rejects every text. *)
Lemma probe_that_does_not_tokenize_is_uncaught_witness :
  nodes_loop (Sample.no_tokens (VDict Sample.one_node)) default_flags
    "/usr/bin/ssh" "/usr/bin/rsync" Sample.one_node_defaulted
    [ ("web1", VDict Sample.web1) ] [] =
  ([ Logged INFO [Lit "Connecting to "; Val (VStr "10.0.0.1"); Lit ":"; Val (VInt 22);
                  Lit " ..."] ],
   Uncaught ValueError).
Proof.
  exact (probe_that_does_not_tokenize_is_uncaught
           (Sample.no_tokens (VDict Sample.one_node)) default_flags
           "/usr/bin/ssh" "/usr/bin/rsync" Sample.one_node_defaulted "web1" Sample.web1
           (VStr "10.0.0.1") [] [] eq_refl eq_refl).
Defined.

(** What [time.sleep] does with a value, read off [pause_error]. *)
Lemma time_sleep_error w v e h :
  pause_error w v = Some e -> time_sleep w v h = ([], Uncaught e).
Proof.
  assert (Hs : forall n, seconds_error w n = Some e ->
                         sleep_seconds w n h = ([], Uncaught e)).
  { intros n. unfold seconds_error, sleep_seconds.
    destruct (sleep_cap <? Z.abs n)%Z, (n <? 0)%Z, (os_sleep w n);
      intros H; inversion H; reflexivity. }
  destruct v; cbn [pause_error time_sleep]; try apply Hs;
    intros H; inversion H; reflexivity.
Qed.

Lemma time_sleep_taken w v h :
  pause_error w v = None -> exists n, time_sleep w v h = ([Slept n], Normal tt).
Proof.
  assert (Hs : forall n, seconds_error w n = None ->
                         sleep_seconds w n h = ([Slept n], Normal tt)).
  { intros n. unfold seconds_error, sleep_seconds.
    destruct (sleep_cap <? Z.abs n)%Z, (n <? 0)%Z, (os_sleep w n);
      intros H; inversion H; reflexivity. }
  destruct v; cbn [pause_error time_sleep]; try discriminate;
    intros H; eexists; apply Hs, H.
Qed.

Lemma pause_then_error {A} w config key (a : A) pause e :
  dict_get key config = Some pause -> pause_error w pause = Some e ->
  pause_then w config key a = ([], Uncaught e).
Proof.
  intros E He. unfold pause_then. rewrite E, (time_sleep_error w pause e [] He).
  reflexivity.
Qed.

(** X8.  A pause setting that [time.sleep] rejects (a negative number, a
    number too large for it or for the platform, a text, null, a list or a
    mapping) does not stop the run at start-up.  It goes unnoticed while
    transfers fail, and ends the run with the exception of [time.sleep]
    after the two records of the first transfer that returns 0.  The
    transfers are those whose output decodes. *)
Theorem bad_pause_raises_after_first_success :
  forall (w : World) (o : flags) (rsync : string) (config node : dict)
         (id_f : string) (fd : dict) (ids : list value)
         (user port address path pause : value) (e : exn) (argv : list string)
         (rc : Z) (out : string) (h : list event),
    dict_get "folders" node = Some (VList ids) ->
    existsb (fun x => eq_str x id_f) ids = true ->
    dict_get "user" node = Some user ->
    dict_get "ssh-port" node = Some port ->
    dict_get "address" node = Some address ->
    dict_get "path" fd = Some path ->
    dict_get "sleep-time-folders" config = Some pause ->
    pause_error w pause = Some e ->
    shlex_split w (rsync_text rsync user port (options_of fd) path address
                     (dest_of fd path)) = Some argv ->
    subprocess_run w
      (h ++ said o INFO [Lit "Syncing "; Val (VStr id_f); Lit " folder ..."]) argv
      = Completed rc out ->
    folder_body w o rsync config node id_f (VDict fd) h =
    (said o INFO [Lit "Syncing "; Val (VStr id_f); Lit " folder ..."]
     ++ [Ran argv]
     ++ (if (rc =? 0)%Z then
           said o DEBUG [Lit "rsync output:"; Lit nl; Val (VStr out)]
           ++ said o INFO [Val (VStr id_f); Lit " successfully synced"]
         else
           said o ERROR [Lit "rsync output:"; Lit nl; Val (VStr out)]
           ++ said o ERROR [Lit "Skipped folder "; Val (VStr id_f)]),
     if (rc =? 0)%Z then Uncaught e else Normal (VDict (folder_defaulted fd path))).
Proof.
  intros w o rsync config node id_f fd ids user port address path pause e argv rc out h
         Hsel Hin Hu Hpo Ha Hp Hpause He Hs Hrun.
  rewrite (folder_body_attempt w o rsync config node id_f fd ids user port address
             path argv h Hsel Hin Hu Hpo Ha Hp Hs).
  cbv zeta. rewrite Hrun. destruct (rc =? 0)%Z.
  - rewrite (pause_then_error w _ _ _ _ _ Hpause He). unfold after. cbn [fst snd].
    rewrite app_nil_r, <- !app_assoc. reflexivity.
  - unfold after. cbn [fst snd]. rewrite <- !app_assoc. reflexivity.
Qed.

(** X8 on the sample node with a pause of -1 second. *)
Lemma bad_pause_raises_after_first_success_witness :
  folder_body (Sample.world (VDict Sample.one_node) Sample.all_well) default_flags
    "/usr/bin/rsync" Sample.negative_pause Sample.web1_resolved "site"
    (VDict Sample.site) [] =
  ([ Logged INFO [Lit "Syncing "; Val (VStr "site"); Lit " folder ..."];
     Ran Sample.rsync_site_web1;
     Logged DEBUG [Lit "rsync output:"; Lit nl; Val (VStr "ok")];
     Logged INFO [Val (VStr "site"); Lit " successfully synced"] ],
   Uncaught ValueError).
Proof.
  exact (bad_pause_raises_after_first_success
           (Sample.world (VDict Sample.one_node) Sample.all_well) default_flags
           "/usr/bin/rsync" Sample.negative_pause Sample.web1_resolved "site" Sample.site
           [VStr "site"; VStr "etc"] (VStr "root") (VInt 22) (VStr "10.0.0.1")
           (VStr "/srv/site") (VInt (-1)) ValueError Sample.rsync_site_web1 0%Z "ok" []
           eq_refl eq_refl eq_refl eq_refl eq_refl eq_refl eq_refl eq_refl eq_refl eq_refl).
Defined.

(** ** Defaults applied again *)

Lemma options_of_not_none fd : is_none (options_of fd) = false.
Proof.
  unfold options_of. destruct (dict_get "rsync-options" fd) as [v|]; [|reflexivity].
  destruct (is_none v) eqn:E; [reflexivity|exact E].
Qed.

Lemma dict_has_of_get k d v : dict_get k d = Some v -> dict_has k d = true.
Proof. intros H. unfold dict_has. rewrite H. reflexivity. Qed.

(** X9.  The defaults are written into the shared entries, and writing
    them again changes nothing: a node, a folder or a service that has
    been through its defaults comes out of them as it went in, and a
    defaulted folder still yields the options and the destination it was
    given first.  So every later node builds the transfer of a folder, and
    the command of a service, from the same values as the first one. *)
Theorem defaults_apply_once :
  (forall (w : World) (nd : dict),
      node_defaults w (node_defaults w nd) = node_defaults w nd)
  /\ (forall (fd : dict) (path : value) (h : list event),
         folder_defaults (folder_defaulted fd path) h
         = ([], Normal (folder_defaulted fd path)))
  /\ (forall (fd : dict) (path path' : value),
         options_of (folder_defaulted fd path) = options_of fd
         /\ dest_of (folder_defaulted fd path) path' = dest_of fd path)
  /\ (forall sd : dict,
         service_defaults (service_defaults sd) = service_defaults sd
         /\ sudo_of (service_defaults sd) = sudo_of sd).
Proof.
  split; [|split; [|split]].
  - intros w nd. unfold node_defaults at 1.
    rewrite (dict_has_of_get _ _ _ (node_defaults_port w nd)). cbn [negb].
    rewrite (dict_has_of_get _ _ _ (node_defaults_user w nd)). reflexivity.
  - intros fd path h. unfold folder_defaults.
    rewrite (dict_has_of_get _ _ _ (folder_defaulted_options fd path)).
    rewrite (folder_defaulted_options fd path), options_of_not_none. cbn [negb orb].
    rewrite (dict_has_of_get _ _ _ (folder_defaulted_dest fd path)). reflexivity.
  - intros fd path path'. split.
    + unfold options_of at 1. rewrite folder_defaulted_options, options_of_not_none.
      reflexivity.
    + unfold dest_of at 1. rewrite folder_defaulted_dest. reflexivity.
  - intros sd. split.
    + unfold service_defaults at 1.
      rewrite (dict_has_of_get _ _ _ (service_defaults_sudo sd)). reflexivity.
    + unfold sudo_of at 1. rewrite service_defaults_sudo. reflexivity.
Qed.

(** ** Properties that every stretch of a run keeps *)

Section Adds.

Variable Q : list event -> Prop.
Hypothesis Q_nil : Q [].
Hypothesis Q_app : forall es es', Q es -> Q es' -> Q (es ++ es').

Lemma adds_silent {A} (m : M A) : silent m -> adds Q m.
Proof. intros Hs h. rewrite Hs. exact Q_nil. Qed.

Lemma adds_bind {A B} (m : M A) (f : A -> M B) :
  adds Q m -> (forall a, adds Q (f a)) -> adds Q (bind m f).
Proof.
  intros Hm Hf h. unfold bind. pose proof (Hm h) as H1.
  destruct (m h) as [es1 [a|c|e]]; cbn in H1; cbn; try exact H1.
  pose proof (Hf a (h ++ es1)) as H2. destruct (f a (h ++ es1)) as [es2 r].
  cbn in *. apply Q_app; assumption.
Qed.

Lemma adds_exit {A} c : adds Q (@exit A c).
Proof. intros h. exact Q_nil. Qed.

Variable w : World.
Variable o : flags.
Variable ssh rsync : string.
Hypothesis Q_said : forall lvl msg, Q (said o lvl msg).
Hypothesis Q_ran : forall argv, Q [Ran argv].
Hypothesis Q_slept : forall n, Q [Slept n].

Lemma adds_log lvl msg : adds Q (log o lvl msg).
Proof. intros h. rewrite log_run. apply Q_said. Qed.

Lemma adds_mylog lvl msg : adds Q (mylog (debug o) (foreground o) (quiet o) lvl msg).
Proof. apply adds_log. Qed.

Lemma adds_run argv : adds Q (run w argv).
Proof. intros h. apply Q_ran. Qed.

Lemma adds_time_sleep v : adds Q (time_sleep w v).
Proof.
  intros h. destruct (time_sleep_adds w v h) as [E|[n E]]; rewrite E;
    [exact Q_nil|apply Q_slept].
Qed.

Ltac adds_step :=
  first
    [ apply adds_bind; [|intros]
    | apply adds_log
    | apply adds_mylog
    | apply adds_run
    | apply adds_time_sleep
    | apply adds_exit
    | apply adds_silent;
      first [ apply silent_ret | apply silent_raise | apply silent_getitem
            | apply silent_contains | apply silent_items | apply silent_len
            | apply silent_split | apply silent_folder_defaults
            | apply silent_rsync_command | apply silent_service_command
            | apply silent_probe_command ] ].

Ltac adds_case :=
  match goal with
  | |- adds _ (if ?c then _ else _) => destruct c
  | |- adds _ (match ?x with _ => _ end) => destruct x
  end.

Ltac adds_auto := repeat first [ adds_step | adds_case ].

Lemma adds_folder_body config node id_f folder :
  adds Q (folder_body w o rsync config node id_f folder).
Proof. unfold folder_body, continue. adds_auto. Qed.

Lemma adds_folders_loop config node fs :
  adds Q (folders_loop w o rsync config node fs).
Proof.
  induction fs as [|[id_f folder] rest IH]; cbn [folders_loop].
  - adds_auto.
  - apply adds_bind; [apply adds_folder_body|intros].
    apply adds_bind; [apply IH|intros]. adds_auto.
Qed.

Lemma adds_service_body config node id_n id_s service :
  adds Q (service_body w o ssh config node id_n id_s service).
Proof. unfold service_body, continue. adds_auto. Qed.

Lemma adds_services_loop config node id_n ss :
  adds Q (services_loop w o ssh config node id_n ss).
Proof.
  induction ss as [|[id_s service] rest IH]; cbn [services_loop].
  - adds_auto.
  - apply adds_bind; [apply adds_service_body|intros].
    apply adds_bind; [apply IH|intros]. adds_auto.
Qed.

Lemma adds_node_work config node id_n :
  adds Q (node_work w o ssh rsync config node id_n).
Proof.
  unfold node_work.
  apply adds_bind; [adds_auto|intros].
  apply adds_bind; [adds_auto|intros].
  apply adds_bind; [apply adds_folders_loop|intros].
  unfold services_stage.
  apply adds_bind; [adds_auto|intros enabled].
  destruct (truthy enabled); [|adds_auto].
  apply adds_bind; [adds_auto|intros].
  apply adds_bind; [adds_auto|intros].
  apply adds_bind; [apply adds_services_loop|intros]. adds_auto.
Qed.

Lemma adds_node_body config id_n node :
  adds Q (node_body w o ssh rsync config id_n node).
Proof.
  unfold node_body, continue. destruct node; try solve [adds_auto].
  do 6 (apply adds_bind; [adds_auto|intros]).
  destruct (returned_zero a4); [|adds_auto].
  apply adds_bind; [unfold resolve_folders; adds_auto|intros [nd'|]].
  - apply adds_node_work.
  - adds_auto.
Qed.

Lemma adds_nodes_loop nodes : forall config,
  adds Q (nodes_loop w o ssh rsync config nodes).
Proof.
  induction nodes as [|[id_n node] rest IH]; intros config; cbn [nodes_loop].
  - adds_auto.
  - apply adds_bind; [apply adds_node_body|intros]. apply IH.
Qed.

Lemma adds_execution config : adds Q (execution w o ssh rsync config).
Proof.
  unfold execution.
  apply adds_bind; [adds_auto|intros].
  apply adds_bind; [adds_auto|intros nodes].
  destruct (is_none nodes); [adds_auto|].
  do 6 (apply adds_bind; [adds_auto|intros]).
  apply adds_bind; [adds_auto|intros].
  apply adds_bind; [adds_auto|intros].
  apply adds_bind; [apply adds_nodes_loop|intros]. adds_auto.
Qed.

Lemma adds_find_binaries : adds Q (find_binaries w o).
Proof. unfold find_binaries. adds_auto. Qed.

End Adds.

(** A run whose options hold no [-h] and whose settings file holds a
    mapping: the start-up events, then the search for the programs and
    the execution. *)
Lemma sync_nodes_loaded w opts o d h :
  option_loop w opts default_flags h = ([], Normal o) ->
  settings w (setting_file o) = Some (VDict d) ->
  sync_nodes w (Some opts) h =
  after (startup_events w o d)
    ((bin_path <- find_binaries w o ;;
      execution w o (fst bin_path) (snd bin_path) (top_defaults d))
       (h ++ startup_events w o d)).
Proof.
  intros Hopt Hset. unfold sync_nodes.
  rewrite (bind_pure _ _ _ _ Hopt).
  rewrite bind_pure with (a := VDict d)
    by (unfold load_settings; rewrite Hset; reflexivity).
  rewrite (bind_normal _ _ _ _ _ (startup_run w o d h)). reflexivity.
Qed.

(** ** The console *)

Lemma prints_app es es' : prints (es ++ es') = prints es ++ prints es'.
Proof.
  induction es as [|e es IH]; [reflexivity|].
  destruct e; cbn; rewrite IH; reflexivity.
Qed.

Lemma console_follows_nil o : console_follows o [].
Proof. reflexivity. Qed.

Lemma console_follows_app o es es' :
  console_follows o es -> console_follows o es' -> console_follows o (es ++ es').
Proof.
  unfold console_follows, echoed. intros H1 H2.
  rewrite prints_app, records_app, filter_app, map_app, H1, H2. reflexivity.
Qed.

Lemma console_follows_said o lvl msg : console_follows o (said o lvl msg).
Proof.
  unfold console_follows, echoed, said, mylog_events, echo_wanted. cbn.
  destruct (foreground o && _); reflexivity.
Qed.

Lemma console_follows_startup w o d : console_follows o (startup_events w o d).
Proof.
  unfold startup_events.
  change (console_follows o
            ([Configured [Val (VStr (mypath w)); Lit "/../log/"; Val (VStr (today w));
                          Lit "-"; Val (log_name d)] (log_level o)]
             ++ said o INFO [Lit "--------"]
             ++ said o DEBUG [Lit "Settings file loaded"]
             ++ said o DEBUG [Lit "Looking for binaries path"])).
  repeat apply console_follows_app; try apply console_follows_said. reflexivity.
Qed.

(** X10.  Once the settings file has been read, the console shows the
    messages of the records and nothing else, each right after its
    record: under [-f] every error record, the info records unless [-q]
    is given and the debug records only when [-d] is given; without [-f]
    nothing at all.  The echo of debug records follows [-d] even when a
    later [-q] keeps them out of the log file. *)
Theorem console_shows_the_records_the_flags_select :
  forall (w : World) (opts : list opt) (o : flags) (config : value) (h : list event),
    option_loop w opts default_flags h = ([], Normal o) ->
    settings w (setting_file o) = Some config ->
    is_none config = false ->
    let es := fst (sync_nodes w (Some opts) h) in
    prints es = echoed o (records es)
    /\ (foreground o = false -> prints es = []).
Proof.
  intros w opts o config h Hopt Hset Hnn es.
  assert (H : console_follows o es).
  { unfold es. destruct config as [| | | | |d]; try discriminate;
      try (rewrite (document_not_a_mapping_run w opts o _ h Hopt Hset eq_refl);
           reflexivity).
    rewrite (sync_nodes_loaded w opts o d h Hopt Hset). unfold after. cbn [fst].
    apply console_follows_app; [apply console_follows_startup|].
    apply (adds_bind (console_follows o) (console_follows_app o)).
    - apply adds_find_binaries;
        [apply console_follows_nil|apply console_follows_app
        |apply console_follows_said].
    - intros bin. apply adds_execution;
        [apply console_follows_nil|apply console_follows_app
        |apply console_follows_said|reflexivity|reflexivity]. }
  split; [exact H|].
  intros Hf. rewrite H. unfold echoed, echo_wanted. rewrite Hf. cbn.
  induction (records es); [reflexivity|assumption].
Qed.

(** X10 under [-f -d -q] on the document whose [nodes] entry is null:
    the console shows the two debug messages and none of the info
    messages, which [-q] silences. *)
Lemma console_shows_the_records_the_flags_select_witness :
  prints (fst (sync_nodes (Sample.world (VDict Sample.null_nodes) Sample.all_well)
                 (Some [Opt_f; Opt_d; Opt_q]) []))
  = [ [Lit "Settings file loaded"]; [Lit "Looking for binaries path"] ].
Proof.
  rewrite (proj1 (console_shows_the_records_the_flags_select
                    (Sample.world (VDict Sample.null_nodes) Sample.all_well)
                    [Opt_f; Opt_d; Opt_q]
                    {| log_level := ERROR; debug := true; foreground := true;
                       quiet := true; setting_file := None |}
                    (VDict Sample.null_nodes) [] eq_refl eq_refl eq_refl)).
  reflexivity.
Defined.

(** ** The exit status *)

Lemma ends_well_bind {A B} (m : M A) (f : A -> M B) h :
  no_exit m -> (forall a h', ends_well (snd (f a h'))) -> ends_well (snd (bind m f h)).
Proof.
  intros Hm Hf. unfold bind. pose proof (Hm h) as H1.
  destruct (m h) as [es1 [a|c|e]]; cbn in *.
  - specialize (Hf a (h ++ es1)). destruct (f a (h ++ es1)). exact Hf.
  - exfalso. apply (H1 c). reflexivity.
  - exact I.
Qed.

Lemma no_exit_nodes_loop w o ssh rsync nodes : forall config,
  no_exit (nodes_loop w o ssh rsync config nodes).
Proof.
  induction nodes as [|[id_n node] rest IH]; intros config; cbn [nodes_loop].
  - no_exit_auto.
  - apply no_exit_bind; [apply no_exit_node_body|intros]. apply IH.
Qed.

Lemma execution_ends_well w o ssh rsync config h :
  ends_well (snd (execution w o ssh rsync config h)).
Proof.
  unfold execution.
  apply ends_well_bind; [no_exit_auto|intros _ h1].
  apply ends_well_bind; [no_exit_auto|intros nodes h2].
  destruct (is_none nodes).
  - apply ends_well_bind; [no_exit_auto|intros _ h3]. reflexivity.
  - do 6 (apply ends_well_bind; [no_exit_auto|intros]).
    apply ends_well_bind; [no_exit_auto|intros].
    apply ends_well_bind; [no_exit_auto|intros].
    apply ends_well_bind; [apply no_exit_nodes_loop|intros].
    apply ends_well_bind; [no_exit_auto|intros]. reflexivity.
Qed.

(** X11.  A run always ends, by [exit] or by an uncaught exception, with
    exit status 0 or 1: the script calls [exit] with 0 or 1 only, and the
    interpreter reports 1 for an uncaught exception.  The script itself
    calls [exit(1)] only before the execution starts (rejected options, no
    settings file, an empty document, a missing program), when no command
    has been run and no pause taken.  So a run that ends with status 1
    after a command or a pause has ended in an uncaught exception; no
    return code of a probe, a transfer or a service command makes the
    script call [exit(1)]. *)
Theorem status_1_after_a_command_is_a_crash :
  forall (w : World) (argv : option (list opt)) (h : list event),
    let run := sync_nodes w argv h in
    (exit_status (snd run) = Some 0%Z \/ exit_status (snd run) = Some 1%Z)
    /\ (snd run = SysExit 1%Z -> commands (fst run) = [] /\ sleeps (fst run) = [])
    /\ (exit_status (snd run) = Some 1%Z ->
        commands (fst run) <> [] \/ sleeps (fst run) <> [] ->
        exists e, snd run = Uncaught e).
Proof.
  intros w argv h run.
  assert (H : match snd run with
              | Normal _ => False
              | SysExit c =>
                  c = 0%Z \/ (c = 1%Z /\ commands (fst run) = [] /\ sleeps (fst run) = [])
              | Uncaught _ => True
              end).
  { unfold run. destruct argv as [opts|]; [|cbn; right; auto].
    destruct (flag_given Opt_h opts) eqn:Hh.
    - unfold sync_nodes.
      rewrite (bind_exit_first _ _ _ _ _ (option_loop_help w opts Hh default_flags h)).
      left. reflexivity.
    - destruct (option_loop_flags w opts Hh default_flags h) as (o & Hopt & _).
      destruct (settings w (setting_file o)) as [config|] eqn:Hset.
      + destruct config as [| | | | |d];
          try (rewrite (document_not_a_mapping_run w opts o _ h Hopt Hset eq_refl);
               exact I).
        * unfold sync_nodes. rewrite (bind_pure _ _ _ _ Hopt).
          unfold load_settings. rewrite Hset. cbn. right. auto.
        * destruct (which w "ssh") as [ssh|] eqn:Hs;
            [destruct (which w "rsync") as [rsync|] eqn:Hr|].
          -- rewrite (sync_nodes_started w opts o d ssh rsync h Hopt Hset Hs Hr).
             unfold after. cbn [snd].
             pose proof (execution_ends_well w o ssh rsync (top_defaults d)
                           (h ++ startup_events w o d)) as H.
             destruct (snd (execution w o ssh rsync (top_defaults d)
                              (h ++ startup_events w o d))); cbn in H; auto.
          -- rewrite (missing_program_run w opts o d h Hopt Hset (or_intror Hr)).
             cbn [fst snd]. right.
             rewrite commands_app, commands_startup, commands_said.
             rewrite sleeps_app, sleeps_startup, sleeps_said. auto.
          -- rewrite (missing_program_run w opts o d h Hopt Hset (or_introl Hs)).
             cbn [fst snd]. right.
             rewrite commands_app, commands_startup, commands_said.
             rewrite sleeps_app, sleeps_startup, sleeps_said. auto.
      + unfold sync_nodes. rewrite (bind_pure _ _ _ _ Hopt).
        unfold load_settings. rewrite Hset. cbn. right. auto. }
  destruct (snd run) as [a|c|e]; cbn [exit_status].
  - contradiction.
  - destruct H as [->|(-> & Hc & Hs)].
    + split; [left; reflexivity|]. split; [discriminate|discriminate].
    + split; [right; reflexivity|]. split; [auto|].
      intros _ [Hne|Hne]; contradiction.
  - split; [right; reflexivity|]. split; [discriminate|]. eauto.
Qed.

(** ** What the loops leave of the document *)

Lemma keys_set_present k v d :
  dict_has k d = true -> keys (dict_set k v d) = keys d.
Proof.
  unfold dict_has, keys. induction d as [|[k' v'] d IH]; cbn; [discriminate|].
  destruct (String.eqb k k') eqn:E; cbn; intros H; [reflexivity|].
  rewrite IH by exact H. reflexivity.
Qed.

Lemma getitem_inv k d h es v :
  getitem k d h = (es, Normal v) -> dict_get k d = Some v.
Proof.
  unfold getitem. destruct (dict_get k d); intros H; inversion H. reflexivity.
Qed.

Lemma items_inv v h es d : items v h = (es, Normal d) -> v = VDict d.
Proof. destruct v; intros H; inversion H. reflexivity. Qed.

Lemma folders_loop_keys w o rsync config node fs :
  forall h es fs',
    folders_loop w o rsync config node fs h = (es, Normal fs') -> keys fs' = keys fs.
Proof.
  induction fs as [|[id_f folder] rest IH]; intros h es fs' H.
  - inversion H. reflexivity.
  - cbn [folders_loop] in H.
    apply bind_inv_normal in H. destruct H as (es1 & folder' & es2 & _ & H & _).
    apply bind_inv_normal in H. destruct H as (es3 & rest' & es4 & Hl & H & _).
    inversion H. subst. pose proof (IH _ _ _ Hl) as Hk.
    unfold keys in *. cbn. rewrite Hk. reflexivity.
Qed.

Lemma services_loop_keys w o ssh config node id_n ss :
  forall h es ss',
    services_loop w o ssh config node id_n ss h = (es, Normal ss') -> keys ss' = keys ss.
Proof.
  induction ss as [|[id_s service] rest IH]; intros h es ss' H.
  - inversion H. reflexivity.
  - cbn [services_loop] in H.
    apply bind_inv_normal in H. destruct H as (es1 & service' & es2 & _ & H & _).
    apply bind_inv_normal in H. destruct H as (es3 & rest' & es4 & Hl & H & _).
    inversion H. subst. pose proof (IH _ _ _ Hl) as Hk.
    unfold keys in *. cbn. rewrite Hk. reflexivity.
Qed.

Lemma only_entries_change_refl config : only_entries_change config config.
Proof. repeat split; eauto. Qed.

Lemma only_entries_change_trans c1 c2 c3 :
  only_entries_change c1 c2 -> only_entries_change c2 c3 -> only_entries_change c1 c3.
Proof.
  intros (K1 & O1 & F1 & S1) (K2 & O2 & F2 & S2). split; [congruence|].
  split; [intros k H1 H2; rewrite O2, O1 by assumption; reflexivity|].
  split.
  - intros fs H. destruct (F1 fs H) as (fs' & H' & Hk).
    destruct (F2 fs' H') as (fs'' & H'' & Hk'). exists fs''. split; congruence.
  - intros ss H. destruct (S1 ss H) as (ss' & H' & Hk).
    destruct (S2 ss' H') as (ss'' & H'' & Hk'). exists ss''. split; congruence.
Qed.

Lemma only_entries_change_folders config fs fs' :
  dict_get "folders" config = Some (VDict fs) -> keys fs' = keys fs ->
  only_entries_change config (dict_set "folders" (VDict fs') config).
Proof.
  intros Hf Hk. split; [apply keys_set_present, (dict_has_of_get _ _ _ Hf)|].
  split; [intros k H1 H2; apply dict_get_set_other; exact H1|].
  split.
  - intros fs0 H0. rewrite Hf in H0. inversion H0. subst.
    exists fs'. split; [apply dict_get_set_same|exact Hk].
  - intros ss H. exists ss. split; [|reflexivity].
    rewrite dict_get_set_other by discriminate. exact H.
Qed.

Lemma only_entries_change_services config ss ss' :
  dict_get "services" config = Some (VDict ss) -> keys ss' = keys ss ->
  only_entries_change config (dict_set "services" (VDict ss') config).
Proof.
  intros Hs Hk. split; [apply keys_set_present, (dict_has_of_get _ _ _ Hs)|].
  split; [intros k H1 H2; apply dict_get_set_other; exact H2|].
  split.
  - intros fs H. exists fs. split; [|reflexivity].
    rewrite dict_get_set_other by discriminate. exact H.
  - intros ss0 H0. rewrite Hs in H0. inversion H0. subst.
    exists ss'. split; [apply dict_get_set_same|exact Hk].
Qed.

Lemma services_stage_frame w o ssh config node id_n h es config' :
  services_stage w o ssh config node id_n h = (es, Normal config') ->
  only_entries_change config config'.
Proof.
  intros H. unfold services_stage in H.
  apply bind_silent_inv in H; [|apply silent_getitem].
  destruct H as (enabled & _ & H).
  destruct (truthy enabled).
  - apply bind_silent_inv in H; [|apply silent_getitem].
    destruct H as (services & Hs & H). apply getitem_inv in Hs.
    apply bind_silent_inv in H; [|apply silent_items].
    destruct H as (ss & Hi & H). apply items_inv in Hi. subst services.
    apply bind_inv_normal in H. destruct H as (es1 & ss' & es2 & Hl & H & _).
    inversion H. subst.
    apply only_entries_change_services with (ss := ss); [exact Hs|].
    apply (services_loop_keys _ _ _ _ _ _ _ _ _ _ Hl).
  - inversion H. apply only_entries_change_refl.
Qed.

Lemma node_work_frame w o ssh rsync config node id_n h es config' :
  node_work w o ssh rsync config node id_n h = (es, Normal config') ->
  only_entries_change config config'.
Proof.
  intros H. unfold node_work in H.
  apply bind_silent_inv in H; [|apply silent_getitem].
  destruct H as (folders & Hf & H). apply getitem_inv in Hf.
  apply bind_silent_inv in H; [|apply silent_items].
  destruct H as (fs & Hi & H). apply items_inv in Hi. subst folders.
  apply bind_inv_normal in H. destruct H as (es1 & fs' & es2 & Hl & H & _).
  apply services_stage_frame in H.
  eapply only_entries_change_trans; [|exact H].
  apply only_entries_change_folders with (fs := fs); [exact Hf|].
  apply (folders_loop_keys _ _ _ _ _ _ _ _ _ Hl).
Qed.

Lemma node_body_frame w o ssh rsync config id_n node h es config' :
  node_body w o ssh rsync config id_n node h = (es, Normal config') ->
  only_entries_change config config'.
Proof.
  intros H. unfold node_body in H. destruct node as [| | | | |nd]; try discriminate.
  apply bind_silent_inv in H; [|apply silent_getitem].
  destruct H as (address & _ & H).
  apply bind_silent_inv in H; [|apply silent_getitem].
  destruct H as (port & _ & H).
  rewrite bind_log in H. apply after_inv in H. destruct H as (es1 & H & _).
  apply bind_silent_inv in H; [|apply silent_probe_command].
  destruct H as (cmd & _ & H).
  apply bind_silent_inv in H; [|apply silent_split].
  destruct H as (argv & _ & H).
  rewrite bind_run in H. apply after_inv in H. destruct H as (es2 & H & _).
  destruct (returned_zero _).
  - apply bind_inv_normal in H. destruct H as (es3 & resolved & es4 & _ & H & _).
    destruct resolved as [nd'|].
    + apply node_work_frame in H. exact H.
    + inversion H. apply only_entries_change_refl.
  - rewrite bind_log in H. apply after_inv in H. destruct H as (es3 & H & _).
    inversion H. apply only_entries_change_refl.
Qed.

(** X12.  A node loop that runs to its end hands on the document with
    its keys in the same order and with the same value under every key
    other than [folders], [services] and [nodes], so the pause settings
    and [enable-services] are the same for every node; under [folders]
    and [services] the identifiers and their order are kept, only what the
    entries hold may have been filled in.  The entries under [nodes]
    receive the port, the user and the resolved selector of lines 169,
    171 and 183, and nothing is said of them here. *)
Theorem node_loop_changes_entries_only :
  forall (w : World) (o : flags) (ssh rsync : string) (nodes config : dict)
         (h es : list event) (config' : dict),
    nodes_loop w o ssh rsync config nodes h = (es, Normal config') ->
    keys config' = keys config
    /\ (forall k, k <> "folders" -> k <> "services" -> k <> "nodes" ->
                  dict_get k config' = dict_get k config)
    /\ (forall fs, dict_get "folders" config = Some (VDict fs) ->
                   exists fs', dict_get "folders" config' = Some (VDict fs')
                               /\ keys fs' = keys fs)
    /\ (forall ss, dict_get "services" config = Some (VDict ss) ->
                   exists ss', dict_get "services" config' = Some (VDict ss')
                               /\ keys ss' = keys ss).
Proof.
  intros w o ssh rsync nodes config h es config' H.
  assert (Hall : only_entries_change config config').
  { revert config h es config' H.
    induction nodes as [|[id_n node] rest IH]; intros config h es config' H.
    - inversion H. apply only_entries_change_refl.
    - cbn [nodes_loop] in H.
      apply bind_inv_normal in H. destruct H as (es1 & config1 & es2 & Hb & H & _).
      apply node_body_frame in Hb. apply IH in H.
      exact (only_entries_change_trans _ _ _ Hb H). }
  destruct Hall as (Hk & Ho & Hf & Hs).
  split; [exact Hk|]. split; [intros k H1 H2 _; apply Ho; assumption|].
  split; assumption.
Qed.

(** X12 on the sample document with two nodes: after the loop the
    [folders] entry still lists [site] and [etc], in that order. *)
Lemma node_loop_changes_entries_only_witness :
  exists fs',
    dict_get "folders"
      (match snd (nodes_loop (Sample.world (VDict Sample.one_node) Sample.all_well)
                    default_flags "/usr/bin/ssh" "/usr/bin/rsync"
                    Sample.one_node_defaulted
                    [ ("web1", VDict Sample.web1); ("web2", VDict Sample.web2) ] [])
       with Normal c => c | _ => [] end)
    = Some (VDict fs')
    /\ keys fs' = [ "site"; "etc" ].
Proof.
  refine (proj1 (proj2 (proj2 (node_loop_changes_entries_only
                                 (Sample.world (VDict Sample.one_node) Sample.all_well)
                                 default_flags "/usr/bin/ssh" "/usr/bin/rsync"
                                 [ ("web1", VDict Sample.web1); ("web2", VDict Sample.web2) ]
                                 Sample.one_node_defaulted [] _ _ _)))
            [ ("site", VDict Sample.site); ("etc", VDict Sample.etc) ] eq_refl).
  vm_compute. reflexivity.
Defined.

(** ** The services of a node *)

Lemma tried_app es es' : tried (es ++ es') = tried es ++ tried es'.
Proof.
  induction es as [|e es IH]; [reflexivity|].
  cbn. destruct (trying_id e); cbn; rewrite IH; reflexivity.
Qed.

Lemma tried_said_trying o id_s method :
  tried (said o INFO [Lit "Trying service "; Val (VStr id_s); Lit " "; Val method;
                      Lit " ..."]) = [id_s].
Proof. unfold said, mylog_events. destruct (foreground o && _); reflexivity. Qed.

Lemma tried_said_other o lvl msg :
  trying_id (Logged lvl msg) = None -> tried (said o lvl msg) = [].
Proof.
  intros H. unfold said, mylog_events.
  destruct (foreground o && _); cbn [tried]; rewrite H; reflexivity.
Qed.

Lemma pause_then_sleeps_only {A} w config key (a : A) :
  tried (fst (pause_then w config key a)) = []
  /\ commands (fst (pause_then w config key a)) = [].
Proof.
  unfold pause_then. destruct (dict_get key config) as [v|]; [|split; reflexivity].
  cbn [fst]. destruct (time_sleep_adds w v []) as [E|[n E]]; rewrite E;
    split; reflexivity.
Qed.

(** A turn of the service loop that ends normally announced its service
    and ran one command. *)
Lemma service_body_tried w o ssh config node id_n id_s service h es r :
  service_body w o ssh config node id_n id_s service h = (es, Normal r) ->
  tried es = [id_s] /\ List.length (commands es) = 1.
Proof.
  intros H. unfold service_body in H.
  destruct service as [| | | | |sd]; try discriminate.
  apply bind_silent_inv in H; [|apply silent_getitem].
  destruct H as (method & _ & H).
  rewrite bind_log in H. apply after_inv in H. destruct H as (es2 & H & ->).
  rewrite tried_app, tried_said_trying, commands_app, commands_said.
  apply bind_silent_inv in H; [|apply silent_service_command].
  destruct H as (cmd & _ & H).
  apply bind_silent_inv in H; [|apply silent_split].
  destruct H as (argv & _ & H).
  rewrite bind_run in H. apply after_inv in H. destruct H as (es3 & H & ->).
  destruct (subprocess_run w _ argv) as [rc out| |rc]; [|discriminate..].
  destruct (rc =? 0)%Z.
  - rewrite bind_log, bind_log, after_after, pause_then_run in H.
    apply after_inv in H. destruct H as (es4 & H & ->).
    destruct (pause_then_sleeps_only w config "sleep-time-services"
                (VDict (service_defaults sd))) as [Ht Hc].
    rewrite H in Ht, Hc. cbn [fst] in Ht, Hc.
    rewrite !tried_app, !commands_app, !commands_said.
    rewrite !tried_said_other by reflexivity. cbn. rewrite Ht, Hc. auto.
  - rewrite bind_log, bind_log, after_after in H.
    apply after_inv in H. destruct H as (es4 & H & ->). inversion H. subst.
    rewrite !tried_app, !commands_app, !commands_said.
    rewrite !tried_said_other by reflexivity. cbn. auto.
Qed.

Lemma services_loop_tried w o ssh config node id_n ss :
  forall h es ss',
    services_loop w o ssh config node id_n ss h = (es, Normal ss') ->
    tried es = keys ss /\ List.length (commands es) = List.length ss.
Proof.
  induction ss as [|[id_s service] rest IH]; intros h es ss' H.
  - inversion H. auto.
  - cbn [services_loop] in H.
    apply bind_inv_normal in H. destruct H as (es1 & service' & es2 & Hb & H & ->).
    apply bind_inv_normal in H. destruct H as (es3 & rest' & es4 & Hl & H & ->).
    inversion H. subst. rewrite app_nil_r, tried_app, commands_app, length_app.
    destruct (service_body_tried _ _ _ _ _ _ _ _ _ _ _ Hb) as [-> ->].
    destruct (IH _ _ _ Hl) as [-> ->]. auto.
Qed.

(** X13.  The services are not selected per node.  When
    [enable-services] is false in the sense of a condition (false, 0, null,
    an empty text, list or mapping) the service stage of a node does
    nothing and does not even read [services].  Otherwise, whenever the
    stage runs to its end, it has tried every configured service once, in
    configuration order, with one command each. *)
Theorem every_service_is_tried_on_every_node :
  forall (w : World) (o : flags) (ssh : string) (config node : dict) (id_n : string)
         (enabled : value) (h : list event),
    dict_get "enable-services" config = Some enabled ->
    (truthy enabled = false ->
     services_stage w o ssh config node id_n h = ([], Normal config))
    /\ (truthy enabled = true ->
        forall ss es config',
          dict_get "services" config = Some (VDict ss) ->
          services_stage w o ssh config node id_n h = (es, Normal config') ->
          tried es = keys ss /\ List.length (commands es) = List.length ss).
Proof.
  intros w o ssh config node id_n enabled h He. split.
  - intros Hf. unfold services_stage. rewrite (bind_getitem _ _ _ _ _ He), Hf.
    reflexivity.
  - intros Ht ss es config' Hs H. unfold services_stage in H.
    rewrite (bind_getitem _ _ _ _ _ He), Ht in H.
    rewrite (bind_getitem _ _ _ _ _ Hs) in H. cbn [items] in H. rewrite bind_ret in H.
    apply bind_inv_normal in H. destruct H as (es1 & ss' & es2 & Hl & H & ->).
    inversion H. subst. rewrite app_nil_r.
    apply (services_loop_tried _ _ _ _ _ _ _ _ _ _ Hl).
Qed.

(** X13 on the sample node when the service command fails: the one
    configured service has been tried. *)
Lemma every_service_is_tried_on_every_node_witness :
  tried (fst (services_stage (Sample.world (VDict Sample.one_node) Sample.service_fails)
                default_flags "/usr/bin/ssh" Sample.one_node_defaulted
                Sample.web1_resolved "web1" []))
  = [ "nginx" ].
Proof.
  refine (proj1 (proj2 (every_service_is_tried_on_every_node
                          (Sample.world (VDict Sample.one_node) Sample.service_fails)
                          default_flags "/usr/bin/ssh" Sample.one_node_defaulted
                          Sample.web1_resolved "web1" (VBool true) [] eq_refl)
                   eq_refl [ ("nginx", VDict Sample.nginx) ] _ _ eq_refl _)).
  vm_compute. reflexivity.
Defined.

(** ** The nodes a run gets to *)

Lemma visited_app es es' : visited (es ++ es') = visited es ++ visited es'.
Proof.
  induction es as [|e es IH]; [reflexivity|].
  cbn. destruct (connecting e); cbn; rewrite IH; reflexivity.
Qed.

Lemma visited_said_connecting o address port :
  visited (said o INFO [Lit "Connecting to "; Val address; Lit ":"; Val port; Lit " ..."])
  = [(address, port)].
Proof. unfold said, mylog_events. destruct (foreground o && _); reflexivity. Qed.

Lemma visited_unannounced es : Forall unannounced es -> visited es = [].
Proof.
  induction 1 as [|e es He _ IH]; [reflexivity|].
  cbn. rewrite He. exact IH.
Qed.

Lemma visited_said_other o lvl msg :
  connecting (Logged lvl msg) = None -> visited (said o lvl msg) = [].
Proof.
  intros H. unfold said, mylog_events.
  destruct (foreground o && _); cbn [visited]; rewrite H; reflexivity.
Qed.

Section Announcements.

Variable w : World.
Variable o : flags.
Variable ssh rsync : string.

Lemma folder_body_unannounced config node id_f folder :
  emits unannounced (folder_body w o rsync config node id_f folder).
Proof. unfold folder_body, continue. emits_auto. Qed.

Lemma folders_loop_unannounced config node fs :
  emits unannounced (folders_loop w o rsync config node fs).
Proof.
  induction fs as [|[id_f folder] rest IH]; cbn [folders_loop].
  - emits_auto.
  - apply emits_bind; [apply folder_body_unannounced|intros].
    apply emits_bind; [apply IH|intros]. emits_auto.
Qed.

Lemma service_body_unannounced config node id_n id_s service :
  emits unannounced (service_body w o ssh config node id_n id_s service).
Proof. unfold service_body, continue. emits_auto. Qed.

Lemma services_loop_unannounced config node id_n ss :
  emits unannounced (services_loop w o ssh config node id_n ss).
Proof.
  induction ss as [|[id_s service] rest IH]; cbn [services_loop].
  - emits_auto.
  - apply emits_bind; [apply service_body_unannounced|intros].
    apply emits_bind; [apply IH|intros]. emits_auto.
Qed.

Lemma node_work_unannounced config node id_n :
  emits unannounced (node_work w o ssh rsync config node id_n).
Proof.
  unfold node_work.
  apply emits_bind; [emits_auto|intros].
  apply emits_bind; [emits_auto|intros].
  apply emits_bind; [apply folders_loop_unannounced|intros].
  unfold services_stage.
  apply emits_bind; [emits_auto|intros enabled].
  destruct (truthy enabled); [|emits_auto].
  apply emits_bind; [emits_auto|intros].
  apply emits_bind; [emits_auto|intros].
  apply emits_bind; [apply services_loop_unannounced|intros]. emits_auto.
Qed.

End Announcements.

(** ** A run that nothing stops *)

Section Ready.

Variable w : World.
Variable o : flags.
Variable ssh rsync : string.
Hypothesis world_obliging : obliging w.

Lemma tokenizes cmd : exists argv, shlex_split w cmd = Some argv.
Proof.
  destruct (shlex_split w cmd) as [argv|] eqn:E; [eauto|].
  exfalso. apply (proj1 world_obliging cmd E).
Qed.

Lemma pause_then_ok {A} config key (a : A) pause :
  dict_get key config = Some pause -> pause_error w pause = None ->
  exists es, pause_then w config key a = (es, Normal a).
Proof.
  intros E Hp. unfold pause_then. rewrite E.
  destruct (time_sleep_taken w pause [] Hp) as [n ->]. cbn. eauto.
Qed.

(** The command of the goal completes with an output that decodes. *)
Ltac command_completes rc out :=
  match goal with
  | |- context [subprocess_run w ?h0 ?argv] =>
      let Hrun := fresh "Hrun" in
      destruct (proj2 world_obliging h0 argv) as (rc & out & Hrun); rewrite Hrun
  end.

Lemma folder_body_ready config node ids user port address pause id_f folder h :
  dict_get "folders" node = Some (VList ids) ->
  dict_get "user" node = Some user ->
  dict_get "ssh-port" node = Some port ->
  dict_get "address" node = Some address ->
  dict_get "sleep-time-folders" config = Some pause ->
  pause_error w pause = None ->
  folder_ok (id_f, folder) ->
  exists es folder',
    folder_body w o rsync config node id_f folder h = (es, Normal folder')
    /\ folder_ok (id_f, folder').
Proof.
  intros Hsel Hu Hpo Ha Hpause Hperr (fd & path & Hfd & Hp). cbn in Hfd. subst folder.
  destruct (existsb (fun x => eq_str x id_f) ids) eqn:Hin.
  - destruct (tokenizes (rsync_text rsync user port (options_of fd) path address
                           (dest_of fd path))) as [argv Hs].
    rewrite (folder_body_attempt w o rsync config node id_f fd ids user port address
               path argv h Hsel Hin Hu Hpo Ha Hp Hs).
    cbv zeta.
    command_completes rc out.
    assert (Hok : folder_ok (id_f, VDict (folder_defaulted fd path))).
    { exists (folder_defaulted fd path), path. split; [reflexivity|].
      apply folder_defaulted_path, Hp. }
    destruct (rc =? 0)%Z.
    + destruct (pause_then_ok config "sleep-time-folders"
                  (VDict (folder_defaulted fd path)) pause Hpause Hperr) as [es0 ->].
      unfold after. cbn [fst snd]. eauto.
    + unfold after. cbn [fst snd]. eauto.
  - exists [], (VDict fd). split.
    + unfold folder_body. rewrite (bind_getitem _ _ _ _ _ Hsel).
      rewrite bind_pure with (a := false) by (cbn; rewrite Hin; reflexivity).
      reflexivity.
    + exists fd, path. auto.
Qed.

Lemma folders_loop_ready config node ids user port address pause fs :
  dict_get "folders" node = Some (VList ids) ->
  dict_get "user" node = Some user ->
  dict_get "ssh-port" node = Some port ->
  dict_get "address" node = Some address ->
  dict_get "sleep-time-folders" config = Some pause ->
  pause_error w pause = None ->
  Forall folder_ok fs ->
  forall h,
  exists es fs',
    folders_loop w o rsync config node fs h = (es, Normal fs') /\ Forall folder_ok fs'.
Proof.
  intros Hsel Hu Hpo Ha Hpause Hperr Hfs.
  induction Hfs as [|[id_f folder] rest Hok _ IH]; intros h.
  - exists [], []. split; [reflexivity|constructor].
  - destruct (folder_body_ready config node ids user port address pause id_f folder h
                Hsel Hu Hpo Ha Hpause Hperr Hok) as (es1 & folder' & Hb & Hok').
    destruct (IH (h ++ es1)) as (es2 & rest' & Hl & Hrest).
    exists (es1 ++ es2), ((id_f, folder') :: rest'). split.
    + cbn [folders_loop]. rewrite (bind_normal _ _ _ _ _ Hb).
      rewrite (bind_normal _ _ _ _ _ Hl). unfold after, ret. cbn [fst snd].
      rewrite app_nil_r. reflexivity.
    + constructor; assumption.
Qed.

Lemma service_body_ready config node user port address pause id_n id_s service h :
  dict_get "user" node = Some user ->
  dict_get "ssh-port" node = Some port ->
  dict_get "address" node = Some address ->
  dict_get "sleep-time-services" config = Some pause ->
  pause_error w pause = None ->
  service_ok (id_s, service) ->
  exists es service',
    service_body w o ssh config node id_n id_s service h = (es, Normal service')
    /\ service_ok (id_s, service').
Proof.
  intros Hu Hpo Ha Hpause Hperr (sd & method & name & Hsd & Hm & Hn).
  cbn in Hsd. subst service.
  destruct (tokenizes (service_text ssh port user address (sudo_of sd) method name))
    as [argv Hs].
  rewrite (service_body_attempt w o ssh config node id_n id_s sd user port address
             method name argv h Hu Hpo Ha Hm Hn Hs).
  cbv zeta.
  command_completes rc out.
  assert (Hok : service_ok (id_s, VDict (service_defaults sd))).
  { exists (service_defaults sd), method, name. split; [reflexivity|].
    rewrite !service_defaults_other by discriminate. auto. }
  destruct (rc =? 0)%Z.
  - destruct (pause_then_ok config "sleep-time-services"
                (VDict (service_defaults sd)) pause Hpause Hperr) as [es0 ->].
    unfold after. cbn [fst snd]. eauto.
  - unfold after. cbn [fst snd]. eauto.
Qed.

Lemma services_loop_ready config node user port address pause id_n ss :
  dict_get "user" node = Some user ->
  dict_get "ssh-port" node = Some port ->
  dict_get "address" node = Some address ->
  dict_get "sleep-time-services" config = Some pause ->
  pause_error w pause = None ->
  Forall service_ok ss ->
  forall h,
  exists es ss',
    services_loop w o ssh config node id_n ss h = (es, Normal ss')
    /\ Forall service_ok ss'.
Proof.
  intros Hu Hpo Ha Hpause Hperr Hss.
  induction Hss as [|[id_s service] rest Hok _ IH]; intros h.
  - exists [], []. split; [reflexivity|constructor].
  - destruct (service_body_ready config node user port address pause id_n id_s service h
                Hu Hpo Ha Hpause Hperr Hok) as (es1 & service' & Hb & Hok').
    destruct (IH (h ++ es1)) as (es2 & rest' & Hl & Hrest).
    exists (es1 ++ es2), ((id_s, service') :: rest'). split.
    + cbn [services_loop]. rewrite (bind_normal _ _ _ _ _ Hb).
      rewrite (bind_normal _ _ _ _ _ Hl). unfold after, ret. cbn [fst snd].
      rewrite app_nil_r. reflexivity.
    + constructor; assumption.
Qed.

Lemma node_work_ready config node ids user port address id_n h :
  dict_get "folders" node = Some (VList ids) ->
  dict_get "user" node = Some user ->
  dict_get "ssh-port" node = Some port ->
  dict_get "address" node = Some address ->
  ready w config ->
  exists es config',
    node_work w o ssh rsync config node id_n h = (es, Normal config') /\ ready w config'.
Proof.
  intros Hsel Hu Hpo Ha
         ((fs & Hfs & Hfok) & (enabled & Hen & Hserv) & (pf & Hpf & Hpfe)
          & (ps & Hps & Hpse)).
  destruct (folders_loop_ready config node ids user port address pf fs
              Hsel Hu Hpo Ha Hpf Hpfe Hfok h) as (es1 & fs' & Hl & Hfok').
  set (config1 := dict_set "folders" (VDict fs') config).
  assert (Hready1 : ready w config1).
  { unfold config1. split; [|split; [|split]].
    - exists fs'. split; [apply dict_get_set_same|exact Hfok'].
    - exists enabled. split; [rewrite dict_get_set_other by discriminate; exact Hen|].
      intros Ht. destruct (Hserv Ht) as (ss & Hss & Hsok). exists ss.
      split; [rewrite dict_get_set_other by discriminate; exact Hss|exact Hsok].
    - exists pf. split; [rewrite dict_get_set_other by discriminate; exact Hpf|exact Hpfe].
    - exists ps. split; [rewrite dict_get_set_other by discriminate; exact Hps|exact Hpse]. }
  assert (Hen1 : dict_get "enable-services" config1 = Some enabled)
    by (unfold config1; rewrite dict_get_set_other by discriminate; exact Hen).
  assert (Hstage : exists es2 config',
             services_stage w o ssh config1 node id_n (h ++ es1) = (es2, Normal config')
             /\ ready w config').
  { unfold services_stage. rewrite (bind_getitem _ _ _ _ _ Hen1).
    destruct (truthy enabled) eqn:Ht.
    - destruct (Hserv eq_refl) as (ss & Hss & Hsok).
      assert (Hss1 : dict_get "services" config1 = Some (VDict ss))
        by (unfold config1; rewrite dict_get_set_other by discriminate; exact Hss).
      assert (Hps1 : dict_get "sleep-time-services" config1 = Some ps)
        by (unfold config1; rewrite dict_get_set_other by discriminate; exact Hps).
      destruct (services_loop_ready config1 node user port address ps id_n ss
                  Hu Hpo Ha Hps1 Hpse Hsok (h ++ es1)) as (es2 & ss' & Hsl & Hsok').
      exists es2, (dict_set "services" (VDict ss') config1). split.
      + rewrite (bind_getitem _ _ _ _ _ Hss1). cbn [items]. rewrite bind_ret.
        rewrite (bind_normal _ _ _ _ _ Hsl). unfold after, ret. cbn [fst snd].
        rewrite app_nil_r. reflexivity.
      + destruct Hready1 as ((fs1 & Hfs1 & Hfok1) & _ & (pf1 & Hpf1 & Hpfe1)
                             & (ps1 & Hps1' & Hpse1)).
        split; [|split; [|split]].
        * exists fs1. split; [rewrite dict_get_set_other by discriminate; exact Hfs1
                             |exact Hfok1].
        * exists enabled.
          split; [rewrite dict_get_set_other by discriminate; exact Hen1|].
          intros _. exists ss'. split; [apply dict_get_set_same|exact Hsok'].
        * exists pf1. split; [rewrite dict_get_set_other by discriminate; exact Hpf1
                             |exact Hpfe1].
        * exists ps1. split; [rewrite dict_get_set_other by discriminate; exact Hps1'
                             |exact Hpse1].
    - exists [], config1. split; [reflexivity|exact Hready1]. }
  destruct Hstage as (es2 & config' & Hst & Hready').
  exists (es1 ++ es2), config'. split; [|exact Hready'].
  unfold node_work. rewrite (bind_getitem _ _ _ _ _ Hfs). cbn [items]. rewrite bind_ret.
  rewrite (bind_normal _ _ _ _ _ Hl). fold config1. rewrite Hst. reflexivity.
Qed.

Lemma node_body_ready config id_n node h :
  ready w config -> node_ok (id_n, node) ->
  exists es config',
    node_body w o ssh rsync config id_n node h = (es, Normal config')
    /\ ready w config'
    /\ exists seen, visited es = [seen] /\ announces seen (id_n, node).
Proof.
  intros Hready (nd & address & selector & Hnd & Ha & Hsel). cbn in Hnd. subst node.
  assert (Hseen : announces (address, port_of nd) (id_n, VDict nd))
    by (exists nd; auto).
  destruct (tokenizes (probe_text ssh (port_of nd) (user_of w nd) address)) as [argv Hs].
  rewrite (node_body_probe w o ssh rsync config id_n nd address argv h Ha Hs).
  cbv zeta.
  destruct (returned_zero _).
  - assert (Hsel' : dict_get "folders" (node_defaults w nd) = Some selector)
      by (rewrite node_defaults_other by discriminate; exact Hsel).
    assert (Ha' : dict_get "address" (node_defaults w nd) = Some address)
      by (rewrite node_defaults_other by discriminate; exact Ha).
    destruct Hready as ((fs & Hfs & Hfok) & Hrest).
    rewrite (bind_pure _ _ _ _
               (resolve_folders_run o config (node_defaults w nd) id_n selector fs _
                  Hsel' Hfs)).
    assert (Hwork : exists ids node',
               (if isinstance_list selector then node_defaults w nd
                else dict_set "folders" (VList (map VStr (keys fs))) (node_defaults w nd))
               = node'
               /\ dict_get "folders" node' = Some (VList ids)
               /\ dict_get "user" node' = Some (user_of w nd)
               /\ dict_get "ssh-port" node' = Some (port_of nd)
               /\ dict_get "address" node' = Some address).
    { destruct selector as [| | | |ids|]; cbn [isinstance_list];
        try (exists (map VStr (keys fs)); eexists; split; [reflexivity|];
             rewrite dict_get_set_same, !dict_get_set_other by discriminate;
             rewrite node_defaults_user, node_defaults_port; auto).
      exists ids. eexists. split; [reflexivity|].
      rewrite node_defaults_user, node_defaults_port. auto. }
    destruct Hwork as (ids & node' & -> & Hf' & Hu' & Hp' & Ha'').
    destruct (node_work_ready config node' ids (user_of w nd) (port_of nd) address id_n
                (h ++
                 said o INFO [Lit "Connecting to "; Val address; Lit ":";
                              Val (port_of nd); Lit " ..."] ++ [Ran argv])
                Hf' Hu' Hp' Ha'' (conj (ex_intro _ fs (conj Hfs Hfok)) Hrest))
      as (es & config' & Hw & Hready').
    pose proof (node_work_unannounced w o ssh rsync config node' id_n
                  (h ++
                   said o INFO [Lit "Connecting to "; Val address; Lit ":";
                                Val (port_of nd); Lit " ..."] ++ [Ran argv])) as Hq.
    rewrite Hw in *. cbn [fst] in Hq. unfold after. cbn [fst snd].
    eexists. eexists. split; [reflexivity|]. split; [exact Hready'|].
    exists (address, port_of nd). split; [|exact Hseen].
    rewrite !visited_app, visited_said_connecting, (visited_unannounced es Hq).
    reflexivity.
  - unfold after. cbn [fst snd].
    eexists. eexists. split; [reflexivity|]. split; [exact Hready|].
    exists (address, port_of nd). split; [|exact Hseen].
    rewrite !visited_app, visited_said_connecting, app_nil_r.
    rewrite visited_said_other by reflexivity. reflexivity.
Qed.

Lemma nodes_loop_ready nodes :
  Forall node_ok nodes ->
  forall config h,
    ready w config ->
    exists es config',
      nodes_loop w o ssh rsync config nodes h = (es, Normal config')
      /\ ready w config'
      /\ Forall2 announces (visited es) nodes.
Proof.
  induction 1 as [|[id_n node] rest Hok _ IH]; intros config h Hready.
  - exists [], config. split; [reflexivity|]. split; [exact Hready|constructor].
  - destruct (node_body_ready config id_n node h Hready Hok)
      as (es1 & config1 & Hb & Hready1 & seen & Hv & Hseen).
    destruct (IH config1 (h ++ es1) Hready1) as (es2 & config' & Hl & Hready' & Hall).
    exists (es1 ++ es2), config'. split; [|split; [exact Hready'|]].
    + cbn [nodes_loop]. rewrite (bind_normal _ _ _ _ _ Hb), Hl. reflexivity.
    + rewrite visited_app, Hv. constructor; assumption.
Qed.

Lemma execution_ready config nodes h :
  dict_get "nodes" config = Some (VDict nodes) ->
  Forall node_ok nodes ->
  ready w config ->
  exists es,
    execution w o ssh rsync config h =
    (es ++ said o INFO [Lit "End execution"; Lit nl], SysExit 0)
    /\ Forall2 announces (visited es) nodes.
Proof.
  intros Hn Hnodes Hready.
  pose proof Hready as ((fs & Hfs & _) & (enabled & Hen & Hserv) & _).
  unfold execution. rewrite bind_log.
  rewrite (bind_getitem _ _ _ _ _ Hn). cbn [is_none len]. rewrite bind_ret, bind_log.
  rewrite (bind_getitem _ _ _ _ _ Hfs). cbn [len]. rewrite bind_ret, bind_log.
  rewrite (bind_getitem _ _ _ _ _ Hen).
  set (h3 := ((h ++ _) ++ _) ++ _).
  assert (Hlen : exists es3,
             (if truthy enabled
              then services <- getitem "services" config ;;
                   n <- len services ;;
                   log o DEBUG [Lit "Loaded "; Val (VInt n); Lit " services"]
              else ret tt) h3 = (es3, Normal tt)
             /\ visited es3 = []).
  { destruct (truthy enabled) eqn:Ht; [|exists []; split; reflexivity].
    destruct (Hserv eq_refl) as (ss & Hss & _).
    rewrite (bind_getitem _ _ _ _ _ Hss). cbn [len]. rewrite bind_ret, log_run.
    eexists. split; [reflexivity|]. apply visited_said_other. reflexivity. }
  destruct Hlen as (es3 & Hlen & Hv3). rewrite (bind_normal _ _ _ _ _ Hlen).
  cbn [items]. rewrite bind_ret.
  destruct (nodes_loop_ready nodes Hnodes config (h3 ++ es3) Hready)
    as (es4 & config' & Hl & _ & Hall).
  rewrite (bind_normal _ _ _ _ _ Hl), bind_log.
  unfold after, exit. cbn [fst snd]. rewrite app_nil_r.
  eexists. split; [rewrite !app_assoc; reflexivity|].
  rewrite !visited_app, Hv3, !visited_said_other by reflexivity. exact Hall.
Qed.

End Ready.

Lemma visited_startup w o d : visited (startup_events w o d) = [].
Proof.
  unfold startup_events. cbn [visited connecting].
  rewrite !visited_app, !visited_said_other by reflexivity. reflexivity.
Qed.

(** X14.  A run on a complete document goes through every node and exits
    with status 0 whatever the commands return.  Complete means: every
    node is a mapping with an address and a folder selector, every folder
    one with a path, every service (when services are enabled) one with a
    method and a name, and both pause settings are taken by [time.sleep]
    in this world; the world is one in which every command text
    tokenizes and every command can be started and gives an output that
    decodes.  Every node is then announced, in the order of the document,
    with its address and its port or 22, and the last record is the end
    record: no failed probe, transfer or service command ends the run
    early or changes its exit status. *)
Theorem complete_document_runs_to_the_end :
  forall (w : World) (opts : list opt) (o : flags) (d : dict) (ssh rsync : string)
         (nodes : dict) (h : list event),
    option_loop w opts default_flags h = ([], Normal o) ->
    settings w (setting_file o) = Some (VDict d) ->
    which w "ssh" = Some ssh ->
    which w "rsync" = Some rsync ->
    dict_get "nodes" d = Some (VDict nodes) ->
    Forall node_ok nodes ->
    ready w (top_defaults d) ->
    obliging w ->
    exists es,
      sync_nodes w (Some opts) h =
      (es ++ said o INFO [Lit "End execution"; Lit nl], SysExit 0)
      /\ Forall2 announces (visited es) nodes.
Proof.
  intros w opts o d ssh rsync nodes h Hopt Hset Hs Hr Hn Hnodes Hready Hw.
  rewrite (sync_nodes_started w opts o d ssh rsync h Hopt Hset Hs Hr).
  assert (Hn' : dict_get "nodes" (top_defaults d) = Some (VDict nodes))
    by (rewrite top_defaults_other by discriminate; exact Hn).
  destruct (execution_ready w o ssh rsync Hw (top_defaults d) nodes
              (h ++ startup_events w o d) Hn' Hnodes Hready) as (es & -> & Hall).
  exists (startup_events w o d ++ es). unfold after. cbn [fst snd]. split.
  - rewrite app_assoc. reflexivity.
  - rewrite visited_app, visited_startup. exact Hall.
Qed.

(** X14 on the sample document with two nodes, in a world where every
    transfer and every service command returns 1: both nodes are
    announced and the run exits with status 0. *)
Lemma complete_document_runs_to_the_end_witness :
  exists es,
    sync_nodes (Sample.hard_times (VDict Sample.two_nodes)) (Some []) [] =
    (es ++ [Logged INFO [Lit "End execution"; Lit nl]], SysExit 0)
    /\ Forall2 announces (visited es)
         [ ("web1", VDict Sample.web1); ("web2", VDict Sample.web2) ].
Proof.
  refine (complete_document_runs_to_the_end
            (Sample.hard_times (VDict Sample.two_nodes)) [] default_flags
            Sample.two_nodes "/usr/bin/ssh" "/usr/bin/rsync"
            [ ("web1", VDict Sample.web1); ("web2", VDict Sample.web2) ] []
            eq_refl eq_refl eq_refl eq_refl eq_refl _ _ _).
  - repeat constructor.
    + exists Sample.web1, (VStr "10.0.0.1"), (VStr "all"). repeat split.
    + exists Sample.web2, (VStr "10.0.0.2"), (VList [VStr "site"; VStr "missing"]).
      repeat split.
  - split; [|split; [|split]].
    + exists [ ("site", VDict Sample.site); ("etc", VDict Sample.etc) ].
      split; [reflexivity|]. repeat constructor.
      * exists Sample.site, (VStr "/srv/site"). split; reflexivity.
      * exists Sample.etc, (VStr "/etc/app"). split; reflexivity.
    + exists (VBool true). split; [reflexivity|]. intros _.
      exists [ ("nginx", VDict Sample.nginx) ]. split; [reflexivity|].
      repeat constructor.
      exists Sample.nginx, (VStr "reload"), (VStr "nginx"). repeat split.
    + exists (VInt 3). split; reflexivity.
    + exists (VInt 1). split; reflexivity.
  - split.
    + intros cmd. discriminate.
    + intros h argv. cbn. unfold Sample.only_probe_succeeds.
      destruct (existsb _ argv); eauto.
Defined.

(** ** Entries with something missing *)

(** X15.  A folder entry is looked at only by the nodes that select it.
    For a node that does not, the turn does nothing and leaves the entry
    as it is, whatever it holds.  For a node that does, an entry that is
    not a mapping ends the run with TypeError and one without [path] with
    KeyError: before any record when it has no [dest] either, after the
    record that announces the transfer when it has one.  No command is
    run in either case. *)
Theorem folder_entry_is_read_when_selected :
  forall (w : World) (o : flags) (rsync : string) (config node : dict)
         (ids : list value) (user port : value) (id_f : string) (h : list event),
    dict_get "folders" node = Some (VList ids) ->
    dict_get "user" node = Some user ->
    dict_get "ssh-port" node = Some port ->
    (existsb (fun x => eq_str x id_f) ids = false ->
     forall folder,
       folder_body w o rsync config node id_f folder h = ([], Normal folder))
    /\ (existsb (fun x => eq_str x id_f) ids = true ->
        (forall folder,
            is_mapping folder = false ->
            folder_body w o rsync config node id_f folder h = ([], Uncaught TypeError))
        /\ (forall fd,
               dict_get "path" fd = None ->
               folder_body w o rsync config node id_f (VDict fd) h =
               (if dict_has "dest" fd
                then said o INFO [Lit "Syncing "; Val (VStr id_f); Lit " folder ..."]
                else [],
                Uncaught (KeyError "path")))).
Proof.
  intros w o rsync config node ids user port id_f h Hsel Hu Hpo. split.
  - intros Hin folder. unfold folder_body. rewrite (bind_getitem _ _ _ _ _ Hsel).
    rewrite bind_pure with (a := false) by (cbn; rewrite Hin; reflexivity).
    reflexivity.
  - intros Hin. split.
    + intros folder Hm. unfold folder_body. rewrite (bind_getitem _ _ _ _ _ Hsel).
      rewrite bind_pure with (a := true) by (cbn; rewrite Hin; reflexivity).
      destruct folder; try discriminate; reflexivity.
    + intros fd Hp. unfold folder_body. rewrite (bind_getitem _ _ _ _ _ Hsel).
      rewrite bind_pure with (a := true) by (cbn; rewrite Hin; reflexivity).
      unfold folder_defaults. name_options fd1.
      assert (Hp1 : dict_get "path" fd1 = None).
      { unfold fd1. destruct (_ || _); [rewrite dict_get_set_other by discriminate|];
          exact Hp. }
      assert (Hd1 : dict_has "dest" fd1 = dict_has "dest" fd).
      { unfold fd1, dict_has. destruct (_ || _);
          [rewrite dict_get_set_other by discriminate|]; reflexivity. }
      rewrite Hd1. destruct (dict_has "dest" fd) eqn:Hd; cbn [negb].
      * assert (Ho : exists options, dict_get "rsync-options" fd1 = Some options).
        { unfold fd1. destruct (negb (dict_has "rsync-options" fd) || _) eqn:E.
          - rewrite dict_get_set_same. eauto.
          - apply orb_false_iff in E. destruct E as [E _].
            apply negb_false_iff in E. unfold dict_has in E.
            destruct (dict_get "rsync-options" fd); [eauto|discriminate]. }
        destruct Ho as (options & Ho).
        assert (Hc : forall h', rsync_command rsync node fd1 h' =
                                ([], Uncaught (KeyError "path"))).
        { intros h'. unfold rsync_command.
          rewrite (bind_getitem _ _ _ _ _ Hu), (bind_getitem _ _ _ _ _ Hpo),
            (bind_getitem _ _ _ _ _ Ho).
          apply bind_uncaught, getitem_none, Hp1. }
        rewrite bind_ret, bind_log, (bind_uncaught _ _ _ _ _ (Hc _)).
        unfold after. cbn [fst snd]. rewrite app_nil_r. reflexivity.
      * apply bind_uncaught, bind_uncaught, getitem_none, Hp1.
Qed.

(** X15 on a folder entry with a destination and no path. *)
Lemma folder_entry_is_read_when_selected_witness :
  folder_body (Sample.world (VDict Sample.one_node) Sample.all_well) default_flags
    "/usr/bin/rsync" Sample.one_node_defaulted Sample.web1_resolved "site"
    (VDict Sample.no_path) [] =
  ([ Logged INFO [Lit "Syncing "; Val (VStr "site"); Lit " folder ..."] ],
   Uncaught (KeyError "path")).
Proof.
  exact (proj2 (proj2 (folder_entry_is_read_when_selected
                         (Sample.world (VDict Sample.one_node) Sample.all_well)
                         default_flags "/usr/bin/rsync" Sample.one_node_defaulted
                         Sample.web1_resolved [VStr "site"; VStr "etc"] (VStr "root")
                         (VInt 22) "site" [] eq_refl eq_refl eq_refl)
                  eq_refl)
           Sample.no_path eq_refl).
Defined.

(** X16.  A service entry that is not a mapping ends the run with
    TypeError, one without [method] with KeyError, both before any record
    of the service; one with a method and without [name] is announced
    first and then ends the run with KeyError.  No command is run in any
    of these cases. *)
Theorem service_entry_with_something_missing :
  forall (w : World) (o : flags) (ssh : string) (config node : dict)
         (user port address : value) (id_n id_s : string) (h : list event),
    dict_get "user" node = Some user ->
    dict_get "ssh-port" node = Some port ->
    dict_get "address" node = Some address ->
    (forall service,
        is_mapping service = false ->
        service_body w o ssh config node id_n id_s service h = ([], Uncaught TypeError))
    /\ (forall sd,
           dict_get "method" sd = None ->
           service_body w o ssh config node id_n id_s (VDict sd) h =
           ([], Uncaught (KeyError "method")))
    /\ (forall sd method,
           dict_get "method" sd = Some method ->
           dict_get "name" sd = None ->
           service_body w o ssh config node id_n id_s (VDict sd) h =
           (said o INFO [Lit "Trying service "; Val (VStr id_s); Lit " "; Val method;
                         Lit " ..."],
            Uncaught (KeyError "name"))).
Proof.
  intros w o ssh config node user port address id_n id_s h Hu Hpo Ha.
  split; [|split].
  - intros service Hm. destruct service; try discriminate; reflexivity.
  - intros sd Hm. unfold service_body.
    apply bind_uncaught, getitem_none, Hm.
  - intros sd method Hm Hn. unfold service_body.
    assert (Hc : forall h', service_command ssh node (service_defaults sd) h' =
                            ([], Uncaught (KeyError "name"))).
    { intros h'. unfold service_command.
      rewrite (bind_getitem _ _ _ _ _ Hpo), (bind_getitem _ _ _ _ _ Hu),
        (bind_getitem _ _ _ _ _ Ha), (bind_getitem _ _ _ _ _ (service_defaults_sudo sd)).
      rewrite (bind_getitem "method" _ method)
        by (rewrite service_defaults_other by discriminate; exact Hm).
      apply bind_uncaught, getitem_none.
      rewrite service_defaults_other by discriminate. exact Hn. }
    rewrite (bind_getitem _ _ _ _ _ Hm), bind_log, (bind_uncaught _ _ _ _ _ (Hc _)).
    unfold after. cbn [fst snd]. rewrite app_nil_r. reflexivity.
Qed.

(** X16 on a service entry with a method and no name. *)
Lemma service_entry_with_something_missing_witness :
  service_body (Sample.world (VDict Sample.one_node) Sample.all_well) default_flags
    "/usr/bin/ssh" Sample.one_node_defaulted Sample.web1_resolved "web1" "cron"
    (VDict Sample.no_name) [] =
  ([ Logged INFO [Lit "Trying service "; Val (VStr "cron"); Lit " ";
                  Val (VStr "restart"); Lit " ..."] ],
   Uncaught (KeyError "name")).
Proof.
  exact (proj2 (proj2 (service_entry_with_something_missing
                         (Sample.world (VDict Sample.one_node) Sample.all_well)
                         default_flags "/usr/bin/ssh" Sample.one_node_defaulted
                         Sample.web1_resolved (VStr "root") (VInt 22) (VStr "10.0.0.1")
                         "web1" "cron" [] eq_refl eq_refl eq_refl))
           Sample.no_name (VStr "restart") eq_refl eq_refl).
Defined.

(** X17.  The folder selector of a node is read after the probe, and only
    when the probe has succeeded: a node with no [folders] entry ends the
    run with KeyError once it has been reached, with the probe as its only
    command; were it not reachable it would be skipped like any other. *)
Theorem node_without_selector_raises_when_reached :
  forall (w : World) (o : flags) (ssh rsync : string) (config : dict)
         (id_n : string) (nd : dict) (address : value) (argv : list string)
         (rest : dict) (h : list event),
    dict_get "address" nd = Some address ->
    dict_get "folders" nd = None ->
    shlex_split w (probe_text ssh (port_of nd) (user_of w nd) address) = Some argv ->
    returned_zero
      (subprocess_run w
         (h ++ said o INFO [Lit "Connecting to "; Val address; Lit ":";
                            Val (port_of nd); Lit " ..."]) argv) = true ->
    nodes_loop w o ssh rsync config ((id_n, VDict nd) :: rest) h =
    (said o INFO [Lit "Connecting to "; Val address; Lit ":"; Val (port_of nd); Lit " ..."]
     ++ [Ran argv],
     Uncaught (KeyError "folders")).
Proof.
  intros w o ssh rsync config id_n nd address argv rest h Ha Hsel Hs Hok.
  cbn [nodes_loop]. apply bind_uncaught.
  rewrite (node_body_probe w o ssh rsync config id_n nd address argv h Ha Hs).
  cbv zeta. rewrite Hok. unfold resolve_folders.
  rewrite bind_assoc.
  rewrite bind_uncaught with (es := []) (e := KeyError "folders")
    by (apply getitem_none; rewrite node_defaults_other by discriminate; exact Hsel).
  unfold after. cbn [fst snd]. rewrite app_nil_r. reflexivity.
Qed.

(** X17 on a sample node that has an address and nothing else. *)
Lemma node_without_selector_raises_when_reached_witness :
  nodes_loop (Sample.world (VDict Sample.one_node) Sample.all_well) default_flags
    "/usr/bin/ssh" "/usr/bin/rsync" Sample.one_node_defaulted
    [ ("web4", VDict Sample.no_selector); ("web1", VDict Sample.web1) ] [] =
  ([ Logged INFO [Lit "Connecting to "; Val (VStr "10.0.0.4"); Lit ":"; Val (VInt 22);
                  Lit " ..."];
     Ran Sample.probe_web4 ],
   Uncaught (KeyError "folders")).
Proof.
  exact (node_without_selector_raises_when_reached
           (Sample.world (VDict Sample.one_node) Sample.all_well) default_flags
           "/usr/bin/ssh" "/usr/bin/rsync" Sample.one_node_defaulted "web4"
           Sample.no_selector (VStr "10.0.0.4") Sample.probe_web4
           [ ("web1", VDict Sample.web1) ] [] eq_refl eq_refl eq_refl eq_refl).
Defined.
